(** * AdSnap Studio: job polling, result extraction, credentials, error surfacing

    A shallow embedding of [app.py], [services/prompt_enhancement.py] and
    [services/video_generation.py]: Python values as a JSON-like inductive,
    exceptions as values of an error monad, and [st.session_state],
    [os.environ] and the outgoing calls as an explicit world threaded through
    every function.  [print] calls are not modelled, and status lines built
    by f-strings keep their fixed words only. *)

From Stdlib Require Import ZArith String Ascii List Bool Lia Permutation.
From stdpp Require Import gmap strings list pretty.
Import ListNotations.
Set Warnings "-register-all".
Local Open Scope string_scope.
Local Open Scope list_scope.
Local Open Scope Z_scope.

(** ** Python values (what [response.json()] can produce; numbers are integers) *)

Inductive pyval : Type :=
| PNone
| PBool (b : bool)
| PInt (n : Z)
| PStr (s : string)
| PList (items : list pyval)
| PDict (entries : list (string * pyval)).

(** [bool(v)] *)
Definition truthy (v : pyval) : bool :=
  match v with
  | PNone => false
  | PBool b => b
  | PInt n => negb (n =? 0)
  | PStr s => negb (String.eqb s "")
  | PList l => match l with [] => false | _ => true end
  | PDict d => match d with [] => false | _ => true end
  end.

Definition nonempty {A} (l : list A) : bool :=
  match l with [] => false | _ => true end.

Definition is_dict (v : pyval) : bool :=
  match v with PDict _ => true | _ => false end.

Definition is_list (v : pyval) : bool :=
  match v with PList _ => true | _ => false end.

(** [d[k]] on the entries of a dict *)
Fixpoint dict_get (k : string) (d : list (string * pyval)) : option pyval :=
  match d with
  | [] => None
  | (k', v) :: rest => if String.eqb k k' then Some v else dict_get k rest
  end.

(** [k in v] for a value already known to be a dict *)
Definition has_key (k : string) (v : pyval) : bool :=
  match v with
  | PDict d => match dict_get k d with Some _ => true | None => false end
  | _ => false
  end.

(** ** Exceptions: the class and [str(e)] *)

Inductive exn_class : Type :=
| IndexError | KeyError | TypeError | AttributeError | ValueError
| UnboundLocalError
| RequestException | HTTPError | JSONDecodeError | PlainException.

Record exn : Type := Exn { exn_cls : exn_class; exn_msg : string }.

Definition str (e : exn) : string := exn_msg e.

(** Outcome of a statement: a value, a raised [Exception], or Streamlit's
    rerun request, which is a [BaseException] and passes through
    [except Exception]. *)
Inductive outcome (A : Type) : Type :=
| Ok (a : A)
| Raise (e : exn)
| Rerun.
Arguments Ok {A} a.
Arguments Raise {A} e.
Arguments Rerun {A}.

(** ** The world *)

Record response : Type := Response {
  status_code : Z;
  reason : string;
  content_length : option Z;
  json_body : option pyval    (* [None]: the body is not JSON *)
}.

Inductive http_result : Type :=
| NetError (e : exn)          (* [requests] raised *)
| Answer (r : response).

Inductive ui_kind : Type := UiError | UiWarning | UiSuccess | UiInfo | UiWrite.

Inductive event : Type :=
| EvSleep (seconds : Z)
| EvHead (url : pyval)
| EvPost (url : string) (payload : list (string * pyval))
| EvService (name : string)
| EvFalSubscribe (model : string) (arguments : list (string * pyval))
| EvFalSubmit (model : string) (arguments : list (string * pyval))
| EvUi (kind : ui_kind) (msg : string).

Record session_state : Type := SessionState {
  api_key : option string;
  fal_api_key : option string;
  google_api_key : option string;
  generated_images : list pyval;
  edited_image : pyval;
  pending_urls : list pyval
}.

Record world : Type := World {
  session : session_state;
  environ : gmap string string;
  clock : nat;                 (* HTTP requests sent so far *)
  log : list event
}.

Definition set_pending_urls (l : list pyval) (s : session_state) : session_state :=
  {| api_key := api_key s; fal_api_key := fal_api_key s;
     google_api_key := google_api_key s;
     generated_images := generated_images s;
     edited_image := edited_image s; pending_urls := l |}.

Definition set_edited_image (v : pyval) (s : session_state) : session_state :=
  {| api_key := api_key s; fal_api_key := fal_api_key s;
     google_api_key := google_api_key s;
     generated_images := generated_images s;
     edited_image := v; pending_urls := pending_urls s |}.

Definition set_generated_images (l : list pyval) (s : session_state) : session_state :=
  {| api_key := api_key s; fal_api_key := fal_api_key s;
     google_api_key := google_api_key s;
     generated_images := l;
     edited_image := edited_image s; pending_urls := pending_urls s |}.

Definition set_fal_api_key (k : option string) (s : session_state) : session_state :=
  {| api_key := api_key s; fal_api_key := k;
     google_api_key := google_api_key s;
     generated_images := generated_images s;
     edited_image := edited_image s; pending_urls := pending_urls s |}.

Definition set_api_key (k : option string) (s : session_state) : session_state :=
  {| api_key := k; fal_api_key := fal_api_key s;
     google_api_key := google_api_key s;
     generated_images := generated_images s;
     edited_image := edited_image s; pending_urls := pending_urls s |}.

(** ** The monad of the script: world passing with exceptions *)

Definition M (A : Type) : Type := world -> outcome A * world.

Definition ret {A} (a : A) : M A := fun w => (Ok a, w).

Definition bind {A B} (m : M A) (k : A -> M B) : M B := fun w =>
  match m w with
  | (Ok a, w') => k a w'
  | (Raise e, w') => (Raise e, w')
  | (Rerun, w') => (Rerun, w')
  end.

Definition raise {A} (e : exn) : M A := fun w => (Raise e, w).

(** [try: m  except Exception as e: handler e] *)
Definition try_except {A} (m : M A) (handler : exn -> M A) : M A := fun w =>
  match m w with
  | (Raise e, w') => handler e w'
  | r => r
  end.

Definition lift {A} (r : outcome A) : M A := fun w => (r, w).

Notation "x <- m ;; k" := (bind m (fun x => k))
  (at level 200, m at level 99, right associativity, only parsing).
Notation "m ;;; k" := (bind m (fun _ => k))
  (at level 200, right associativity, only parsing).

Definition get_session : M session_state := fun w => (Ok (session w), w).

Definition modify_session (f : session_state -> session_state) : M unit := fun w =>
  (Ok tt, {| session := f (session w); environ := environ w;
             clock := clock w; log := log w |}).

Definition emit (e : event) : M unit := fun w =>
  (Ok tt, {| session := session w; environ := environ w;
             clock := clock w; log := log w ++ [e] |}).

Definition tick : M nat := fun w =>
  (Ok (clock w), {| session := session w; environ := environ w;
                    clock := S (clock w); log := log w |}).

Definition time_sleep (seconds : Z) : M unit := emit (EvSleep seconds).
Definition st_ui (k : ui_kind) (msg : string) : M unit := emit (EvUi k msg).
Definition st_rerun {A} : M A := fun w => (Rerun, w).

(** ** Job poller ([app.py], [check_generated_images] and [auto_check_images]) *)

Section Poller.

(** What the [n]-th HTTP request of the session, a HEAD to [url], meets. *)
Variable head_reply : nat -> string -> http_result.

Definition invalid_url : exn := Exn RequestException "Invalid URL".

(** [requests.head(url)]: anything that is not a string is turned into one
    by [requests] and rejected as a URL. *)
Definition head_outcome (n : nat) (url : pyval) : http_result :=
  match url with
  | PStr s => head_reply n s
  | _ => NetError invalid_url
  end.

Definition requests_head (url : pyval) : M response :=
  n <- tick ;;
  emit (EvHead url) ;;;
  match head_outcome n url with
  | NetError e => raise e
  | Answer r => ret r
  end.

(** One iteration of the [for url in st.session_state.pending_urls] body. *)
Definition check_one (url : pyval) (acc : list pyval * list pyval)
  : M (list pyval * list pyval) :=
  let '(ready_images, still_pending) := acc in
  try_except
    (resp <- requests_head url ;;
     if status_code resp =? 200
     then ret (ready_images ++ [url], still_pending)
     else ret (ready_images, still_pending ++ [url]))
    (fun _ => ret (ready_images, still_pending ++ [url])).

Fixpoint check_loop (urls : list pyval) (acc : list pyval * list pyval)
  : M (list pyval * list pyval) :=
  match urls with
  | [] => ret acc
  | url :: rest => acc' <- check_one url acc ;; check_loop rest acc'
  end.

Definition check_generated_images : M bool :=
  s <- get_session ;;
  if nonempty (pending_urls s) then
    acc <- check_loop (pending_urls s) ([], []) ;;
    let '(ready_images, still_pending) := acc in
    modify_session (set_pending_urls still_pending) ;;;
    match ready_images with
    | first :: _ =>
        modify_session (set_edited_image first) ;;;
        (if (1 <? Z.of_nat (length ready_images))
         then modify_session (set_generated_images ready_images)
         else ret tt) ;;;
        ret true
    | [] => ret false
    end
  else ret false.

Definition max_attempts : Z := 3.

(** The [while attempt < max_attempts and st.session_state.pending_urls]
    loop; [None] when the fuel runs out before the loop exits. *)
Fixpoint auto_check_while (fuel : nat) (attempt : Z) : M (option bool) :=
  match fuel with
  | O => ret None
  | S fuel' =>
      s <- get_session ;;
      if (attempt <? max_attempts) && nonempty (pending_urls s) then
        time_sleep 2 ;;;
        found <- check_generated_images ;;
        if found then
          st_ui UiSuccess "Image ready!" ;;; ret (Some true)
        else auto_check_while fuel' (attempt + 1)
      else ret (Some false)
  end.

Definition auto_check_images (fuel : nat) : M (option bool) :=
  auto_check_while fuel 0.

End Poller.

(** ** Subscripts, slices and iteration, with Python's failures *)

Definition first_char (s : string) : option string :=
  match s with
  | EmptyString => None
  | String c _ => Some (String c EmptyString)
  end.

(** [v[0]] *)
Definition index0 (v : pyval) : outcome pyval :=
  match v with
  | PList (x :: _) => Ok x
  | PList [] => Raise (Exn IndexError "list index out of range")
  | PStr s =>
      match first_char s with
      | Some c => Ok (PStr c)
      | None => Raise (Exn IndexError "string index out of range")
      end
  | PDict _ => Raise (Exn KeyError "0")
  | _ => Raise (Exn TypeError "object is not subscriptable")
  end.

(** [v[k]] for a string key *)
Definition subscript (k : string) (v : pyval) : outcome pyval :=
  match v with
  | PDict d =>
      match dict_get k d with
      | Some x => Ok x
      | None => Raise (Exn KeyError k)
      end
  | _ => Raise (Exn TypeError "indices must be integers")
  end.

(** [l[:n]] on a list: a negative [n] counts from the end. *)
Definition py_slice {A} (n : Z) (l : list A) : list A :=
  if 0 <=? n then firstn (Z.to_nat n) l
  else firstn (length l - Z.to_nat (- n))%nat l.

Definition chars (s : string) : list pyval :=
  map (fun c => PStr (String c EmptyString)) (list_ascii_of_string s).

Definition string_slice (n : Z) (s : string) : string :=
  string_of_list_ascii (py_slice n (list_ascii_of_string s)).

(** [v[:n]] *)
Definition slice_to (n : Z) (v : pyval) : outcome pyval :=
  match v with
  | PList l => Ok (PList (py_slice n l))
  | PStr s => Ok (PStr (string_slice n s))
  | PDict _ => Raise (Exn TypeError "unhashable type: 'slice'")
  | _ => Raise (Exn TypeError "object is not subscriptable")
  end.

(** What [urls.extend(v)] appends. *)
Definition iterate (v : pyval) : outcome (list pyval) :=
  match v with
  | PList l => Ok l
  | PStr s => Ok (chars s)
  | PDict d => Ok (map (fun kv => PStr (fst kv)) d)
  | _ => Raise (Exn TypeError "object is not iterable")
  end.

(** [needle in hay] on strings *)
Fixpoint contains (needle hay : string) : bool :=
  String.prefix needle hay ||
  match hay with
  | EmptyString => false
  | String _ rest => contains needle rest
  end.

Definition truthy_key (k : option string) : bool :=
  match k with
  | Some s => negb (String.eqb s "")
  | None => false
  end.

(** ** Result extraction of the lifestyle-shot handlers ([app.py], [main]) *)

Definition show_result (v : pyval) : M unit :=
  modify_session (set_edited_image v) ;;;
  st_ui UiSuccess "Image generated successfully!".

(** [for item in result["result"]] of the synchronous branch, with its
    [break]s. *)
Fixpoint sync_result_items (items : list pyval) : M unit :=
  match items with
  | [] => ret tt
  | item :: rest =>
      if is_dict item && has_key "urls" item then
        urls <- lift (subscript "urls" item) ;;
        first <- lift (index0 urls) ;;
        show_result first
      else
        match item with
        | PList l =>
            if 0 <? Z.of_nat (length l) then
              first <- lift (index0 item) ;; show_result first
            else sync_result_items rest
        | _ => sync_result_items rest
        end
  end.

(** The [result] branch shared by both synchronous probes. *)
Definition sync_nested_result (result : pyval) : option (M unit) :=
  if has_key "result" result then
    match subscript "result" result with
    | Ok (PList items) => Some (sync_result_items items)
    | _ => None
    end
  else None.

(** Lines 602-621 (and 703-722): the synchronous branch. *)
Definition lifestyle_sync_result (result : pyval) : M unit :=
  if is_dict result then
    if has_key "result_url" result then
      v <- lift (subscript "result_url" result) ;; show_result v
    else if has_key "result_urls" result then
      l <- lift (subscript "result_urls" result) ;;
      first <- lift (index0 l) ;; show_result first
    else
      match sync_nested_result result with
      | Some walk => walk
      | None =>
          if has_key "urls" result then
            l <- lift (subscript "urls" result) ;;
            first <- lift (index0 l) ;; show_result first
          else ret tt
      end
  else ret tt.

(** [for item in result["result"]] of the asynchronous branch. *)
Fixpoint async_result_items (num_results : Z) (items urls : list pyval)
  : outcome (list pyval) :=
  match items with
  | [] => Ok urls
  | item :: rest =>
      let extended :=
        if is_dict item && has_key "urls" item then
          match subscript "urls" item with
          | Ok v =>
              match iterate v with
              | Ok more => Ok (urls ++ more)
              | Raise e => Raise e
              | Rerun => Rerun
              end
          | Raise e => Raise e
          | Rerun => Rerun
          end
        else
          match item with
          | PList l => Ok (urls ++ l)
          | _ => Ok urls
          end in
      match extended with
      | Ok urls' =>
          if Z.of_nat (length urls') >=? num_results then Ok urls'
          else async_result_items num_results rest urls'
      | other => other
      end
  end.

(** Lines 623-639: the URLs an asynchronous response registers. *)
Definition collect_async_urls (num_results : Z) (result : pyval)
  : outcome (list pyval) :=
  if is_dict result then
    if has_key "urls" result then
      match subscript "urls" result with
      | Ok v =>
          match slice_to num_results v with
          | Ok part =>
              match iterate part with
              | Ok more => Ok ([] ++ more)
              | Raise e => Raise e
              | Rerun => Rerun
              end
          | Raise e => Raise e
          | Rerun => Rerun
          end
      | Raise e => Raise e
      | Rerun => Rerun
      end
    else if has_key "result" result then
      match subscript "result" result with
      | Ok (PList items) =>
          match async_result_items num_results items [] with
          | Ok urls => Ok (py_slice num_results urls)
          | other => other
          end
      | _ => Ok []
      end
    else Ok []
  else Ok [].

(** ** The action handlers of [main] *)

Inductive operation : Type :=
| HdImage | Packshot | Shadow | LifestyleText | LifestyleImage
| GenerativeFill | Erase | Video.

Definition moderation_check (e : exn) (advice : string) : M unit :=
  if contains "422" (str e) then st_ui UiWarning advice else ret tt.

(** The [except Exception as e] clause that closes each action. *)
Definition except_clause (op : operation) (e : exn) : M unit :=
  match op with
  | HdImage =>
      st_ui UiError ("Error generating images: " +:+ str e) ;;;
      st_ui UiWrite ("Full error: " +:+ str e)
  | Packshot =>
      st_ui UiError ("Error creating packshot: " +:+ str e) ;;;
      moderation_check e
        "Content moderation failed. Please ensure the image is appropriate."
  | Shadow =>
      st_ui UiError ("Error adding shadow: " +:+ str e) ;;;
      moderation_check e
        "Content moderation failed. Please ensure the image is appropriate."
  | LifestyleText | LifestyleImage =>
      st_ui UiError ("Error: " +:+ str e) ;;;
      moderation_check e
        "Content moderation failed. Please ensure the content is appropriate."
  | GenerativeFill =>
      st_ui UiError ("Error: " +:+ str e) ;;;
      st_ui UiWrite ("Full error details: " +:+ str e)
  | Erase =>
      st_ui UiError ("Error: " +:+ str e) ;;;
      moderation_check e
        "Content moderation failed. Please ensure the image is appropriate."
  | Video =>
      st_ui UiError ("Error generating video: " +:+ str e) ;;;
      st_ui UiWrite ("Full error details: " +:+ str e)
  end.

(** A call into a service module that is not part of this development: the
    call is logged and its outcome is an input. *)
Definition call_service (name : string) (reply : exn + pyval) : M pyval :=
  emit (EvService name) ;;;
  match reply with
  | inl e => raise e
  | inr v => ret v
  end.

(** [st.experimental_rerun()]: a rerun request where the installed
    Streamlit still has the function, an [AttributeError] where it was
    removed. *)
Definition st_experimental_rerun (available : bool) : M unit :=
  if available then st_rerun
  else raise (Exn AttributeError
                "module 'streamlit' has no attribute 'experimental_rerun'").

(** The "Placement Type" selection of the lifestyle-shot form. *)
Inductive placement_type : Type :=
| Original | Automatic | ManualPlacement | ManualPadding | CustomCoordinates.

(** Lines 520-537: [shot_width] and [shot_height] are assigned in the last
    branch of the chain only, which the first two selections never reach. *)
Definition shot_size_assigned (p : placement_type) : bool :=
  match p with
  | Automatic | CustomCoordinates => true
  | Original | ManualPlacement | ManualPadding => false
  end.

(** Lines 585 and 685:
    [shot_size=[shot_width, shot_height] if placement_type != "Original" else [1000, 1000]],
    evaluated before the service is called. *)
Definition shot_size_argument (p : placement_type) : M unit :=
  match p with
  | Original => ret tt
  | _ =>
      if shot_size_assigned p then ret tt
      else raise (Exn UnboundLocalError
             "cannot access local variable 'shot_width' where it is not associated with a value")
  end.

Section Handlers.

Variable head_reply : nat -> string -> http_result.

(** Whether the installed Streamlit still has [st.experimental_rerun]. *)
Variable experimental_rerun : bool.

(** [auto_check_images] as the handlers call it: the loop needs at most
    four evaluations of its condition. *)
Definition run_auto_check : M bool :=
  r <- auto_check_images head_reply 4 ;;
  match r with
  | Some found => ret found
  | None => ret false
  end.

(** Lines 644-662: the status line, the automatic check and the refresh
    button. *)
Definition poll_registered (refresh_clicked : bool) : M unit :=
  st_ui UiInfo "Generation started! Waiting for images..." ;;;
  found <- run_auto_check ;;
  (if found then st_experimental_rerun experimental_rerun else ret tt) ;;;
  if refresh_clicked then
    again <- check_generated_images head_reply ;;
    if again then
      st_ui UiSuccess "Image ready!" ;;;
      st_experimental_rerun experimental_rerun
    else
      st_ui UiWarning "Still generating your images... Please check again in a moment."
  else ret tt.

(** Lines 641-662: registering the pending URLs and polling. *)
Definition register_pending (urls : list pyval) (refresh_clicked : bool) : M unit :=
  if nonempty urls then
    modify_session (set_pending_urls urls) ;;;
    poll_registered refresh_clicked
  else ret tt.

(** Lines 597-662: what the lifestyle-shot action does with the response. *)
Definition lifestyle_on_result (sync_mode : bool) (num_results : Z)
    (refresh_clicked : bool) (result : pyval) : M unit :=
  if truthy result then
    st_ui UiWrite "Debug - Raw API Response:" ;;;
    if sync_mode then lifestyle_sync_result result
    else
      urls <- lift (collect_async_urls num_results result) ;;
      register_pending urls refresh_clicked
  else ret tt.

(** Lines 567-666: the "Generate Lifestyle Shot" action for a text
    prompt. *)
Definition lifestyle_text_action (placement : placement_type)
    (sync_mode : bool) (num_results : Z)
    (refresh_clicked : bool) (reply : exn + pyval) : M unit :=
  try_except
    (shot_size_argument placement ;;;
     result <- call_service "lifestyle_shot_by_text" reply ;;
     lifestyle_on_result sync_mode num_results refresh_clicked result)
    (except_clause LifestyleText).

End Handlers.

(** Lines 332-350: the probe of the "Generate Images" action. *)
Definition hd_image_result (result : pyval) : M unit :=
  if is_dict result then
    if has_key "result_url" result then
      v <- lift (subscript "result_url" result) ;; show_result v
    else if has_key "result_urls" result then
      l <- lift (subscript "result_urls" result) ;;
      first <- lift (index0 l) ;; show_result first
    else
      match sync_nested_result result with
      | Some walk => walk
      | None => ret tt
      end
  else st_ui UiError "No valid result format found in the API response.".

(** Lines 308-354: the "Generate Images" action. *)
Definition generate_images_action (reply : exn + pyval) : M unit :=
  s <- get_session ;;
  if negb (truthy_key (api_key s)) then
    st_ui UiError "Please enter your API key in the sidebar."
  else
    try_except
      (result <- call_service "generate_hd_image" reply ;;
       if truthy result then
         st_ui UiWrite "Debug - Raw API Response:" ;;;
         hd_image_result result
       else ret tt)
      (except_clause HdImage).

(** ** Credentials *)

Definition os_getenv (k : string) : M (option string) := fun w =>
  (Ok (environ w !! k), w).

Definition os_setenv (k v : string) : M unit := fun w =>
  (Ok tt, {| session := session w; environ := <[k := v]> (environ w);
             clock := clock w; log := log w |}).

(** [a or b] on optional strings *)
Definition py_or (a b : option string) : option string :=
  if truthy_key a then a else b.

(** [st.text_input(..., value=default)]: what the user typed, or the default
    when the field was left alone. *)
Definition text_input (default : string) (typed : option string) : string :=
  match typed with
  | Some t => t
  | None => default
  end.

(** [initialize_session_state] for the keys modelled here; [None] is a
    session in which nothing has been stored yet. *)
Definition initialize_session_state (old : option session_state) : M unit := fun w =>
  match old with
  | Some s =>
      (Ok tt, {| session := s; environ := environ w;
                 clock := clock w; log := log w |})
  | None =>
      (Ok tt, {| session := {| api_key := environ w !! "BRIA_API_KEY";
                               fal_api_key := None; google_api_key := None;
                               generated_images := []; edited_image := PNone;
                               pending_urls := [] |};
                 environ := environ w; clock := clock w; log := log w |})
  end.

(** Lines 205-212: the sidebar field of the primary backend. *)
Definition sidebar_bria_key (typed : option string) : M unit :=
  s <- get_session ;;
  let key := text_input (match py_or (api_key s) (Some "") with
                         | Some d => d | None => "" end) typed in
  if negb (String.eqb key "") then modify_session (set_api_key (Some key))
  else ret tt.

(** Lines 214-223: the sidebar field of the fal.ai backend. *)
Definition sidebar_fal_key (typed : option string) : M unit :=
  s <- get_session ;;
  e <- os_getenv "Fal.ai_LTX_API_KEY" ;;
  let fal_default :=
    match py_or (fal_api_key s)
                (Some (match e with Some v => v | None => "" end)) with
    | Some d => d | None => "" end in
  let fal_key_input := text_input fal_default typed in
  if negb (String.eqb fal_key_input "")
  then modify_session (set_fal_api_key (Some fal_key_input))
  else ret tt.

(** Line 1179 (and 1367, 1379): the key a video operation uses. *)
Definition video_fal_key : M (option string) :=
  e <- os_getenv "Fal.ai_LTX_API_KEY" ;;
  s <- get_session ;;
  ret (py_or e (fal_api_key s)).

(** Line 1305: the key of the Google Veo path. *)
Definition video_google_key : M (option string) :=
  e <- os_getenv "GOOGLE_API_KEY" ;;
  s <- get_session ;;
  ret (py_or e (google_api_key s)).

(** Lines 1179-1187: lookup, then the fallback field shown when no key was
    found. *)
Definition video_fal_key_or_ask (fallback_typed : string) : M (option string) :=
  k <- video_fal_key ;;
  if negb (truthy_key k) then
    st_ui UiError
      "Please set your fal.ai API key in the .env file or enter it in the sidebar." ;;;
    if negb (String.eqb fallback_typed "") then
      modify_session (set_fal_api_key (Some fallback_typed)) ;;;
      ret (Some fallback_typed)
    else ret k
  else ret k.

(** ** [services/video_generation.py] *)

Section VideoGeneration.

(** [fal_client.subscribe] and the request id of [fal_client.submit]. *)
Variable fal_subscribe : string -> list (string * pyval) -> exn + pyval.
Variable fal_submit :
  string -> list (string * pyval) -> option string -> exn + string.

Definition optional_entry (k : string) (v : option pyval)
  : list (string * pyval) :=
  match v with
  | Some x => [(k, x)]
  | None => []
  end.

Definition generate_video_from_image
    (image_url prompt model : string) (key : option string)
    (duration fps aspect_ratio motion_strength seed : option pyval)
    (webhook_url : option string) (sync : bool) : M pyval :=
  (if truthy_key key then
     os_setenv "FAL_KEY" (match key with Some k => k | None => "" end)
   else
     env_key <- os_getenv "FAL_KEY" ;;
     if negb (truthy_key env_key) then
       raise (Exn ValueError
         "FAL_KEY environment variable or api_key parameter must be set")
     else ret tt) ;;;
  let arguments :=
    [("image_url", PStr image_url); ("prompt", PStr prompt)]
    ++ optional_entry "duration" duration
    ++ optional_entry "fps" fps
    ++ optional_entry "aspect_ratio" aspect_ratio
    ++ optional_entry "motion_strength" motion_strength
    ++ optional_entry "seed" seed in
  try_except
    (if sync then
       emit (EvFalSubscribe model arguments) ;;;
       match fal_subscribe model arguments with
       | inl e => raise e
       | inr result => ret result
       end
     else
       emit (EvFalSubmit model arguments) ;;;
       match fal_submit model arguments webhook_url with
       | inl e => raise e
       | inr request_id =>
           ret (PDict [("request_id", PStr request_id);
                       ("status", PStr "submitted");
                       ("message", PStr "Video generation started. Use request_id to check status.")])
       end)
    (fun e => raise (Exn PlainException ("Video generation failed: " +:+ str e))).

End VideoGeneration.

(** ** [services/prompt_enhancement.py] *)

Section PromptEnhancement.

(** What the [n]-th HTTP request, a POST with this token and payload, meets. *)
Variable post_reply : nat -> string -> list (string * pyval) -> http_result.

Definition enhancer_url : string :=
  "https://engine.prod.bria-api.com/v1/prompt_enhancer".

Definition requests_post (url token : string) (payload : list (string * pyval))
  : M response :=
  n <- tick ;;
  emit (EvPost url payload) ;;;
  match post_reply n token payload with
  | NetError e => raise e
  | Answer r => ret r
  end.

(** [requests]' [Response.raise_for_status]: only 4xx and 5xx raise. *)
Definition raise_for_status (r : response) : M unit :=
  if (400 <=? status_code r) && (status_code r <? 500) then
    raise (Exn HTTPError (pretty (status_code r) +:+ " Client Error: "
                          +:+ reason r +:+ " for url: " +:+ enhancer_url))
  else if (500 <=? status_code r) && (status_code r <? 600) then
    raise (Exn HTTPError (pretty (status_code r) +:+ " Server Error: "
                          +:+ reason r +:+ " for url: " +:+ enhancer_url))
  else ret tt.

Definition response_json (r : response) : M pyval :=
  match json_body r with
  | Some v => ret v
  | None => raise (Exn JSONDecodeError "Expecting value")
  end.

(** [result.get(k, default)] *)
Definition get_method (result : pyval) (k : string) (default : pyval) : M pyval :=
  match result with
  | PDict d =>
      match dict_get k d with
      | Some v => ret v
      | None => ret default
      end
  | _ => raise (Exn AttributeError "object has no attribute 'get'")
  end.

Definition enhance_prompt (token prompt : string) (kwargs : list (string * pyval))
  : M pyval :=
  let data := ("prompt", PStr prompt) :: kwargs in
  try_except
    (resp <- requests_post enhancer_url token data ;;
     raise_for_status resp ;;;
     result <- response_json resp ;;
     get_method result "prompt variations" (PStr prompt))
    (fun _ => ret (PStr prompt)).

End PromptEnhancement.

(** ** More of [services/video_generation.py] *)

(** [if api_key: os.environ["FAL_KEY"] = api_key] *)
Definition use_key (key : option string) : M unit :=
  match key with
  | Some k => if negb (String.eqb k "") then os_setenv "FAL_KEY" k else ret tt
  | None => ret tt
  end.

Section VideoRequests.

(** [fal_client.status], [fal_client.result] and [fal_client.upload_file]. *)
Variable fal_status : string -> string -> exn + pyval.
Variable fal_result : string -> string -> exn + pyval.
Variable fal_upload_file : string -> exn + string.

Definition check_video_status (model request_id : string) (key : option string)
  : M pyval :=
  use_key key ;;;
  try_except
    (call_service "fal_client.status" (fal_status model request_id))
    (fun e => raise (Exn PlainException ("Status check failed: " +:+ str e))).

Definition get_video_result (model request_id : string) (key : option string)
  : M pyval :=
  use_key key ;;;
  try_except
    (call_service "fal_client.result" (fal_result model request_id))
    (fun e => raise (Exn PlainException ("Result retrieval failed: " +:+ str e))).

Definition upload_image_for_video (image_path : string) (key : option string)
  : M string :=
  use_key key ;;;
  try_except
    (emit (EvService "fal_client.upload_file") ;;;
     match fal_upload_file image_path with
     | inl e => raise e
     | inr url => ret url
     end)
    (fun e => raise (Exn PlainException ("Image upload failed: " +:+ str e))).

End VideoRequests.

Record video_model : Type := VideoModel {
  model_id : string;
  model_name : string;
  model_description : string;
  max_duration : Z;
  supports_fps : bool;
  supports_motion_strength : bool
}.

Definition VIDEO_MODELS : list (string * video_model) :=
  [("minimax",
    {| model_id := "fal-ai/minimax-video/image-to-video";
       model_name := "MiniMax Video";
       model_description := "Generate video clips from images using MiniMax Video model";
       max_duration := 6; supports_fps := true;
       supports_motion_strength := true |});
   ("luma",
    {| model_id := "fal-ai/luma-dream-machine";
       model_name := "Luma Dream Machine v1.5";
       model_description := "Generate video clips using Luma Dream Machine v1.5";
       max_duration := 5; supports_fps := false;
       supports_motion_strength := false |});
   ("kling",
    {| model_id := "fal-ai/kling-video/v1/standard";
       model_name := "Kling 1.0";
       model_description := "Generate video clips using Kling 1.0";
       max_duration := 10; supports_fps := true;
       supports_motion_strength := true |})].

Definition get_available_models : list (string * video_model) := VIDEO_MODELS.

(** ** The video tab of [main] (fal.ai path) *)

(** Lines 1116-1139: what the settings widgets hand over for a model; the
    frame rate and the motion strength exist only for models that support
    them. *)
Definition default_duration (m : video_model) : Z := Z.min 5 (max_duration m).

Definition fps_setting (m : video_model) (picked : Z) : option Z :=
  if supports_fps m then Some picked else None.

Definition motion_setting (m : video_model) (picked : pyval) : option pyval :=
  if supports_motion_strength m then Some picked else None.

Definition truthy_int (n : option Z) : bool :=
  match n with
  | Some k => negb (k =? 0)
  | None => false
  end.

Section VideoTab.

Variable fal_subscribe : string -> list (string * pyval) -> exn + pyval.
Variable fal_submit :
  string -> list (string * pyval) -> option string -> exn + string.

(** Lines 1210-1232: the keyword arguments and the call, for an image that
    is already a URL. *)
Definition video_submit (image_url video_prompt : string) (m : video_model)
    (key : string) (sync_mode : bool) (duration fps : option Z)
    (motion_strength : option pyval) (aspect_ratio : option string) (seed : Z)
  : M pyval :=
  generate_video_from_image fal_subscribe fal_submit
    image_url video_prompt (model_id m) (Some key)
    (if truthy_int duration then PInt <$> duration else None)
    (if truthy_int fps then PInt <$> fps else None)
    (if truthy_key aspect_ratio then PStr <$> aspect_ratio else None)
    motion_strength
    (if negb (seed =? 0) then Some (PInt seed) else None)
    None sync_mode.

End VideoTab.

(** ** [download_image] *)

Section Download.

(** What the [n]-th HTTP request, a GET to this URL, meets: a failure of
    [requests], or an answer with its content. *)
Variable get_reply : nat -> string -> exn + (response * string).

(** [requests.get(url)]: a string is sent, which advances the clock;
    anything else is rejected as a URL before a request is made. *)
Definition requests_get (url : pyval) : M (response * string) :=
  match url with
  | PStr s =>
      n <- tick ;;
      match get_reply n s with
      | inl e => raise e
      | inr answer => ret answer
      end
  | _ => raise invalid_url
  end.

(** [Response.raise_for_status] with the URL of the request. *)
Definition raise_for_status_at (url : pyval) (r : response) : M unit :=
  let shown_url := match url with PStr s => s | _ => "" end in
  if (400 <=? status_code r) && (status_code r <? 500) then
    raise (Exn HTTPError (pretty (status_code r) +:+ " Client Error: "
                          +:+ reason r +:+ " for url: " +:+ shown_url))
  else if (500 <=? status_code r) && (status_code r <? 600) then
    raise (Exn HTTPError (pretty (status_code r) +:+ " Server Error: "
                          +:+ reason r +:+ " for url: " +:+ shown_url))
  else ret tt.

Definition download_image (url : pyval) : M (option string) :=
  try_except
    (answer <- requests_get url ;;
     raise_for_status_at url (fst answer) ;;;
     ret (Some (snd answer)))
    (fun e =>
       st_ui UiError ("Error downloading image: " +:+ str e) ;;;
       ret None).

End Download.

(** ** The product and erase actions of [main] *)

(** [k in v] for a string [k] and any value. *)
Definition py_in (k : string) (v : pyval) : outcome bool :=
  match v with
  | PDict d => Ok (match dict_get k d with Some _ => true | None => false end)
  | PList l =>
      Ok (existsb (fun x => match x with
                            | PStr s => String.eqb s k
                            | _ => false
                            end) l)
  | PStr s => Ok (contains k s)
  | _ => Raise (Exn TypeError "argument is not iterable")
  end.

(** [result and "result_url" in result] *)
Definition truthy_with_result_url (result : pyval) : M bool :=
  if truthy result then lift (py_in "result_url" result) else ret false.

(** Lines 438-442 and 494-498. *)
Definition product_on_result (success : string) (result : pyval) : M unit :=
  found <- truthy_with_result_url result ;;
  if found then
    st_ui UiSuccess success ;;;
    v <- lift (subscript "result_url" result) ;;
    modify_session (set_edited_image v)
  else st_ui UiError "No result URL in the API response. Please try again.".

Section ProductActions.

Variable get_reply : nat -> string -> exn + (response * string).

(** Lines 407-426: the optional background removal before a packshot;
    [false] stands for the [return] that ends the action. *)
Definition packshot_prepare (force_rmbg : bool) (bg_reply : exn + pyval) : M bool :=
  if force_rmbg then
    bg_result <- call_service "remove_background" bg_reply ;;
    found <- truthy_with_result_url bg_result ;;
    if found then
      url <- lift (subscript "result_url" bg_result) ;;
      answer <- requests_get get_reply url ;;
      if status_code (fst answer) =? 200 then ret true
      else st_ui UiError "Failed to download background-removed image" ;;; ret false
    else st_ui UiError "Background removal failed" ;;; ret false
  else ret true.

(** Lines 403-446: the "Create Packshot" action. *)
Definition packshot_action (force_rmbg : bool) (bg_reply reply : exn + pyval)
  : M unit :=
  try_except
    (ready <- packshot_prepare force_rmbg bg_reply ;;
     if ready then
       result <- call_service "create_packshot" reply ;;
       product_on_result "Packshot created successfully!" result
     else ret tt)
    (except_clause Packshot).

End ProductActions.

(** Lines 475-502: the "Add Shadow" action. *)
Definition shadow_action (reply : exn + pyval) : M unit :=
  try_except
    (result <- call_service "add_shadow" reply ;;
     product_on_result "Shadow added successfully!" result)
    (except_clause Shadow).

(** Lines 1012-1040: the "Erase Selected Area" action; [drawn] tells whether
    the canvas holds image data and [mask_error] is the failure of the mask
    conversion, if any. *)
Definition erase_action (drawn : bool) (mask_error : option exn)
    (reply : exn + pyval) : M unit :=
  if drawn then
    try_except
      (match mask_error with Some e => raise e | None => ret tt end ;;;
       result <- call_service "erase_foreground" reply ;;
       if truthy result then
         found <- lift (py_in "result_url" result) ;;
         if found then
           v <- lift (subscript "result_url" result) ;;
           modify_session (set_edited_image v) ;;;
           st_ui UiSuccess "Area erased successfully!"
         else st_ui UiError "No result URL in the API response. Please try again."
       else ret tt)
      (except_clause Erase)
  else st_ui UiWarning "Please draw on the image to select the area to erase.".

(** ** The generative-fill action of [main] *)

(** [len(v)] *)
Definition py_len (v : pyval) : outcome Z :=
  match v with
  | PList l => Ok (Z.of_nat (length l))
  | PStr s => Ok (Z.of_nat (String.length s))
  | PDict d => Ok (Z.of_nat (length d))
  | _ => Raise (Exn TypeError "object has no len()")
  end.

(** Lines 901-908: the synchronous branch.  A string stored where a list is
    expected is kept as the sequence of its characters, which is what every
    later use of it (truth value, length, iteration) sees. *)
Definition fill_sync_result (result : pyval) : M unit :=
  has_urls <- lift (py_in "urls" result) ;;
  usable <- (if has_urls
             then u <- lift (subscript "urls" result) ;; ret (truthy u)
             else ret false) ;;
  if usable then
    u <- lift (subscript "urls" result) ;;
    first <- lift (index0 u) ;;
    modify_session (set_edited_image first) ;;;
    n <- lift (py_len u) ;;
    (if 1 <? n
     then l <- lift (iterate u) ;; modify_session (set_generated_images l)
     else ret tt) ;;;
    st_ui UiSuccess "Generation complete!"
  else
    has_url <- lift (py_in "result_url" result) ;;
    if has_url then
      v <- lift (subscript "result_url" result) ;;
      modify_session (set_edited_image v) ;;;
      st_ui UiSuccess "Generation complete!"
    else ret tt.

Section FillAction.

Variable head_reply : nat -> string -> http_result.

(** Lines 913-930: the status line, the automatic check and the refresh
    button of the fill tab. *)
Definition fill_poll (refresh_clicked : bool) : M unit :=
  st_ui UiInfo "Generation started! Waiting for images..." ;;;
  found <- run_auto_check head_reply ;;
  (if found then st_rerun else ret tt) ;;;
  if refresh_clicked then
    again <- check_generated_images head_reply ;;
    if again then
      st_ui UiSuccess "Images ready!" ;;; st_rerun
    else
      st_ui UiWarning "Still generating... Please check again in a moment."
  else ret tt.

(** Lines 910-930: the asynchronous branch. *)
Definition fill_async_result (num_results : Z) (refresh_clicked : bool)
    (result : pyval) : M unit :=
  has_urls <- lift (py_in "urls" result) ;;
  if has_urls then
    u <- lift (subscript "urls" result) ;;
    part <- lift (slice_to num_results u) ;;
    urls <- lift (iterate part) ;;
    modify_session (set_pending_urls urls) ;;;
    fill_poll refresh_clicked
  else ret tt.

(** Lines 853-933: the "Generate" action of the fill tab; [has_mask] tells
    whether the canvas holds image data and [mask_error] is the failure of
    the mask conversion, if any. *)
Definition fill_action (prompt : string) (has_mask : bool)
    (mask_error : option exn) (sync_mode : bool) (num_results : Z)
    (refresh_clicked : bool) (reply : exn + pyval) : M unit :=
  s <- get_session ;;
  if negb (truthy_key (api_key s)) then
    st_ui UiError "Please enter your API key in the sidebar."
  else if String.eqb prompt "" then
    st_ui UiError "Please enter a prompt describing what to generate."
  else if negb has_mask then
    st_ui UiError "Please draw a mask on the image first."
  else
    match mask_error with
    | Some e => st_ui UiError ("Error processing image or mask: " +:+ str e)
    | None =>
        try_except
          (result <- call_service "generative_fill" reply ;;
           if truthy result then
             st_ui UiWrite "Debug - API Response:" ;;;
             if sync_mode then fill_sync_result result
             else fill_async_result num_results refresh_clicked result
           else ret tt)
          (except_clause GenerativeFill)
    end.

(** Lines 668-767: the "Generate Lifestyle Shot" action for a reference
    image. *)
Definition lifestyle_image_action (experimental_rerun : bool)
    (placement : placement_type) (sync_mode : bool) (num_results : Z)
    (refresh_clicked : bool) (reply : exn + pyval) : M unit :=
  try_except
    (shot_size_argument placement ;;;
     result <- call_service "lifestyle_shot_by_image" reply ;;
     lifestyle_on_result head_reply experimental_rerun sync_mode num_results
       refresh_clicked result)
    (except_clause LifestyleImage).

End FillAction.

(** ** More of the sidebar and of the video tab *)

(** Lines 225-234: the sidebar field of the Google backend. *)
Definition sidebar_google_key (typed : option string) : M unit :=
  s <- get_session ;;
  e <- os_getenv "GOOGLE_API_KEY" ;;
  let google_default :=
    match py_or (google_api_key s)
                (Some (match e with Some v => v | None => "" end)) with
    | Some d => d | None => "" end in
  let google_key_input := text_input google_default typed in
  if negb (String.eqb google_key_input "")
  then modify_session (fun s' =>
         {| api_key := api_key s'; fal_api_key := fal_api_key s';
            google_api_key := Some google_key_input;
            generated_images := generated_images s';
            edited_image := edited_image s'; pending_urls := pending_urls s' |})
  else ret tt.

Section StatusButton.

Variable fal_status : string -> string -> exn + pyval.

(** Lines 1365-1374: the "Check Status" button of a pending video request. *)
Definition status_button (model request_id : string) : M unit :=
  try_except
    (k <- video_fal_key ;;
     if truthy_key k then
       status <- check_video_status fal_status model request_id k ;;
       st_ui UiWrite "status"
     else st_ui UiError "API key required to check status")
    (fun e => st_ui UiError ("Error checking status: " +:+ str e)).

End StatusButton.

(** ** Vocabulary of the statements *)

Definition is_ready (r : http_result) : bool :=
  match r with
  | Answer resp => status_code resp =? 200
  | NetError _ => false
  end.

(** The replies one pass over [urls] meets when it starts at request [n]. *)
Fixpoint pass_replies (head_reply : nat -> string -> http_result)
    (n : nat) (urls : list pyval) : list http_result :=
  match urls with
  | [] => []
  | u :: rest => head_outcome head_reply n u :: pass_replies head_reply (S n) rest
  end.

Definition ready_of (head_reply : nat -> string -> http_result)
    (n : nat) (urls : list pyval) : list pyval :=
  map fst (List.filter (fun p => is_ready (snd p))
                       (combine urls (pass_replies head_reply n urls))).

Definition pending_of (head_reply : nat -> string -> http_result)
    (n : nat) (urls : list pyval) : list pyval :=
  map fst (List.filter (fun p => negb (is_ready (snd p)))
                       (combine urls (pass_replies head_reply n urls))).

(** The same backend announcing other content lengths. *)
Definition with_lengths (relen : nat -> string -> option Z)
    (head_reply : nat -> string -> http_result) : nat -> string -> http_result :=
  fun n u =>
    match head_reply n u with
    | Answer r =>
        Answer {| status_code := status_code r; reason := reason r;
                  content_length := relen n u; json_body := json_body r |}
    | NetError e => NetError e
    end.

(** The world a pass over [urls] leaves, apart from the session. *)
Definition probed (urls : list pyval) (s : session_state) (w : world) : world :=
  {| session := s; environ := environ w;
     clock := (clock w + length urls)%nat;
     log := log w ++ map EvHead urls |}.

(** The session after a pass that found [ready] and left [pending]. *)
Definition after_pass (ready pending : list pyval) (s : session_state)
  : session_state :=
  match ready with
  | [] => set_pending_urls pending s
  | first :: rest =>
      let s1 := set_edited_image first (set_pending_urls pending s) in
      match rest with
      | [] => s1
      | _ => set_generated_images ready s1
      end
  end.

(** Polling alone: any sequence of manual re-checks and automatic checks. *)
Inductive polls (head_reply : nat -> string -> http_result)
  : world -> world -> Prop :=
| polls_none w : polls head_reply w w
| polls_check w w1 w2 found :
    polls head_reply w w1 ->
    check_generated_images head_reply w1 = (Ok found, w2) ->
    polls head_reply w w2
| polls_auto w w1 w2 fuel found :
    polls head_reply w w1 ->
    auto_check_images head_reply fuel w1 = (Ok found, w2) ->
    polls head_reply w w2.

Definition is_sleep (e : event) : bool :=
  match e with EvSleep _ => true | _ => false end.

Definition is_warning (e : event) : bool :=
  match e with EvUi UiWarning _ => true | _ => false end.

Definition is_call (e : event) : bool :=
  match e with
  | EvHead _ | EvPost _ _ | EvService _ | EvFalSubscribe _ _ | EvFalSubmit _ _ => true
  | _ => false
  end.

(** What one attempt of the automatic check adds to the log. *)
Definition attempt_block (urls : list pyval) : list event :=
  EvSleep 2 :: map EvHead urls.

Definition success_note (found : bool) : list event :=
  if found then [EvUi UiSuccess "Image ready!"] else [].

(** The shape of a run of the loop that had [rem] attempts left: [k]
    attempts were made, all but a successful last one found nothing, and
    none at all with nothing pending. *)
Definition auto_run (head_reply : nat -> string -> http_result)
    (rem k : nat) (found : bool) (w w' : world) : Prop :=
  let urls := pending_urls (session w) in
  let last := (clock w + pred k * length urls)%nat in
  (k <= rem)%nat /\
  log w' = log w ++ concat (repeat (attempt_block urls) k) ++ success_note found /\
  clock w' = (clock w + k * length urls)%nat /\
  environ w' = environ w /\
  (forall j, (j < (if found then pred k else k))%nat ->
     ready_of head_reply (clock w + j * length urls) urls = []) /\
  (if found
   then (1 <= k)%nat /\ ready_of head_reply last urls <> [] /\
        session w' = after_pass (ready_of head_reply last urls)
                                (pending_of head_reply last urls) (session w)
   else session w' = session w /\
        ((urls = [] /\ k = 0%nat) \/ (urls <> [] /\ k = rem))).

(** ** Sample inputs *)

Definition empty_session : session_state :=
  {| api_key := None; fal_api_key := None; google_api_key := None;
     generated_images := []; edited_image := PNone; pending_urls := [] |}.

Definition start_world (s : session_state) (env : gmap string string) : world :=
  {| session := s; environ := env; clock := 0%nat; log := [] |}.

Definition plain_answer (status : Z) : http_result :=
  Answer {| status_code := status; reason := ""; content_length := None;
            json_body := None |}.

Definition always_200 : nat -> string -> http_result :=
  fun _ _ => plain_answer 200.

Definition always_404 : nat -> string -> http_result :=
  fun _ _ => plain_answer 404.

(** The first request fails in transport, every later one is answered 200. *)
Definition error_then_200 : nat -> string -> http_result :=
  fun n _ =>
    match n with
    | O => NetError (Exn RequestException "Connection aborted.")
    | _ => plain_answer 200
    end.

(** [u1] is there at once, the others never. *)
Definition only_u1 : nat -> string -> http_result :=
  fun _ u => if String.eqb u "https://x/u1.png" then plain_answer 200
             else plain_answer 404.

Definition pending_world (urls : list string) : world :=
  start_world (set_pending_urls (map PStr urls) empty_session) ∅.

Definition two_pending : world :=
  pending_world ["https://x/u1.png"; "https://x/u2.png"].

(** ** The probe as the specification words it, and the URLs a response carries *)

(** The first element of a non-empty list. *)
Definition first_url (v : pyval) : option pyval :=
  match v with
  | PList (x :: _) => Some x
  | _ => None
  end.

Fixpoint stated_nested_pick (items : list pyval) : option pyval :=
  match items with
  | [] => None
  | item :: rest =>
      let here :=
        match item with
        | PDict d =>
            match dict_get "urls" d with
            | Some l => first_url l
            | None => None
            end
        | other => first_url other
        end in
      match here with
      | Some x => Some x
      | None => stated_nested_pick rest
      end
  end.

(** The specification's order: [result_url], [result_urls], [urls], then the
    nested [result] list; the first non-empty value wins. *)
Definition stated_sync_pick (result : pyval) : option pyval :=
  match result with
  | PDict d =>
      match dict_get "result_url" d with
      | Some v => if truthy v then Some v else None
      | None => None
      end
      ∪ (match dict_get "result_urls" d with
         | Some l => first_url l | None => None end)
      ∪ (match dict_get "urls" d with
         | Some l => first_url l | None => None end)
      ∪ (match dict_get "result" d with
         | Some (PList items) => stated_nested_pick items | _ => None end)
  | _ => None
  end.

(** An item of the nested list on which the synchronous walk stops. *)
Definition item_matches (item : pyval) : bool :=
  (is_dict item && has_key "urls" item) ||
  match item with
  | PList (_ :: _) => true
  | _ => false
  end.

(** The URLs one item of a nested [result] list contributes. *)
Definition item_urls (item : pyval) : list pyval :=
  match item with
  | PDict d =>
      match dict_get "urls" d with
      | Some (PList l) => l
      | _ => []
      end
  | PList l => l
  | _ => []
  end.

Definition item_well_shaped (item : pyval) : bool :=
  match item with
  | PDict d =>
      match dict_get "urls" d with
      | Some (PList _) | None => true
      | Some _ => false
      end
  | _ => true
  end.

(** The URLs a response whose [urls] values are lists yields, in order. *)
Definition yielded (result : pyval) : option (list pyval) :=
  match result with
  | PDict d =>
      match dict_get "urls" d with
      | Some (PList l) => Some l
      | Some _ => None
      | None =>
          match dict_get "result" d with
          | Some (PList items) =>
              if forallb item_well_shaped items
              then Some (concat (map item_urls items))
              else None
          | _ => Some []
          end
      end
  | _ => Some []
  end.

Definition shown (v : pyval) (w : world) : world :=
  {| session := set_edited_image v (session w); environ := environ w;
     clock := clock w;
     log := log w ++ [EvUi UiSuccess "Image generated successfully!"] |}.

Definition urls_and_nested : pyval :=
  PDict [("urls", PList [PStr "https://x/u1.png"]);
         ("result", PList [PList [PStr "https://x/u2.png"]])].

Definition five_urls : pyval :=
  PDict [("urls", PList [PStr "u1"; PStr "u2"; PStr "u3"; PStr "u4"; PStr "u5"])].

Definition no_urls : pyval := PDict [("urls", PList [])].

(** The world once the raw response has been written out, and once [urls]
    have been registered as pending. *)
Definition debug_noted (w : world) : world :=
  {| session := session w; environ := environ w; clock := clock w;
     log := log w ++ [EvUi UiWrite "Debug - Raw API Response:"] |}.

Definition registered (urls : list pyval) (w : world) : world :=
  {| session := set_pending_urls urls (session w); environ := environ w;
     clock := clock w; log := log w |}.

(** ** Failures at the action boundary, and more sample inputs *)

(** A failed operation as the action sees it: the status of the backend's
    response when there was one, and the exception that arrived.  The service
    modules that build the exception are not part of this development. *)
Record failure : Type := Failure {
  failed_status : option Z;
  raised : exn
}.

Definition has_moderation_branch (op : operation) : bool :=
  match op with
  | Packshot | Shadow | LifestyleText | LifestyleImage | Erase => true
  | HdImage | GenerativeFill | Video => false
  end.

Definition error_label (op : operation) : string :=
  match op with
  | HdImage => "Error generating images: "
  | Packshot => "Error creating packshot: "
  | Shadow => "Error adding shadow: "
  | Video => "Error generating video: "
  | LifestyleText | LifestyleImage | GenerativeFill | Erase => "Error: "
  end.

Definition moderation_advice (op : operation) : string :=
  match op with
  | LifestyleText | LifestyleImage =>
      "Content moderation failed. Please ensure the content is appropriate."
  | _ => "Content moderation failed. Please ensure the image is appropriate."
  end.

Definition warned (events : list event) : bool := existsb is_warning events.

Definition moderated : failure :=
  {| failed_status := Some 422;
     raised := Exn HTTPError "422 Client Error: Unprocessable Entity" |}.

Definition dropped_connection : failure :=
  {| failed_status := None;
     raised := Exn RequestException
       "HTTPSConnectionPool(host='engine.prod.bria-api.com', port=443): Max retries exceeded (Caused by NewConnectionError('<urllib3.connection.HTTPSConnection object at 0x7f4221c0a3d0>: Failed to establish a new connection'))" |}.

Definition both_keys : world :=
  start_world (set_fal_api_key (Some "session-key") empty_session)
              {[ "Fal.ai_LTX_API_KEY" := "env-key" ]}.

(** A 300 answer that carries an enhanced prompt. *)
Definition multiple_choices : nat -> string -> list (string * pyval) -> http_result :=
  fun _ _ _ =>
    Answer {| status_code := 300; reason := "Multiple Choices";
              content_length := None;
              json_body := Some (PDict [("prompt variations", PStr "a better prompt")]) |}.

Definition no_subscribe : string -> list (string * pyval) -> exn + pyval :=
  fun _ _ => inr PNone.

Definition no_submit : string -> list (string * pyval) -> option string -> exn + string :=
  fun _ _ _ => inr "request-1".

(** ** Vocabulary of the further properties *)

(** What polling may change between two worlds: the pending list only loses
    entries, credentials and environment stay, the clock only advances. *)
Definition poll_frame (w w' : world) : Prop :=
  sublist (pending_urls (session w')) (pending_urls (session w)) /\
  api_key (session w') = api_key (session w) /\
  fal_api_key (session w') = fal_api_key (session w) /\
  google_api_key (session w') = google_api_key (session w) /\
  environ w' = environ w /\
  (clock w <= clock w')%nat.

(** Only the displayed image and the stored images differ. *)
Definition display_only (s s' : session_state) : Prop :=
  api_key s' = api_key s /\
  fal_api_key s' = fal_api_key s /\
  google_api_key s' = google_api_key s /\
  pending_urls s' = pending_urls s.

Definition raises {A} (r : outcome A) : bool :=
  match r with Raise _ => true | _ => false end.

Definition sample_head : nat -> string -> http_result := only_u1.

(** A computation whose final world is always related to its first one. *)
Definition respects (R : world -> world -> Prop) {A} (m : M A) : Prop :=
  forall w, R w (snd (m w)).

(** The session changes in its displayed and stored images at most, and the
    environment not at all. *)
Definition frame_kept (w w' : world) : Prop :=
  display_only (session w) (session w') /\ environ w' = environ w.

(** As [frame_kept], and moreover nothing was sent and the stored images
    are the same. *)
Definition quiet (w w' : world) : Prop :=
  frame_kept w w' /\
  generated_images (session w') = generated_images (session w) /\
  clock w' = clock w /\
  List.filter is_call (log w') = List.filter is_call (log w).

(** A computation that never asks for a rerun. *)
Definition no_rerun {A} (m : M A) : Prop :=
  forall w, fst (m w) <> Rerun.

(** A computation that never ends with an exception. *)
Definition settles {A} (m : M A) : Prop :=
  forall w, raises (fst (m w)) = false.

(** The payload [generate_video_from_image] builds. *)
Definition video_arguments (image_url prompt : string)
    (duration fps aspect_ratio motion_strength seed : option pyval)
  : list (string * pyval) :=
  [("image_url", PStr image_url); ("prompt", PStr prompt)]
  ++ optional_entry "duration" duration
  ++ optional_entry "fps" fps
  ++ optional_entry "aspect_ratio" aspect_ratio
  ++ optional_entry "motion_strength" motion_strength
  ++ optional_entry "seed" seed.

Definition video_call (sync : bool) (model : string)
    (arguments : list (string * pyval)) : event :=
  if sync then EvFalSubscribe model arguments else EvFalSubmit model arguments.

Definition video_failure (e : exn) : exn :=
  Exn PlainException ("Video generation failed: " +:+ str e).

Definition with_fal_key (key : option string) (w : world) : world :=
  match key with
  | Some k =>
      if negb (String.eqb k "")
      then {| session := session w; environ := <["FAL_KEY" := k]> (environ w);
              clock := clock w; log := log w |}
      else w
  | None => w
  end.

Definition luma : video_model :=
  {| model_id := "fal-ai/luma-dream-machine";
     model_name := "Luma Dream Machine v1.5";
     model_description := "Generate video clips using Luma Dream Machine v1.5";
     max_duration := 5; supports_fps := false;
     supports_motion_strength := false |}.

Definition failing_status : string -> string -> exn + pyval :=
  fun _ _ => inl (Exn RequestException "422 Unprocessable Entity").

Definition no_result : string -> string -> exn + pyval :=
  fun _ _ => inr PNone.

Definition no_upload : string -> exn + string :=
  fun _ => inr "https://fal.media/files/u.png".

(** The world with more events in its log, and with the clock advanced. *)
Definition logged (events : list event) (w : world) : world :=
  {| session := session w; environ := environ w; clock := clock w;
     log := log w ++ events |}.

Definition advanced (w : world) : world :=
  {| session := session w; environ := environ w; clock := S (clock w);
     log := log w |}.

Definition displaying (v : pyval) (w : world) : world :=
  {| session := set_edited_image v (session w); environ := environ w;
     clock := clock w; log := log w |}.

Definition storing (l : list pyval) (w : world) : world :=
  {| session := set_generated_images l (session w); environ := environ w;
     clock := clock w; log := log w |}.

Definition served (name : string) (events : list event) (w : world) : world :=
  logged (EvService name :: events) w.

Definition no_get : nat -> string -> exn + (response * string) :=
  fun _ _ => inl (Exn RequestException "Connection aborted.").

(** * Properties *)

(** ** The monad *)

Lemma bind_ok {A B} (m : M A) (k : A -> M B) w a w' :
  m w = (Ok a, w') -> bind m k w = k a w'.
Proof. intros H. unfold bind. now rewrite H. Qed.

Lemma bind_raise {A B} (m : M A) (k : A -> M B) w e w' :
  m w = (Raise e, w') -> bind m k w = (Raise e, w').
Proof. intros H. unfold bind. now rewrite H. Qed.

Lemma world_eta w :
  {| session := session w; environ := environ w; clock := clock w; log := log w |} = w.
Proof. now destruct w. Qed.

Lemma set_pending_urls_same s : set_pending_urls (pending_urls s) s = s.
Proof. now destruct s. Qed.

(** ** One pass of the poller *)

Section PollerFacts.

Variable head_reply : nat -> string -> http_result.

Lemma check_one_spec url ready_images still_pending w :
  check_one head_reply url (ready_images, still_pending) w =
  (Ok (if is_ready (head_outcome head_reply (clock w) url)
       then (ready_images ++ [url], still_pending)
       else (ready_images, still_pending ++ [url])),
   {| session := session w; environ := environ w;
      clock := S (clock w); log := log w ++ [EvHead url] |}).
Proof.
  unfold check_one, try_except, requests_head, bind, tick, emit. simpl.
  destruct (head_outcome head_reply (clock w) url) as [e | r]; simpl.
  - reflexivity.
  - unfold raise, ret. now destruct (status_code r =? 200).
Qed.

Lemma ready_of_cons n url rest :
  ready_of head_reply n (url :: rest) =
  if is_ready (head_outcome head_reply n url)
  then url :: ready_of head_reply (S n) rest
  else ready_of head_reply (S n) rest.
Proof.
  unfold ready_of. cbn [pass_replies combine List.filter snd].
  now destruct (is_ready (head_outcome head_reply n url)).
Qed.

Lemma pending_of_cons n url rest :
  pending_of head_reply n (url :: rest) =
  if is_ready (head_outcome head_reply n url)
  then pending_of head_reply (S n) rest
  else url :: pending_of head_reply (S n) rest.
Proof.
  unfold pending_of. cbn [pass_replies combine List.filter snd].
  now destruct (is_ready (head_outcome head_reply n url)).
Qed.

Lemma probed_cons url rest s w :
  probed rest s {| session := session w; environ := environ w;
                   clock := S (clock w); log := log w ++ [EvHead url] |}
  = probed (url :: rest) s w.
Proof.
  unfold probed. cbn [session environ clock log length map].
  rewrite <- app_assoc. cbn [app]. f_equal. lia.
Qed.

Lemma check_loop_spec urls : forall ready_images still_pending w,
  check_loop head_reply urls (ready_images, still_pending) w =
  (Ok (ready_images ++ ready_of head_reply (clock w) urls,
       still_pending ++ pending_of head_reply (clock w) urls),
   probed urls (session w) w).
Proof.
  induction urls as [| url rest IH]; intros ready_images still_pending w.
  - unfold probed, ready_of, pending_of. simpl.
    rewrite !app_nil_r, Nat.add_0_r. unfold ret. now rewrite world_eta.
  - cbn [check_loop].
    erewrite bind_ok by apply check_one_spec.
    rewrite ready_of_cons, pending_of_cons.
    destruct (is_ready (head_outcome head_reply (clock w) url));
      rewrite IH; cbn [clock session]; rewrite probed_cons;
      now rewrite <- ?app_assoc.
Qed.

(** What [check_generated_images] returns and leaves behind. *)
Lemma check_generated_images_spec w :
  let urls := pending_urls (session w) in
  let ready := ready_of head_reply (clock w) urls in
  let pending := pending_of head_reply (clock w) urls in
  check_generated_images head_reply w =
  (Ok (nonempty ready),
   if nonempty urls then probed urls (after_pass ready pending (session w)) w
   else w).
Proof.
  cbv zeta. unfold check_generated_images.
  erewrite bind_ok by reflexivity.
  destruct (pending_urls (session w)) as [| u0 rest] eqn:Hurls.
  - reflexivity.
  - cbn [nonempty].
    erewrite bind_ok by apply check_loop_spec.
    cbn [app].
    destruct (ready_of head_reply (clock w) (u0 :: rest)) as [| first more] eqn:Hready.
    + reflexivity.
    + destruct more as [| second more]; [reflexivity |].
      assert (Hlen : (1 <? Z.of_nat (length (first :: second :: more))) = true)
        by (apply Z.ltb_lt; cbn [length]; lia).
      unfold bind, modify_session, ret. cbn [nonempty].
      now rewrite Hlen.
Qed.

Lemma ready_of_In urls : forall n u,
  In u (ready_of head_reply n urls) <->
  exists i, urls !! i = Some u /\
            is_ready (head_outcome head_reply (n + i) u) = true.
Proof.
  induction urls as [| url rest IH]; intros n u.
  - split; [intros [] | intros (i & Hi & _); destruct i; discriminate].
  - rewrite ready_of_cons. split.
    + destruct (is_ready (head_outcome head_reply n url)) eqn:Hr.
      * intros [-> | Hin].
        -- exists 0%nat. now rewrite Nat.add_0_r.
        -- apply IH in Hin as (i & Hi & Hok). exists (S i).
           split; [exact Hi |]. now rewrite Nat.add_succ_r.
      * intros Hin. apply IH in Hin as (i & Hi & Hok). exists (S i).
        split; [exact Hi |]. now rewrite Nat.add_succ_r.
    + intros ([| i] & Hi & Hok).
      * injection Hi as ->. rewrite Nat.add_0_r in Hok. rewrite Hok. now left.
      * rewrite Nat.add_succ_r in Hok.
        assert (In u (ready_of head_reply (S n) rest)) by (apply IH; eauto).
        destruct (is_ready (head_outcome head_reply n url)); [now right | easy].
Qed.

Lemma pending_of_In urls : forall n u,
  In u (pending_of head_reply n urls) <->
  exists i, urls !! i = Some u /\
            is_ready (head_outcome head_reply (n + i) u) = false.
Proof.
  induction urls as [| url rest IH]; intros n u.
  - split; [intros [] | intros (i & Hi & _); destruct i; discriminate].
  - rewrite pending_of_cons. split.
    + destruct (is_ready (head_outcome head_reply n url)) eqn:Hr.
      * intros Hin. apply IH in Hin as (i & Hi & Hok). exists (S i).
        split; [exact Hi |]. now rewrite Nat.add_succ_r.
      * intros [-> | Hin].
        -- exists 0%nat. now rewrite Nat.add_0_r.
        -- apply IH in Hin as (i & Hi & Hok). exists (S i).
           split; [exact Hi |]. now rewrite Nat.add_succ_r.
    + intros ([| i] & Hi & Hok).
      * injection Hi as ->. rewrite Nat.add_0_r in Hok. rewrite Hok. now left.
      * rewrite Nat.add_succ_r in Hok.
        assert (In u (pending_of head_reply (S n) rest)) by (apply IH; eauto).
        destruct (is_ready (head_outcome head_reply n url)); [easy | now right].
Qed.

Lemma ready_pending_perm urls : forall n,
  Permutation (ready_of head_reply n urls ++ pending_of head_reply n urls) urls.
Proof.
  induction urls as [| url rest IH]; intros n.
  - constructor.
  - rewrite ready_of_cons, pending_of_cons.
    destruct (is_ready (head_outcome head_reply n url)).
    + cbn [app]. constructor. apply IH.
    + symmetry. apply Permutation_cons_app. symmetry. apply IH.
Qed.

Lemma nothing_ready_all_pending urls : forall n,
  ready_of head_reply n urls = [] -> pending_of head_reply n urls = urls.
Proof.
  induction urls as [| url rest IH]; intros n; [reflexivity |].
  rewrite ready_of_cons, pending_of_cons.
  destruct (is_ready (head_outcome head_reply n url)); [discriminate |].
  intros H. f_equal. now apply IH.
Qed.

End PollerFacts.

Lemma head_outcome_with_lengths relen head_reply n url :
  is_ready (head_outcome (with_lengths relen head_reply) n url) =
  is_ready (head_outcome head_reply n url).
Proof.
  destruct url; try reflexivity. cbn [head_outcome]. unfold with_lengths.
  now destruct (head_reply n s).
Qed.

Lemma ready_of_with_lengths relen head_reply urls : forall n,
  ready_of (with_lengths relen head_reply) n urls = ready_of head_reply n urls.
Proof.
  induction urls as [| url rest IH]; intros n; [reflexivity |].
  now rewrite !ready_of_cons, head_outcome_with_lengths, IH.
Qed.

Lemma pending_of_with_lengths relen head_reply urls : forall n,
  pending_of (with_lengths relen head_reply) n urls = pending_of head_reply n urls.
Proof.
  induction urls as [| url rest IH]; intros n; [reflexivity |].
  now rewrite !pending_of_cons, head_outcome_with_lengths, IH.
Qed.

Lemma is_ready_200 r :
  is_ready r = true <-> exists resp, r = Answer resp /\ status_code resp = 200.
Proof.
  destruct r as [e | resp]; cbn [is_ready].
  - split; [discriminate | intros (resp & H & _); discriminate].
  - rewrite Z.eqb_eq. split; [eauto |].
    now intros (resp' & [= ->] & H).
Qed.

Lemma pending_after_pass ready pending s :
  pending_urls (after_pass ready pending s) = pending.
Proof. destruct ready as [| first [| second more]]; reflexivity. Qed.

Lemma pending_after_check head_reply w found w' :
  check_generated_images head_reply w = (Ok found, w') ->
  pending_urls (session w') =
  pending_of head_reply (clock w) (pending_urls (session w)).
Proof.
  rewrite check_generated_images_spec. intros [= _ <-].
  destruct (pending_urls (session w)) eqn:Hurls; cbn [nonempty].
  - now rewrite Hurls.
  - cbn [probed session]. apply pending_after_pass.
Qed.

(** C1. One pass of the poller sends a HEAD request to every pending URL and
    sorts them by the status alone: the loop's [ready_images] holds exactly
    the URLs whose request was answered with status 200, its [still_pending]
    holds exactly the others, the two lists together are a rearrangement of
    the pending list, [still_pending] is what the session keeps as pending,
    and a backend announcing any other content lengths is judged the same. *)
Theorem C1_pass_sorts_urls_by_status_200
    (head_reply : nat -> string -> http_result)
    (relen : nat -> string -> option Z) (w : world) :
  let urls := pending_urls (session w) in
  let ready := ready_of head_reply (clock w) urls in
  let pending := pending_of head_reply (clock w) urls in
  fst (check_loop head_reply urls ([], []) w) = Ok (ready, pending) /\
  (forall u, In u ready <->
     exists i resp, urls !! i = Some u /\
       head_outcome head_reply (clock w + i) u = Answer resp /\
       status_code resp = 200) /\
  (forall u, In u pending <->
     exists i, urls !! i = Some u /\
       ~ exists resp, head_outcome head_reply (clock w + i) u = Answer resp /\
                      status_code resp = 200) /\
  Permutation (ready ++ pending) urls /\
  (exists w', check_generated_images head_reply w = (Ok (nonempty ready), w') /\
              pending_urls (session w') = pending) /\
  (exists w', check_generated_images (with_lengths relen head_reply) w
                = (Ok (nonempty ready), w') /\
              pending_urls (session w') = pending).
Proof.
  cbv zeta. split_and!.
  - now rewrite check_loop_spec.
  - intros u. split.
    + intros Hin. apply ready_of_In in Hin as (i & Hi & Hok).
      apply is_ready_200 in Hok as (resp & Hresp & H200). eauto.
    + intros (i & resp & Hi & Hresp & H200). apply ready_of_In.
      exists i. split; [exact Hi |]. apply is_ready_200. eauto.
  - intros u. split.
    + intros Hin. apply pending_of_In in Hin as (i & Hi & Hno).
      exists i. split; [exact Hi |]. intros Hyes.
      apply is_ready_200 in Hyes. congruence.
    + intros (i & Hi & Hno). apply pending_of_In.
      exists i. split; [exact Hi |].
      destruct (is_ready _) eqn:Hr; [| reflexivity].
      apply is_ready_200 in Hr. contradiction.
  - apply ready_pending_perm.
  - eexists. split; [apply check_generated_images_spec |].
    destruct (pending_urls (session w)) eqn:Hurls; cbn [nonempty].
    + now rewrite Hurls.
    + apply pending_after_pass.
  - eexists. split.
    + rewrite check_generated_images_spec, ready_of_with_lengths. reflexivity.
    + rewrite pending_of_with_lengths.
      destruct (pending_urls (session w)) eqn:Hurls; cbn [nonempty].
      * now rewrite Hurls.
      * apply pending_after_pass.
Qed.

(** ** The automatic check *)

Section AutoCheckFacts.

Variable head_reply : nat -> string -> http_result.

Lemma auto_check_while_spec : forall fuel rem attempt w,
  attempt = max_attempts - Z.of_nat rem -> (rem < fuel)%nat ->
  exists k found w',
    auto_check_while head_reply fuel attempt w = (Ok (Some found), w') /\
    auto_run head_reply rem k found w w'.
Proof.
  induction fuel as [| fuel IH]; intros rem attempt w Hatt Hfuel; [lia |].
  cbn [auto_check_while]. erewrite bind_ok by reflexivity.
  destruct rem as [| rem].
  - (* no attempt left *)
    assert (Hcond : (attempt <? max_attempts) = false)
      by (apply Z.ltb_ge; lia).
    rewrite Hcond. cbn [andb]. exists 0%nat, false, w.
    split; [reflexivity |]. unfold auto_run. cbn.
    rewrite app_nil_r. split_and!; auto with lia.
    destruct (pending_urls (session w)); [left | right]; split;
      first [reflexivity | discriminate].
  - assert (Hcond : (attempt <? max_attempts) = true)
      by (apply Z.ltb_lt; lia).
    rewrite Hcond. cbn [andb].
    destruct (pending_urls (session w)) as [| u0 rest] eqn:Hurls.
    + (* nothing pending *)
      exists 0%nat, false, w. split; [reflexivity |].
      unfold auto_run. rewrite Hurls. cbn.
      rewrite app_nil_r. split_and!; auto with lia.
    + cbn [nonempty].
      erewrite bind_ok by reflexivity.
      erewrite bind_ok by apply check_generated_images_spec.
      cbn [session clock]. rewrite Hurls. cbn [nonempty].
      set (urls := u0 :: rest) in *.
      destruct (ready_of head_reply (clock w) urls) as [| first more] eqn:Hready.
      * (* an idle pass: the loop goes on *)
        cbn [nonempty].
        rewrite (nothing_ready_all_pending _ _ _ Hready).
        cbn [after_pass]. rewrite <- Hurls, set_pending_urls_same.
        rewrite Hurls. fold urls.
        match goal with |- context [auto_check_while _ _ _ ?w1] => set (w1' := w1) end.
        destruct (IH rem (attempt + 1) w1') as (k & found & w' & Hrun & Hshape);
          [lia | lia |].
        exists (S k), found, w'. split; [exact Hrun |].
        unfold auto_run in *. subst w1'. cbn [session clock log environ probed] in Hshape.
        rewrite Hurls in *. fold urls in Hshape |- *.
        destruct Hshape as (Hk & Hlog & Hclock & Henv & Hidle & Hend).
        assert (Hshift : forall j, (clock w + length urls + j * length urls
                                   = clock w + S j * length urls)%nat) by (intros; lia).
        split_and!.
        -- lia.
        -- rewrite Hlog. cbn [repeat concat attempt_block].
           rewrite <- !app_assoc. reflexivity.
        -- rewrite Hclock. lia.
        -- exact Henv.
        -- intros j Hj. destruct j as [| j].
           ++ now rewrite Nat.mul_0_l, Nat.add_0_r.
           ++ rewrite <- Hshift. apply Hidle.
              destruct found; [destruct k |]; cbn [pred] in *; lia.
        -- destruct found.
           ++ destruct Hend as (Hk1 & Hlast & Hsess).
              destruct k as [| k]; [lia |]. cbn [pred] in *.
              rewrite Hshift in Hlast, Hsess. split_and!; [lia | exact Hlast | exact Hsess].
           ++ destruct Hend as (Hsess & [[Hnil _] | [Hne ->]]);
                [discriminate Hnil |].
              split; [exact Hsess |]. right. now split.
      * (* a ready image: stop *)
        cbn [nonempty].
        exists 1%nat, true.
        eexists. split; [reflexivity |].
        unfold auto_run. cbn [session clock log environ probed emit st_ui pred].
        rewrite Hurls. fold urls.
        rewrite Nat.mul_0_l, Nat.add_0_r, Hready.
        cbn [repeat concat attempt_block success_note].
        rewrite app_nil_r, <- !app_assoc. cbn [app].
        split_and!; try reflexivity; try lia; try discriminate.
Qed.

End AutoCheckFacts.

Lemma auto_check_while_step head_reply fuel attempt w :
  auto_check_while head_reply (S fuel) attempt w =
  if (attempt <? max_attempts) && nonempty (pending_urls (session w)) then
    match check_generated_images head_reply
            {| session := session w; environ := environ w;
               clock := clock w; log := log w ++ [EvSleep 2] |} with
    | (Ok true, w1) =>
        (Ok (Some true),
         {| session := session w1; environ := environ w1;
            clock := clock w1; log := log w1 ++ [EvUi UiSuccess "Image ready!"] |})
    | (Ok false, w1) => auto_check_while head_reply fuel (attempt + 1) w1
    | (Raise e, w1) => (Raise e, w1)
    | (Rerun, w1) => (Rerun, w1)
    end
  else (Ok (Some false), w).
Proof.
  cbn [auto_check_while]. unfold bind at 1. cbn [get_session].
  destruct ((attempt <? max_attempts) && nonempty (pending_urls (session w)));
    [| reflexivity].
  unfold bind at 1. cbn [time_sleep emit].
  unfold bind at 1.
  destruct (check_generated_images head_reply _) as [[[] | e |] w1]; reflexivity.
Qed.

Lemma auto_check_while_more_fuel head_reply : forall fuel attempt w found w',
  auto_check_while head_reply fuel attempt w = (Ok (Some found), w') ->
  auto_check_while head_reply (S fuel) attempt w = (Ok (Some found), w').
Proof.
  induction fuel as [| fuel IH]; intros attempt w found w' Hrun; [discriminate |].
  rewrite auto_check_while_step in Hrun.
  rewrite auto_check_while_step.
  destruct ((attempt <? max_attempts) && nonempty (pending_urls (session w)));
    [| exact Hrun].
  destruct (check_generated_images head_reply _) as [[[] | e |] w1];
    try exact Hrun.
  now apply IH.
Qed.

Lemma auto_check_while_fuel_le head_reply fuel fuel' attempt w found w' :
  (fuel <= fuel')%nat ->
  auto_check_while head_reply fuel attempt w = (Ok (Some found), w') ->
  auto_check_while head_reply fuel' attempt w = (Ok (Some found), w').
Proof.
  induction 1 as [| fuel' Hle IH]; [easy |].
  intros Hrun. now apply auto_check_while_more_fuel, IH.
Qed.

(** C5. The automatic check always returns: with fuel for four evaluations
    of the loop condition it never runs out, and more fuel changes nothing.
    It makes at most three attempts, each one a 2-second sleep followed by a
    HEAD request to every pending URL in turn, and it stops at the first
    attempt that finds a ready image (returning [True] after the success
    note); with nothing pending it makes no attempt at all, neither sleeping
    nor sending anything, and leaves the world as it was; it returns [False]
    only after three idle attempts or with nothing pending. *)
Theorem C5_auto_check_ends_within_three_attempts
    (head_reply : nat -> string -> http_result) (fuel : nat) (w : world) :
  (4 <= fuel)%nat ->
  exists k found w',
    auto_check_images head_reply fuel w = (Ok (Some found), w') /\
    auto_check_images head_reply 4 w = (Ok (Some found), w') /\
    run_auto_check head_reply w = (Ok found, w') /\
    (k <= 3)%nat /\
    auto_run head_reply 3 k found w w' /\
    (pending_urls (session w) = [] -> k = 0%nat /\ found = false /\ w' = w) /\
    (pending_urls (session w) <> [] -> found = false -> k = 3%nat).
Proof.
  intros Hfuel.
  destruct (auto_check_while_spec head_reply 4 3 0 w) as (k & found & w' & Hrun & Hshape);
    [reflexivity | lia |].
  exists k, found, w'. split_and!.
  - now apply (auto_check_while_fuel_le head_reply 4 fuel).
  - exact Hrun.
  - unfold run_auto_check. now erewrite bind_ok by exact Hrun.
  - apply Hshape.
  - exact Hshape.
  - intros Hnone. unfold auto_run in Hshape. rewrite Hnone in Hshape.
    destruct Hshape as (_ & Hlog & Hclock & Henv & _ & Hend).
    destruct found.
    + destruct Hend as (_ & Hlast & _). now destruct Hlast.
    + destruct Hend as (Hsess & [[_ ->] | [Hne _]]); [| now destruct Hne].
      split_and!; try reflexivity.
      cbn in Hlog, Hclock. rewrite app_nil_r in Hlog. rewrite Nat.add_0_r in Hclock.
      destruct w, w'. cbn in *. congruence.
  - intros Hsome ->. unfold auto_run in Hshape.
    destruct Hshape as (_ & _ & _ & _ & _ & _ & [[Hnil _] | [_ ->]]);
      [contradiction | reflexivity].
Qed.

Lemma C5_auto_check_witness :
  (4 <= 5)%nat /\
  exists k found w',
    auto_check_images always_404 5 (pending_world ["https://x/u1.png"])
      = (Ok (Some found), w') /\
    auto_check_images always_404 4 (pending_world ["https://x/u1.png"])
      = (Ok (Some found), w') /\
    run_auto_check always_404 (pending_world ["https://x/u1.png"]) = (Ok found, w') /\
    (k <= 3)%nat /\
    auto_run always_404 3 k found (pending_world ["https://x/u1.png"]) w' /\
    (pending_urls (session (pending_world ["https://x/u1.png"])) = [] ->
     k = 0%nat /\ found = false /\ w' = pending_world ["https://x/u1.png"]) /\
    (pending_urls (session (pending_world ["https://x/u1.png"])) <> [] ->
     found = false -> k = 3%nat).
Proof.
  split; [lia |].
  apply (C5_auto_check_ends_within_three_attempts always_404 5); lia.
Defined.

(** With nothing pending the automatic check neither sleeps nor sends. *)
Example nothing_pending_no_attempt :
  auto_check_images always_404 4 (start_world empty_session ∅)
  = (Ok (Some false), start_world empty_session ∅).
Proof. reflexivity. Qed.

(** ** Network errors and URLs that never become ready *)

Lemma In_lookup {A} (l : list A) (x : A) : In x l <-> exists i, l !! i = Some x.
Proof. rewrite <- list_elem_of_In. apply list_elem_of_lookup. Qed.

Lemma net_error_not_ready head_reply n u e :
  head_outcome head_reply n u = NetError e ->
  is_ready (head_outcome head_reply n u) = false.
Proof. now intros ->. Qed.

Lemma shown_after_pass u ready pending s :
  In u ready ->
  edited_image (after_pass ready pending s) = u \/
  In u (generated_images (after_pass ready pending s)).
Proof.
  destruct ready as [| first [| second more]]; cbn [after_pass].
  - intros [].
  - intros [-> | []]. now left.
  - intros Hin. now right.
Qed.

Lemma check_log head_reply w found w' :
  check_generated_images head_reply w = (Ok found, w') ->
  log w' = log w ++ map EvHead (pending_urls (session w)).
Proof.
  rewrite check_generated_images_spec. intros [= _ <-].
  destruct (pending_urls (session w)); cbn [nonempty map].
  - now rewrite app_nil_r.
  - reflexivity.
Qed.

(** C4. A pass never fails: whatever the requests meet, it returns normally
    after a HEAD request to every pending URL, and a URL whose request raised
    is pending afterwards.  When such a URL, with nothing else ready on the
    first attempt, is answered 200 on the second attempt, the automatic check
    stops after that second attempt with [True]: the URL is among the ready
    ones, it is displayed or stored, and the others stay pending. *)
Theorem C4_network_error_keeps_url_pending
    (head_reply : nat -> string -> http_result) (w : world) :
  let urls := pending_urls (session w) in
  (exists found w',
     check_generated_images head_reply w = (Ok found, w') /\
     log w' = log w ++ map EvHead urls /\
     forall i u e,
       urls !! i = Some u ->
       head_outcome head_reply (clock w + i) u = NetError e ->
       In u (pending_urls (session w'))) /\
  (forall i u e resp,
     urls !! i = Some u ->
     head_outcome head_reply (clock w + i) u = NetError e ->
     ready_of head_reply (clock w) urls = [] ->
     head_outcome head_reply (clock w + length urls + i) u = Answer resp ->
     status_code resp = 200 ->
     exists w',
       auto_check_images head_reply 4 w = (Ok (Some true), w') /\
       log w' = log w ++ attempt_block urls ++ attempt_block urls
                      ++ success_note true /\
       In u (ready_of head_reply (clock w + length urls) urls) /\
       pending_urls (session w') =
         pending_of head_reply (clock w + length urls) urls /\
       (edited_image (session w') = u \/ In u (generated_images (session w')))).
Proof.
  cbv zeta. split.
  - eexists _, _. split; [apply check_generated_images_spec |]. split.
    + destruct (pending_urls (session w)); cbn [nonempty map probed log].
      * now rewrite app_nil_r.
      * reflexivity.
    + intros i u e Hi Herr.
      assert (Hin : In u (pending_of head_reply (clock w) (pending_urls (session w)))).
      { apply pending_of_In. exists i. split; [exact Hi |].
        now apply net_error_not_ready with e. }
      destruct (pending_urls (session w)) eqn:Hurls; [destruct i; discriminate |].
      cbn [nonempty probed session]. now rewrite pending_after_pass.
  - intros i u e resp Hi Herr Hidle Hans H200.
    set (urls := pending_urls (session w)) in *.
    assert (Hready : In u (ready_of head_reply (clock w + length urls) urls)).
    { apply ready_of_In. exists i. split; [exact Hi |].
      apply is_ready_200. eauto. }
    destruct (auto_check_while_spec head_reply 4 3 0 w)
      as (k & found & w' & Hrun & Hshape); [reflexivity | lia |].
    unfold auto_run in Hshape. fold urls in Hshape.
    destruct Hshape as (Hk & Hlog & Hclock & Henv & Hidles & Hend).
    assert (Hone : (clock w + 1 * length urls = clock w + length urls)%nat) by lia.
    assert (Hzero : (clock w + 0 * length urls = clock w)%nat) by lia.
    assert (Hk2 : found = true /\ k = 2%nat).
    { destruct found.
      - split; [reflexivity |]. destruct Hend as (Hk1 & Hlast & _).
        destruct k as [| [| [| k]]]; cbn [pred] in *.
        + lia.
        + rewrite Hzero in Hlast. contradiction.
        + reflexivity.
        + specialize (Hidles 1%nat ltac:(lia)). rewrite Hone in Hidles.
          rewrite Hidles in Hready. destruct Hready.
      - destruct Hend as (_ & [[Hnil _] | [_ ->]]).
        + rewrite Hnil in Hi. destruct i; discriminate.
        + specialize (Hidles 1%nat ltac:(lia)). rewrite Hone in Hidles.
          rewrite Hidles in Hready. destruct Hready. }
    destruct Hk2 as [-> ->]. cbn [pred] in Hend. rewrite Hone in Hend.
    destruct Hend as (_ & _ & Hsess).
    exists w'. split_and!.
    + exact Hrun.
    + rewrite Hlog. cbn [repeat concat]. now rewrite app_nil_r, <- app_assoc.
    + exact Hready.
    + rewrite Hsess. apply pending_after_pass.
    + rewrite Hsess. now apply shown_after_pass.
Qed.

Lemma C4_network_error_witness :
  let w := pending_world ["https://x/u1.png"] in
  exists w',
    auto_check_images error_then_200 4 w = (Ok (Some true), w') /\
    log w' = log w ++ attempt_block (pending_urls (session w))
                   ++ attempt_block (pending_urls (session w))
                   ++ success_note true /\
    In (PStr "https://x/u1.png")
       (ready_of error_then_200 (clock w + 1) (pending_urls (session w))) /\
    pending_urls (session w') =
      pending_of error_then_200 (clock w + 1) (pending_urls (session w)) /\
    (edited_image (session w') = PStr "https://x/u1.png" \/
     In (PStr "https://x/u1.png") (generated_images (session w'))).
Proof.
  cbv zeta.
  destruct (C4_network_error_keeps_url_pending error_then_200
              (pending_world ["https://x/u1.png"])) as [_ Hsecond].
  apply (Hsecond 0%nat (PStr "https://x/u1.png")
           (Exn RequestException "Connection aborted.")
           {| status_code := 200; reason := ""; content_length := None;
              json_body := None |}); reflexivity.
Defined.

(** The second attempt of that run, evaluated. *)
Example error_then_200_run :
  let '(r, w') := auto_check_images error_then_200 4
                    (pending_world ["https://x/u1.png"]) in
  r = Ok (Some true) /\
  pending_urls (session w') = [] /\
  edited_image (session w') = PStr "https://x/u1.png" /\
  log w' = [EvSleep 2; EvHead (PStr "https://x/u1.png");
            EvSleep 2; EvHead (PStr "https://x/u1.png");
            EvUi UiSuccess "Image ready!"].
Proof. vm_compute. repeat split. Qed.

(** Three pending URLs of which only the first is there. *)
Example one_of_three_ready :
  let '(r, w') := auto_check_images only_u1 4
                    (pending_world ["https://x/u1.png"; "https://x/u2.png";
                                    "https://x/u3.png"]) in
  r = Ok (Some true) /\
  edited_image (session w') = PStr "https://x/u1.png" /\
  pending_urls (session w') = [PStr "https://x/u2.png"; PStr "https://x/u3.png"].
Proof. vm_compute. repeat split. Qed.

Section NeverReady.

Variable head_reply : nat -> string -> http_result.
Variable u : pyval.
Hypothesis never_200 : forall n, is_ready (head_outcome head_reply n u) = false.

Lemma never_ready_survives_check w found w' :
  check_generated_images head_reply w = (Ok found, w') ->
  In u (pending_urls (session w)) -> In u (pending_urls (session w')).
Proof.
  intros Hrun Hin. rewrite (pending_after_check _ _ _ _ Hrun).
  apply In_lookup in Hin as (i & Hi).
  apply pending_of_In. eauto.
Qed.

Lemma never_ready_survives_auto : forall fuel attempt w r w',
  auto_check_while head_reply fuel attempt w = (Ok r, w') ->
  In u (pending_urls (session w)) -> In u (pending_urls (session w')).
Proof.
  induction fuel as [| fuel IH]; intros attempt w r w' Hrun Hin.
  - now injection Hrun as _ <-.
  - rewrite auto_check_while_step in Hrun.
    destruct ((attempt <? max_attempts) && nonempty (pending_urls (session w))).
    + destruct (check_generated_images head_reply _) as [[[] | e |] w1] eqn:Hcheck;
        try discriminate.
      * injection Hrun as _ <-. cbn [session].
        now apply (never_ready_survives_check _ _ _ Hcheck).
      * apply (IH _ _ _ _ Hrun).
        now apply (never_ready_survives_check _ _ _ Hcheck).
    + now injection Hrun as _ <-.
Qed.

Lemma never_ready_survives_polls w w' :
  polls head_reply w w' ->
  In u (pending_urls (session w)) -> In u (pending_urls (session w')).
Proof.
  induction 1 as [w | w w1 w2 found _ IH Hcheck | w w1 w2 fuel found _ IH Hauto];
    intros Hin.
  - exact Hin.
  - apply (never_ready_survives_check _ _ _ Hcheck). now apply IH.
  - apply (never_ready_survives_auto _ _ _ _ _ Hauto). now apply IH.
Qed.

End NeverReady.

(** C6 (as amended).  A pass removes from the pending list exactly the URLs
    it found ready; the first ready URL of the pass becomes the displayed
    image, and when more than one is ready the whole ready list is stored as
    the generated images; a pass that finds nothing leaves the session as it
    was.  Polling never drops a URL for another reason: a URL whose requests
    are never answered 200 is still pending after any sequence of manual and
    automatic checks. *)
Theorem C6_first_ready_url_is_displayed
    (head_reply : nat -> string -> http_result) (w : world) :
  let urls := pending_urls (session w) in
  let ready := ready_of head_reply (clock w) urls in
  let pending := pending_of head_reply (clock w) urls in
  (exists found w',
     check_generated_images head_reply w = (Ok found, w') /\
     pending_urls (session w') = pending /\
     (forall v, In v urls -> In v ready \/ In v (pending_urls (session w'))) /\
     (forall first rest, ready = first :: rest ->
        edited_image (session w') = first /\
        (rest <> [] -> generated_images (session w') = ready)) /\
     (ready = [] -> session w' = session w)) /\
  (forall v w',
     (forall n resp, head_outcome head_reply n v = Answer resp ->
                     status_code resp <> 200) ->
     polls head_reply w w' ->
     In v urls -> In v (pending_urls (session w'))).
Proof.
  cbv zeta. split.
  - eexists _, _. split; [apply check_generated_images_spec |].
    set (urls := pending_urls (session w)).
    set (ready := ready_of head_reply (clock w) urls).
    set (pending := pending_of head_reply (clock w) urls).
    assert (Hpending : pending_urls
              (session (if nonempty urls
                        then probed urls (after_pass ready pending (session w)) w
                        else w)) = pending).
    { destruct urls eqn:Hurls; cbn [nonempty probed session].
      - exact Hurls.
      - apply pending_after_pass. }
    split_and!.
    + exact Hpending.
    + intros v Hin. rewrite Hpending.
      apply in_app_or.
      apply (Permutation_in v (Permutation_sym (ready_pending_perm head_reply urls (clock w)))).
      exact Hin.
    + intros first rest Hready.
      assert (Hne : nonempty urls = true).
      { destruct urls; [discriminate Hready | reflexivity]. }
      rewrite Hne, Hready. cbn [probed session].
      destruct rest as [| second more]; cbn [after_pass]; split;
        try reflexivity; try congruence.
    + intros Hready. destruct urls eqn:Hurls; cbn [nonempty probed session];
        [reflexivity |].
      rewrite Hready. cbn [after_pass]. subst pending.
      rewrite (nothing_ready_all_pending _ _ _ Hready).
      rewrite <- Hurls. apply set_pending_urls_same.
  - intros v w' Hnever Hpolls Hin.
    apply (never_ready_survives_polls head_reply v) with (w := w);
      try assumption.
    intros n. destruct (is_ready _) eqn:Hr; [| reflexivity].
    apply is_ready_200 in Hr as (resp & Hresp & H200).
    now apply Hnever in Hresp.
Qed.

Lemma C6_first_ready_witness :
  In (PStr "https://x/u2.png")
     (pending_urls (session (snd (check_generated_images always_404 two_pending)))).
Proof.
  destruct (C6_first_ready_url_is_displayed always_404 two_pending) as [_ Hstay].
  apply Hstay.
  - intros n resp. destruct n; intros [= <-]; discriminate.
  - apply polls_check with (w1 := two_pending) (found := false);
      [apply polls_none | vm_compute; reflexivity].
  - right. left. reflexivity.
Defined.

(** C6 as stated fails: with two URLs ready in the same pass, the second
    one leaves the pending list but is not the displayed image. *)
Lemma C6_second_ready_url_not_displayed :
  exists found w',
    check_generated_images always_200 two_pending = (Ok found, w') /\
    In (PStr "https://x/u2.png")
       (ready_of always_200 (clock two_pending)
                 (pending_urls (session two_pending))) /\
    ~ In (PStr "https://x/u2.png") (pending_urls (session w')) /\
    edited_image (session w') <> PStr "https://x/u2.png".
Proof.
  eexists _, _. split; [vm_compute; reflexivity |].
  split_and!.
  - vm_compute. auto.
  - intros [].
  - discriminate.
Qed.

(** ** Result extraction *)

Lemma show_result_spec v w : show_result v w = (Ok tt, shown v w).
Proof. reflexivity. Qed.

Lemma has_key_get k d :
  has_key k (PDict d) = match dict_get k d with Some _ => true | None => false end.
Proof. reflexivity. Qed.

Lemma sync_result_items_skip skipped : forall item rest w,
  forallb (fun i => negb (item_matches i)) skipped = true ->
  sync_result_items (skipped ++ item :: rest) w = sync_result_items (item :: rest) w.
Proof.
  induction skipped as [| s0 skipped IH]; intros item rest w Hskip; [reflexivity |].
  cbn [forallb] in Hskip. apply andb_prop in Hskip as [Hs0 Hskip].
  cbn [app sync_result_items].
  unfold item_matches in Hs0. apply negb_true_iff, orb_false_elim in Hs0 as [Hd Hl].
  rewrite Hd.
  destruct s0 as [| | | | [| x l] |]; try discriminate; now apply IH.
Qed.

Lemma sync_result_items_none items : forall w,
  forallb (fun i => negb (item_matches i)) items = true ->
  sync_result_items items w = (Ok tt, w).
Proof.
  induction items as [| s0 items IH]; intros w Hskip; [reflexivity |].
  cbn [forallb] in Hskip. apply andb_prop in Hskip as [Hs0 Hskip].
  cbn [sync_result_items].
  unfold item_matches in Hs0. apply negb_true_iff, orb_false_elim in Hs0 as [Hd Hl].
  rewrite Hd.
  destruct s0 as [| | | | [| x l] |]; try discriminate; now apply IH.
Qed.

(** C2 (as amended).  The synchronous branch probes a dict response in the
    order [result_url], [result_urls], nested [result] list, [urls], and the
    first key that is present decides, whatever the later keys hold:
    [result_url] gives its value; otherwise [result_urls] gives its first
    element, and fails when it is empty; otherwise a [result] list is walked
    to its first item that is a dict with [urls] or a non-empty list, and
    [urls] is not consulted even when no item matches; otherwise [urls]
    gives its first element.  The "Generate Images" action probes the same
    first three keys and never [urls]. *)
Theorem C2_sync_probe_takes_first_present_key
    (entries : list (string * pyval)) (w : world) :
  let result := PDict entries in
  (forall v, dict_get "result_url" entries = Some v ->
     lifestyle_sync_result result w = (Ok tt, shown v w) /\
     hd_image_result result w = (Ok tt, shown v w)) /\
  (dict_get "result_url" entries = None ->
   (forall x more, dict_get "result_urls" entries = Some (PList (x :: more)) ->
      lifestyle_sync_result result w = (Ok tt, shown x w) /\
      hd_image_result result w = (Ok tt, shown x w)) /\
   (dict_get "result_urls" entries = Some (PList []) ->
      lifestyle_sync_result result w
        = (Raise (Exn IndexError "list index out of range"), w))) /\
  (dict_get "result_url" entries = None ->
   dict_get "result_urls" entries = None ->
   forall items, dict_get "result" entries = Some (PList items) ->
     lifestyle_sync_result result w = sync_result_items items w /\
     hd_image_result result w = sync_result_items items w /\
     (forallb (fun i => negb (item_matches i)) items = true ->
        sync_result_items items w = (Ok tt, w)) /\
     (forall skipped x more rest,
        items = skipped ++ PList (x :: more) :: rest ->
        forallb (fun i => negb (item_matches i)) skipped = true ->
        sync_result_items items w = (Ok tt, shown x w)) /\
     (forall skipped d x more rest,
        items = skipped ++ PDict d :: rest ->
        forallb (fun i => negb (item_matches i)) skipped = true ->
        dict_get "urls" d = Some (PList (x :: more)) ->
        sync_result_items items w = (Ok tt, shown x w))) /\
  (dict_get "result_url" entries = None ->
   dict_get "result_urls" entries = None ->
   (forall items, dict_get "result" entries <> Some (PList items)) ->
   (forall x more, dict_get "urls" entries = Some (PList (x :: more)) ->
      lifestyle_sync_result result w = (Ok tt, shown x w)) /\
   (dict_get "urls" entries = None ->
      lifestyle_sync_result result w = (Ok tt, w)) /\
   hd_image_result result w = (Ok tt, w)).
Proof.
  cbv zeta. unfold lifestyle_sync_result, hd_image_result, sync_nested_result.
  cbn [is_dict]. rewrite !has_key_get. cbn [subscript]. split_and!.
  - intros v ->. split; reflexivity.
  - intros ->. split.
    + intros x more ->. split; reflexivity.
    + intros ->. reflexivity.
  - intros -> -> items ->. split_and!; try reflexivity.
    + apply sync_result_items_none.
    + intros skipped x more rest -> Hskip.
      now rewrite sync_result_items_skip.
    + intros skipped d x more rest -> Hskip Hurls.
      rewrite sync_result_items_skip by exact Hskip.
      cbn [sync_result_items is_dict andb]. rewrite has_key_get, Hurls.
      cbn [subscript]. now rewrite Hurls.
  - intros -> -> Hnot.
    assert (Hnone' : (if match dict_get "result" entries with
                         | Some _ => true | None => false end
                      then match
                          match dict_get "result" entries with
                          | Some x => Ok x
                          | None => Raise (Exn KeyError "result")
                          end
                        with
                        | Ok (PList items) => Some (sync_result_items items)
                        | _ => None
                        end
                      else None) = None).
    { destruct (dict_get "result" entries) as [[| | | | items |] |]; try reflexivity.
      now destruct (Hnot items). }
    rewrite Hnone'. split_and!.
    + intros x more ->. reflexivity.
    + intros ->. reflexivity.
    + reflexivity.
Qed.

Lemma C2_sync_probe_witness :
  lifestyle_sync_result urls_and_nested (start_world empty_session ∅)
  = sync_result_items [PList [PStr "https://x/u2.png"]]
      (start_world empty_session ∅).
Proof.
  destruct (C2_sync_probe_takes_first_present_key
              [("urls", PList [PStr "https://x/u1.png"]);
               ("result", PList [PList [PStr "https://x/u2.png"]])]
              (start_world empty_session ∅)) as (_ & _ & Hnested & _).
  apply (Hnested eq_refl eq_refl [PList [PStr "https://x/u2.png"]] eq_refl).
Defined.

(** C2 as stated fails: a response with both [urls] and a nested [result]
    list shows the nested URL, where the stated order picks the one under
    [urls]. *)
Lemma C2_nested_result_precedes_urls :
  stated_sync_pick urls_and_nested = Some (PStr "https://x/u1.png") /\
  lifestyle_sync_result urls_and_nested (start_world empty_session ∅)
  = (Ok tt, shown (PStr "https://x/u2.png") (start_world empty_session ∅)) /\
  edited_image (session (snd (lifestyle_sync_result urls_and_nested
                                (start_world empty_session ∅))))
  <> PStr "https://x/u1.png".
Proof. split_and!; [reflexivity | reflexivity | discriminate]. Qed.

(** ** Asynchronous submissions *)

Lemma py_slice_firstn {A} (n : Z) (l : list A) :
  0 <= n -> py_slice n l = firstn (Z.to_nat n) l.
Proof. intros Hn. unfold py_slice. now rewrite (proj2 (Z.leb_le 0 n) Hn). Qed.

Lemma firstn_app_enough {A} (n : nat) (l more : list A) :
  (n <= length l)%nat -> firstn n (l ++ more) = firstn n l.
Proof.
  intros Hlen. rewrite firstn_app.
  replace (n - length l)%nat with 0%nat by lia.
  cbn [firstn]. apply app_nil_r.
Qed.

Lemma async_result_items_spec (num_results : Z) items : forall urls,
  0 <= num_results ->
  forallb item_well_shaped items = true ->
  exists urls',
    async_result_items num_results items urls = Ok urls' /\
    firstn (Z.to_nat num_results) urls' =
    firstn (Z.to_nat num_results) (urls ++ concat (map item_urls items)).
Proof.
  induction items as [| item rest IH]; intros urls Hn Hshape.
  - exists urls. cbn. now rewrite app_nil_r.
  - cbn [forallb] in Hshape. apply andb_prop in Hshape as [Hitem Hrest].
    cbn [async_result_items map concat].
    assert (Hext : (if is_dict item && has_key "urls" item
                    then match subscript "urls" item with
                         | Ok v => match iterate v with
                                   | Ok more => Ok (urls ++ more)
                                   | Raise e => Raise e
                                   | Rerun => Rerun
                                   end
                         | Raise e => Raise e
                         | Rerun => Rerun
                         end
                    else match item with
                         | PList l => Ok (urls ++ l)
                         | _ => Ok urls
                         end) = Ok (urls ++ item_urls item)).
    { destruct item as [| | | | l | d]; cbn; rewrite ?app_nil_r; try reflexivity.
      cbn in Hitem.
      destruct (dict_get "urls" d) as [[| | | | l |] |]; try discriminate;
        cbn; now rewrite ?app_nil_r. }
    rewrite Hext.
    destruct (Z.of_nat (length (urls ++ item_urls item)) >=? num_results) eqn:Hfull.
    + exists (urls ++ item_urls item). split; [reflexivity |].
      rewrite app_assoc. symmetry. apply firstn_app_enough.
      apply Z.geb_le in Hfull. lia.
    + destruct (IH (urls ++ item_urls item) Hn Hrest) as (urls' & Hrun & Hfirst).
      exists urls'. split; [exact Hrun |]. now rewrite Hfirst, app_assoc.
Qed.

Lemma collect_async_urls_spec (num_results : Z) result yield :
  0 <= num_results ->
  yielded result = Some yield ->
  collect_async_urls num_results result = Ok (firstn (Z.to_nat num_results) yield).
Proof.
  intros Hn Hyield. unfold collect_async_urls.
  destruct result as [| | | | | d]; try (injection Hyield as <-; now rewrite firstn_nil).
  cbn [is_dict yielded] in *. rewrite !has_key_get. cbn [subscript].
  destruct (dict_get "urls" d) as [[| | | | l |] |]; try discriminate.
  - injection Hyield as <-. cbn [slice_to iterate app]. now rewrite py_slice_firstn.
  - destruct (dict_get "result" d) as [[| | | | items |] |];
      try (injection Hyield as <-; now rewrite firstn_nil).
    destruct (forallb item_well_shaped items) eqn:Hshape; [| discriminate].
    injection Hyield as <-.
    destruct (async_result_items_spec num_results items [] Hn Hshape)
      as (urls' & -> & Hfirst).
    now rewrite py_slice_firstn, Hfirst.
Qed.

(** C3 (as amended).  For a requested count [N] of at least one and a
    response that yields the URLs [L]: the handler collects the first [N] of
    them in their order, which are exactly [N] URLs when [L] has at least
    [N] and all of [L] when it has fewer, never more than [L] holds; when
    [L] is not empty that list becomes the pending list before polling
    starts, and when the response yields no URL the pending list is left as
    it was. *)
Theorem C3_async_registers_first_n_urls
    (head_reply : nat -> string -> http_result) (experimental_rerun : bool)
    (num_results : Z) (result : pyval) (yield : list pyval)
    (refresh_clicked : bool) (w : world) :
  1 <= num_results ->
  yielded result = Some yield ->
  let urls := firstn (Z.to_nat num_results) yield in
  collect_async_urls num_results result = Ok urls /\
  (num_results <= Z.of_nat (length yield) -> Z.of_nat (length urls) = num_results) /\
  (Z.of_nat (length yield) < num_results -> urls = yield) /\
  (exists rest, yield = urls ++ rest) /\
  (truthy result = true -> yield <> [] ->
   urls <> [] /\
   lifestyle_on_result head_reply experimental_rerun false num_results
     refresh_clicked result w =
   poll_registered head_reply experimental_rerun refresh_clicked
     (registered urls (debug_noted w)) /\
   pending_urls (session (registered urls (debug_noted w))) = urls) /\
  (truthy result = true -> yield = [] ->
   lifestyle_on_result head_reply experimental_rerun false num_results
     refresh_clicked result w = (Ok tt, debug_noted w) /\
   pending_urls (session (debug_noted w)) = pending_urls (session w)).
Proof.
  intros Hn Hyield. cbv zeta.
  assert (Hn0 : 0 <= num_results) by lia.
  pose proof (collect_async_urls_spec num_results result yield Hn0 Hyield) as Hcollect.
  assert (Hrun : truthy result = true ->
    lifestyle_on_result head_reply experimental_rerun false num_results
      refresh_clicked result w =
    if nonempty (firstn (Z.to_nat num_results) yield)
    then poll_registered head_reply experimental_rerun refresh_clicked
           (registered (firstn (Z.to_nat num_results) yield) (debug_noted w))
    else (Ok tt, debug_noted w)).
  { intros Htruthy. unfold lifestyle_on_result. rewrite Htruthy.
    unfold bind at 1. cbn [st_ui emit].
    unfold bind at 1. unfold lift. rewrite Hcollect.
    unfold register_pending.
    destruct (firstn (Z.to_nat num_results) yield); reflexivity. }
  split_and!.
  - exact Hcollect.
  - intros Hlen. rewrite length_firstn. lia.
  - intros Hlen. apply firstn_all2. lia.
  - exists (skipn (Z.to_nat num_results) yield). symmetry. apply firstn_skipn.
  - intros Htruthy Hsome.
    assert (Hne : firstn (Z.to_nat num_results) yield <> []).
    { destruct yield as [| u0 rest]; [contradiction |].
      destruct (Z.to_nat num_results) eqn:Hnat; [lia | discriminate]. }
    split_and!; [exact Hne | | reflexivity].
    rewrite (Hrun Htruthy).
    destruct (firstn (Z.to_nat num_results) yield); [contradiction | reflexivity].
  - intros Htruthy ->. rewrite (Hrun Htruthy), firstn_nil. split; reflexivity.
Qed.

Lemma C3_async_witness :
  1 <= 4 /\ yielded five_urls = Some [PStr "u1"; PStr "u2"; PStr "u3"; PStr "u4"; PStr "u5"] /\
  collect_async_urls 4 five_urls = Ok [PStr "u1"; PStr "u2"; PStr "u3"; PStr "u4"].
Proof.
  split; [lia |]. split; [reflexivity |].
  apply (C3_async_registers_first_n_urls always_404 true 4 five_urls
           [PStr "u1"; PStr "u2"; PStr "u3"; PStr "u4"; PStr "u5"]
           false (start_world empty_session ∅)); [lia | reflexivity].
Defined.

(** Five URLs for a request of four: four are registered, and with none of
    them ready yet they are all still pending after the automatic check. *)
Example five_urls_for_four :
  pending_urls (session (snd (lifestyle_on_result always_404 true false 4 false
                                five_urls (start_world empty_session ∅))))
  = [PStr "u1"; PStr "u2"; PStr "u3"; PStr "u4"].
Proof. vm_compute. reflexivity. Qed.

(** C3 as stated fails when the response yields no URL at all: the pending
    list does not become the (empty) list of yielded URLs but keeps the URL
    registered before. *)
Lemma C3_empty_response_keeps_old_pending :
  yielded no_urls = Some [] /\
  Z.of_nat (length (@nil pyval)) < 4 /\
  truthy no_urls = true /\
  pending_urls (session (snd (lifestyle_on_result always_404 true false 4 false
                                no_urls (pending_world ["https://x/old.png"]))))
  = [PStr "https://x/old.png"] /\
  pending_urls (session (snd (lifestyle_on_result always_404 true false 4 false
                                no_urls (pending_world ["https://x/old.png"]))))
  <> [].
Proof. split_and!; try reflexivity. vm_compute. discriminate. Qed.

(** ** Credentials *)

Lemma truthy_key_some (k : string) : k <> "" -> truthy_key (Some k) = true.
Proof. intros Hk. cbn. now apply negb_true_iff, String.eqb_neq. Qed.

(** C7 (as amended).  A video operation looks its key up in the environment
    first: a non-empty environment key is the one used whatever the session
    holds, and the session key is used only when the environment has none;
    the Google path does the same.  For the primary backend a key typed in
    the sidebar replaces the one the session took from the environment. *)
Theorem C7_video_key_prefers_environment (w : world) :
  (forall e, environ w !! "Fal.ai_LTX_API_KEY" = Some e -> e <> "" ->
     video_fal_key w = (Ok (Some e), w)) /\
  (truthy_key (environ w !! "Fal.ai_LTX_API_KEY") = false ->
     video_fal_key w = (Ok (fal_api_key (session w)), w)) /\
  (forall e, environ w !! "GOOGLE_API_KEY" = Some e -> e <> "" ->
     video_google_key w = (Ok (Some e), w)) /\
  (truthy_key (environ w !! "GOOGLE_API_KEY") = false ->
     video_google_key w = (Ok (google_api_key (session w)), w)) /\
  (forall old typed, typed <> "" ->
     exists w',
       (initialize_session_state old ;;; sidebar_bria_key (Some typed)) w
         = (Ok tt, w') /\
       api_key (session w') = Some typed /\ environ w' = environ w).
Proof.
  unfold video_fal_key, video_google_key, bind, os_getenv, get_session, ret, py_or.
  split_and!.
  - intros e -> He. now rewrite truthy_key_some.
  - now intros ->.
  - intros e -> He. now rewrite truthy_key_some.
  - now intros ->.
  - intros old typed Htyped.
    assert (Hne : negb (String.eqb typed "") = true)
      by now apply negb_true_iff, String.eqb_neq.
    unfold initialize_session_state, sidebar_bria_key, bind, get_session,
      text_input, modify_session.
    destruct old as [s |]; rewrite Hne; eexists; split_and!; reflexivity.
Qed.

Lemma C7_video_key_witness :
  video_fal_key both_keys = (Ok (Some "env-key"), both_keys).
Proof.
  destruct (C7_video_key_prefers_environment both_keys) as (Henv & _).
  apply Henv; [reflexivity | discriminate].
Defined.

(** C7 as stated fails: with a key typed into the session and another one
    in the environment, the video operation uses the environment's. *)
Lemma C7_session_key_does_not_win :
  fal_api_key (session both_keys) = Some "session-key" /\
  environ both_keys !! "Fal.ai_LTX_API_KEY" = Some "env-key" /\
  fst (video_fal_key both_keys) = Ok (Some "env-key") /\
  fst (video_fal_key both_keys) <> Ok (fal_api_key (session both_keys)) /\
  fst ((sidebar_fal_key (Some "session-key") ;;; video_fal_key)
         (start_world empty_session {[ "Fal.ai_LTX_API_KEY" := "env-key" ]}))
  = Ok (Some "env-key").
Proof. split_and!; try reflexivity. discriminate. Qed.

(** ** Missing credentials *)

(** ** Moderation warnings *)

Lemma append_cons (c : ascii) (s rest : string) :
  String c s +:+ rest = String c (s +:+ rest).
Proof. reflexivity. Qed.

Lemma prefix_append (n rest : string) : String.prefix n (n +:+ rest) = true.
Proof.
  induction n as [| c n IH]; [now destruct rest |].
  rewrite append_cons. cbn [String.prefix].
  now destruct (ascii_dec c c).
Qed.

Lemma contains_middle (n before rest : string) :
  contains n (before +:+ n +:+ rest) = true.
Proof.
  induction before as [| c before IH].
  - change ("" +:+ n +:+ rest) with (n +:+ rest).
    destruct (n +:+ rest) eqn:Heq; cbn [contains];
      rewrite <- Heq, prefix_append; reflexivity.
  - rewrite append_cons. cbn [contains]. rewrite IH. apply orb_true_r.
Qed.

Lemma warned_app l1 l2 : warned (l1 ++ l2) = warned l1 || warned l2.
Proof. apply existsb_app. Qed.

(** C9 (as amended).  In the packshot, shadow, lifestyle-shot and erase
    actions a caught failure always shows the generic error line, and the
    moderation warning is added exactly when the text of the exception
    contains "422", as the text [requests] gives a 422 answer does, also
    inside a longer message. *)
Theorem C9_moderation_warning_follows_error_text
    (op : operation) (e : exn) (w : world) :
  has_moderation_branch op = true ->
  exists w',
    except_clause op e w = (Ok tt, w') /\
    log w' = log w ++ EvUi UiError (error_label op +:+ str e)
                   :: (if contains "422" (str e)
                       then [EvUi UiWarning (moderation_advice op)] else []) /\
    (warned (log w') = warned (log w) || contains "422" (str e)) /\
    (forall before rest, str e = before +:+ "422" +:+ rest ->
       warned (log w') = true) /\
    (forall r wrap, status_code r = 422 ->
       exists e422, raise_for_status r w = (Raise e422, w) /\
                    contains "422" (wrap +:+ str e422) = true).
Proof.
  intros Hop.
  assert (Hbody : exists w',
    except_clause op e w = (Ok tt, w') /\
    log w' = log w ++ EvUi UiError (error_label op +:+ str e)
                   :: (if contains "422" (str e)
                       then [EvUi UiWarning (moderation_advice op)] else [])).
  { destruct op; try discriminate Hop;
      unfold except_clause, moderation_check, bind, st_ui, emit, ret;
      cbn [error_label moderation_advice log];
      destruct (contains "422" (str e)); eexists;
        (split; [reflexivity |]); cbn [log];
        rewrite <- ?app_assoc; reflexivity. }
  destruct Hbody as (w' & Hrun & Hlog).
  assert (Hwarned : warned (log w') = warned (log w) || contains "422" (str e)).
  { rewrite Hlog, warned_app. f_equal.
    now destruct (contains "422" (str e)). }
  exists w'. split_and!; try assumption.
  - intros before rest Htext. rewrite Hwarned, Htext, contains_middle.
    apply orb_true_r.
  - intros r wrap H422. unfold raise_for_status. rewrite H422.
    eexists. split; [reflexivity |].
    cbn [str exn_msg]. apply contains_middle.
Qed.

Lemma C9_moderation_warning_witness :
  has_moderation_branch Packshot = true /\
  exists w',
    except_clause Packshot (raised moderated) (start_world empty_session ∅)
      = (Ok tt, w') /\
    log w' = [EvUi UiError "Error creating packshot: 422 Client Error: Unprocessable Entity";
              EvUi UiWarning "Content moderation failed. Please ensure the image is appropriate."].
Proof.
  split; [reflexivity |].
  destruct (C9_moderation_warning_follows_error_text Packshot (raised moderated)
              (start_world empty_session ∅) eq_refl)
    as (w' & Hrun & Hlog & _).
  exists w'. split; [exact Hrun | exact Hlog].
Defined.

(** C9 as stated fails both ways: the "Generate Images" action shows no
    moderation warning for a 422 failure, and the packshot action shows one
    for a transport failure whose text happens to contain "422". *)
Lemma C9_warning_does_not_track_status :
  (failed_status moderated = Some 422 /\
   warned (log (snd (except_clause HdImage (raised moderated)
                       (start_world empty_session ∅)))) = false) /\
  (failed_status dropped_connection <> Some 422 /\
   warned (log (snd (except_clause Packshot (raised dropped_connection)
                       (start_world empty_session ∅)))) = true).
Proof. split_and!; try reflexivity. discriminate. Qed.

(** ** Prompt enhancement *)

Lemma not_error_status (status : Z) :
  ~ (400 <= status < 600) ->
  (400 <=? status) && (status <? 500) = false /\
  (500 <=? status) && (status <? 600) = false.
Proof.
  intros Hout. split; apply andb_false_iff;
    rewrite Z.leb_gt, Z.ltb_ge; lia.
Qed.

Lemma error_status_raises (r : response) w :
  400 <= status_code r < 600 ->
  exists e, raise_for_status r w = (Raise e, w).
Proof.
  intros Hin. unfold raise_for_status.
  destruct ((400 <=? status_code r) && (status_code r <? 500)) eqn:H4;
    [eexists; reflexivity |].
  destruct ((500 <=? status_code r) && (status_code r <? 600)) eqn:H5;
    [eexists; reflexivity |].
  apply andb_false_iff in H4, H5.
  rewrite Z.leb_gt, Z.ltb_ge in H4, H5. lia.
Qed.

Lemma enhance_prompt_unfold post_reply token prompt kwargs w :
  let data := ("prompt", PStr prompt) :: kwargs in
  let w1 := {| session := session w; environ := environ w;
               clock := S (clock w); log := log w ++ [EvPost enhancer_url data] |} in
  enhance_prompt post_reply token prompt kwargs w =
  match post_reply (clock w) token data with
  | NetError _ => (Ok (PStr prompt), w1)
  | Answer r =>
      match raise_for_status r w1 with
      | (Ok _, _) =>
          match json_body r with
          | Some (PDict d) =>
              match dict_get "prompt variations" d with
              | Some x => (Ok x, w1)
              | None => (Ok (PStr prompt), w1)
              end
          | _ => (Ok (PStr prompt), w1)
          end
      | _ => (Ok (PStr prompt), w1)
      end
  end.
Proof.
  cbv zeta. unfold enhance_prompt, try_except, requests_post, bind, tick, emit.
  cbn [clock session environ log].
  destruct (post_reply (clock w) token (("prompt", PStr prompt) :: kwargs))
    as [e | r]; [reflexivity |].
  unfold ret at 1. unfold raise_for_status.
  destruct ((400 <=? status_code r) && (status_code r <? 500)); [reflexivity |].
  destruct ((500 <=? status_code r) && (status_code r <? 600)); [reflexivity |].
  unfold ret at 1. unfold response_json.
  destruct (json_body r) as [[| | | | | d] |]; try reflexivity.
  unfold ret, get_method. now destruct (dict_get "prompt variations" d).
Qed.

(** C10 (as amended).  [enhance_prompt] always returns normally after its
    one POST.  It returns the original prompt when the request fails in
    transport, when the answer's status is 4xx or 5xx, when the body is not
    JSON, and when the parsed body is not an object holding the key
    "prompt variations"; for any other status and an object with that key it
    returns the key's value. *)
Theorem C10_enhance_prompt_falls_back_to_prompt
    (post_reply : nat -> string -> list (string * pyval) -> http_result)
    (token prompt : string) (kwargs : list (string * pyval)) (w : world) :
  let data := ("prompt", PStr prompt) :: kwargs in
  let reply := post_reply (clock w) token data in
  exists v w',
    enhance_prompt post_reply token prompt kwargs w = (Ok v, w') /\
    log w' = log w ++ [EvPost enhancer_url data] /\
    (forall e, reply = NetError e -> v = PStr prompt) /\
    (forall r, reply = Answer r -> 400 <= status_code r < 600 ->
       v = PStr prompt) /\
    (forall r, reply = Answer r -> json_body r = None -> v = PStr prompt) /\
    (forall r body, reply = Answer r -> json_body r = Some body ->
       has_key "prompt variations" body = false -> v = PStr prompt) /\
    (forall r d x, reply = Answer r -> ~ (400 <= status_code r < 600) ->
       json_body r = Some (PDict d) ->
       dict_get "prompt variations" d = Some x -> v = x).
Proof.
  cbv zeta. rewrite enhance_prompt_unfold. cbv zeta.
  set (w1 := {| session := session w; environ := environ w;
                clock := S (clock w);
                log := log w ++ [EvPost enhancer_url (("prompt", PStr prompt) :: kwargs)] |}).
  destruct (post_reply (clock w) token (("prompt", PStr prompt) :: kwargs))
    as [e | r] eqn:Hreply.
  { exists (PStr prompt), w1. split_and!; intros; simplify_eq; reflexivity. }
  destruct (raise_for_status r w1) as [[[] | e |] w2] eqn:Hstatus.
  - assert (Hout : ~ (400 <= status_code r < 600)).
    { intros Hin. destruct (error_status_raises r w1 Hin) as (e & He).
      congruence. }
    destruct (json_body r) as [body |] eqn:Hbody.
    + destruct body as [| | | | | d].
      1-5: exists (PStr prompt), w1; split_and!; intros; simplify_eq;
        try reflexivity; try contradiction.
      destruct (dict_get "prompt variations" d) as [x |] eqn:Hkey.
      * exists x, w1. split_and!; intros; simplify_eq;
          try reflexivity; try contradiction.
        rewrite has_key_get, Hkey in *. discriminate.
      * exists (PStr prompt), w1. split_and!; intros; simplify_eq; reflexivity.
    + exists (PStr prompt), w1. split_and!; intros; simplify_eq; reflexivity.
  - assert (Hin : 400 <= status_code r < 600).
    { destruct (Z_le_dec 400 (status_code r)) as [Hlo |];
        [destruct (Z_lt_dec (status_code r) 600) as [Hhi |]; [lia |] |];
        exfalso;
        assert (Hout : ~ (400 <= status_code r < 600)) by lia;
        apply not_error_status in Hout as [H4 H5];
        unfold raise_for_status in Hstatus; rewrite H4, H5 in Hstatus;
        discriminate. }
    exists (PStr prompt), w1. split_and!; intros; simplify_eq;
      try reflexivity; try contradiction.
  - exfalso. unfold raise_for_status in Hstatus.
    destruct ((400 <=? status_code r) && (status_code r <? 500));
      [discriminate |].
    destruct ((500 <=? status_code r) && (status_code r <? 600));
      discriminate.
Qed.

Lemma C10_enhance_prompt_witness :
  exists w',
    enhance_prompt multiple_choices "token" "a prompt" []
      (start_world empty_session ∅) = (Ok (PStr "a better prompt"), w').
Proof.
  destruct (C10_enhance_prompt_falls_back_to_prompt multiple_choices
              "token" "a prompt" [] (start_world empty_session ∅))
    as (v & w' & Hrun & _ & _ & _ & _ & _ & Hvalue).
  exists w'. rewrite Hrun. f_equal. f_equal.
  apply (Hvalue _ [("prompt variations", PStr "a better prompt")]
           (PStr "a better prompt") eq_refl);
    [cbn [status_code]; lia | reflexivity | reflexivity].
Defined.

(** C10 as stated fails for an answer that is neither 2xx nor an error
    status: a 300 answer with an enhanced prompt in its body is not turned
    into the original prompt. *)
Lemma C10_redirect_status_is_not_an_error :
  (forall token data,
     exists r, multiple_choices 0%nat token data = Answer r /\
               ~ (200 <= status_code r < 300)) /\
  fst (enhance_prompt multiple_choices "token" "a prompt" []
         (start_world empty_session ∅)) = Ok (PStr "a better prompt") /\
  fst (enhance_prompt multiple_choices "token" "a prompt" []
         (start_world empty_session ∅)) <> Ok (PStr "a prompt").
Proof.
  split_and!.
  - intros token data. eexists. split; [reflexivity |]. cbn. lia.
  - reflexivity.
  - discriminate.
Qed.

(** * Further properties *)

(** ** Polling keeps its frame *)

Lemma pending_of_sublist head_reply urls : forall n,
  sublist (pending_of head_reply n urls) urls.
Proof.
  induction urls as [| url rest IH]; intros n; [constructor |].
  rewrite pending_of_cons.
  destruct (is_ready (head_outcome head_reply n url)).
  - apply sublist_cons, IH.
  - apply sublist_skip, IH.
Qed.

Lemma after_pass_keys ready pending s :
  api_key (after_pass ready pending s) = api_key s /\
  fal_api_key (after_pass ready pending s) = fal_api_key s /\
  google_api_key (after_pass ready pending s) = google_api_key s.
Proof. destruct ready as [| first [| second more]]; repeat split. Qed.

Lemma poll_frame_refl w : poll_frame w w.
Proof. unfold poll_frame. split_and!; reflexivity. Qed.

Lemma poll_frame_trans w1 w2 w3 :
  poll_frame w1 w2 -> poll_frame w2 w3 -> poll_frame w1 w3.
Proof.
  unfold poll_frame.
  intros (Hs & Ha & Hf & Hg & He & Hc) (Hs' & Ha' & Hf' & Hg' & He' & Hc').
  split_and!; try congruence; try lia.
  now transitivity (pending_urls (session w2)).
Qed.

Lemma check_frame head_reply w found w' :
  check_generated_images head_reply w = (Ok found, w') -> poll_frame w w'.
Proof.
  rewrite check_generated_images_spec. intros [= _ <-].
  destruct (pending_urls (session w)) as [| u0 rest] eqn:Hurls; cbn [nonempty].
  - apply poll_frame_refl.
  - unfold poll_frame. cbn [probed session environ clock].
    rewrite pending_after_pass, Hurls.
    destruct (after_pass_keys (ready_of head_reply (clock w) (u0 :: rest))
                (pending_of head_reply (clock w) (u0 :: rest)) (session w))
      as (Ha & Hf & Hg).
    split_and!; try assumption; try reflexivity; try lia.
    apply pending_of_sublist.
Qed.

Lemma sleep_frame w :
  poll_frame w {| session := session w; environ := environ w;
                  clock := clock w; log := log w ++ [EvSleep 2] |}.
Proof. unfold poll_frame. cbn. split_and!; reflexivity. Qed.

Lemma auto_frame head_reply : forall fuel attempt w r w',
  auto_check_while head_reply fuel attempt w = (Ok r, w') -> poll_frame w w'.
Proof.
  induction fuel as [| fuel IH]; intros attempt w r w' Hrun.
  - injection Hrun as _ <-. apply poll_frame_refl.
  - rewrite auto_check_while_step in Hrun.
    destruct ((attempt <? max_attempts) && nonempty (pending_urls (session w))).
    + destruct (check_generated_images head_reply _) as [[[] | e |] w1] eqn:Hcheck;
        try discriminate.
      * injection Hrun as _ <-.
        apply poll_frame_trans with (w2 := w1).
        -- eapply poll_frame_trans; [apply sleep_frame | eapply check_frame, Hcheck].
        -- unfold poll_frame. cbn. split_and!; reflexivity.
      * apply poll_frame_trans with (w2 := w1).
        -- eapply poll_frame_trans; [apply sleep_frame | eapply check_frame, Hcheck].
        -- eapply IH, Hrun.
    + injection Hrun as _ <-. apply poll_frame_refl.
Qed.

(** X1.  Whatever sequence of manual and automatic checks runs, the pending
    list afterwards is the earlier one with some entries removed, in the
    same order; nothing is added or reordered, the three API keys and the
    environment are untouched, and the request counter never goes back. *)
Theorem polling_only_removes_pending_urls
    (head_reply : nat -> string -> http_result) (w w' : world) :
  polls head_reply w w' -> poll_frame w w'.
Proof.
  induction 1 as [w | w w1 w2 found _ IH Hcheck | w w1 w2 fuel found _ IH Hauto].
  - apply poll_frame_refl.
  - eapply poll_frame_trans; [exact IH | eapply check_frame, Hcheck].
  - eapply poll_frame_trans; [exact IH | eapply auto_frame, Hauto].
Qed.

Lemma polling_only_removes_witness :
  poll_frame two_pending (snd (check_generated_images sample_head two_pending)).
Proof.
  apply (polling_only_removes_pending_urls sample_head).
  apply polls_check with (w1 := two_pending) (found := true);
    [apply polls_none | vm_compute; reflexivity].
Defined.

Lemma ready_pending_lengths head_reply n urls :
  (length (ready_of head_reply n urls) + length (pending_of head_reply n urls)
   = length urls)%nat.
Proof.
  rewrite <- length_app. apply Permutation_length, ready_pending_perm.
Qed.

(** X2.  The value a check returns tells whether the pending list got
    shorter: a manual check returns [True] exactly when at least one URL
    left the pending list, and so does the automatic check. *)
Theorem check_returns_true_iff_pending_shrinks
    (head_reply : nat -> string -> http_result) (w : world) :
  (exists found w',
     check_generated_images head_reply w = (Ok found, w') /\
     (found = true <->
      (length (pending_urls (session w')) < length (pending_urls (session w)))%nat)) /\
  (exists found w',
     auto_check_images head_reply 4 w = (Ok (Some found), w') /\
     (found = true <->
      (length (pending_urls (session w')) < length (pending_urls (session w)))%nat)).
Proof.
  split.
  - eexists _, _. split; [apply check_generated_images_spec |].
    pose proof (ready_pending_lengths head_reply (clock w) (pending_urls (session w)))
      as Hlen.
    destruct (pending_urls (session w)) as [| u0 rest] eqn:Hurls; cbn [nonempty].
    + rewrite Hurls. cbn. split; [discriminate | lia].
    + cbn [probed session]. rewrite pending_after_pass.
      destruct (ready_of head_reply (clock w) (u0 :: rest)) eqn:Hready;
        cbn [nonempty length] in *; split; try discriminate; try reflexivity; lia.
  - destruct (auto_check_while_spec head_reply 4 3 0 w)
      as (k & found & w' & Hrun & Hshape); [reflexivity | lia |].
    exists found, w'. split; [exact Hrun |].
    destruct Hshape as (_ & _ & _ & _ & _ & Hend).
    destruct found.
    + destruct Hend as (_ & Hlast & ->).
      rewrite pending_after_pass.
      pose proof (ready_pending_lengths head_reply
                    (clock w + pred k * length (pending_urls (session w)))
                    (pending_urls (session w))) as Hlen.
      destruct (ready_of head_reply _ (pending_urls (session w)));
        [contradiction |]. cbn [length] in Hlen. split; [lia | reflexivity].
    + destruct Hend as (-> & _). split; [discriminate | lia].
Qed.

(** ** Relations every step of a computation respects *)

Section Respect.

Variable R : world -> world -> Prop.
Hypothesis R_refl : forall w, R w w.
Hypothesis R_trans : forall w1 w2 w3, R w1 w2 -> R w2 w3 -> R w1 w3.

Lemma respects_ret {A} (a : A) : respects R (ret a).
Proof. intros w. apply R_refl. Qed.

Lemma respects_raise {A} (e : exn) : respects R (@raise A e).
Proof. intros w. apply R_refl. Qed.

Lemma respects_lift {A} (r : outcome A) : respects R (lift r).
Proof. intros w. apply R_refl. Qed.

Lemma respects_rerun {A} : respects R (@st_rerun A).
Proof. intros w. apply R_refl. Qed.

Lemma respects_get_session : respects R get_session.
Proof. intros w. apply R_refl. Qed.

Lemma respects_getenv k : respects R (os_getenv k).
Proof. intros w. apply R_refl. Qed.

Lemma respects_bind {A B} (m : M A) (k : A -> M B) :
  respects R m -> (forall a, respects R (k a)) -> respects R (bind m k).
Proof.
  intros Hm Hk w. unfold bind. specialize (Hm w).
  destruct (m w) as [[a | e |] w1]; cbn [snd] in *; try exact Hm.
  eapply R_trans; [exact Hm | apply Hk].
Qed.

Lemma respects_try {A} (m : M A) (h : exn -> M A) :
  respects R m -> (forall e, respects R (h e)) -> respects R (try_except m h).
Proof.
  intros Hm Hh w. unfold try_except. specialize (Hm w).
  destruct (m w) as [[a | e |] w1]; cbn [snd] in *; try exact Hm.
  eapply R_trans; [exact Hm | apply Hh].
Qed.

End Respect.

Lemma frame_kept_refl w : frame_kept w w.
Proof. unfold frame_kept, display_only. split_and!; reflexivity. Qed.

Lemma frame_kept_trans w1 w2 w3 :
  frame_kept w1 w2 -> frame_kept w2 w3 -> frame_kept w1 w3.
Proof.
  unfold frame_kept, display_only.
  intros ((? & ? & ? & ?) & ?) ((? & ? & ? & ?) & ?).
  split_and!; congruence.
Qed.

Lemma quiet_refl w : quiet w w.
Proof. unfold quiet. split_and!; try reflexivity. apply frame_kept_refl. Qed.

Lemma quiet_trans w1 w2 w3 : quiet w1 w2 -> quiet w2 w3 -> quiet w1 w3.
Proof.
  unfold quiet. intros (Hf & ? & ? & ?) (Hf' & ? & ? & ?).
  split_and!; try congruence. eapply frame_kept_trans; eassumption.
Qed.

Lemma quiet_frame w w' : quiet w w' -> frame_kept w w'.
Proof. now intros (? & _). Qed.

Lemma quiet_ui kind msg : respects quiet (st_ui kind msg).
Proof.
  intros w. unfold quiet, frame_kept, display_only. cbn.
  split_and!; try reflexivity.
  rewrite List.filter_app. cbn. now rewrite app_nil_r.
Qed.

Lemma quiet_show v : respects quiet (modify_session (set_edited_image v)).
Proof.
  intros w. unfold quiet, frame_kept, display_only. cbn.
  split_and!; reflexivity.
Qed.

Lemma frame_store l : respects frame_kept (modify_session (set_generated_images l)).
Proof.
  intros w. unfold frame_kept, display_only. cbn. split_and!; reflexivity.
Qed.

Lemma frame_tick : respects frame_kept tick.
Proof.
  intros w. unfold frame_kept, display_only. cbn. split_and!; reflexivity.
Qed.

Lemma frame_emit ev : respects frame_kept (emit ev).
Proof.
  intros w. unfold frame_kept, display_only. cbn. split_and!; reflexivity.
Qed.

Lemma respects_weaken {A} (m : M A) : respects quiet m -> respects frame_kept m.
Proof. intros H w. apply quiet_frame, H. Qed.

(** Tactics that walk through a computation built from the steps above. *)
Ltac respect_step R_refl R_trans :=
  first
    [ apply (respects_ret _ R_refl)
    | apply (respects_raise _ R_refl)
    | apply (respects_lift _ R_refl)
    | apply (respects_rerun _ R_refl)
    | apply (respects_get_session _ R_refl)
    | apply (respects_getenv _ R_refl)
    | apply (respects_bind _ R_trans); [| intros ?]
    | apply (respects_try _ R_trans); [| intros ?] ].

Ltac split_branch :=
  match goal with
  | |- respects _ (if ?b then _ else _) => destruct b
  | |- respects _ (match ?x with _ => _ end) => destruct x
  | |- respects _ (let '(_, _) := ?x in _) => destruct x
  end.

Ltac walk_quiet :=
  repeat first
    [ apply quiet_ui | apply quiet_show
    | respect_step quiet_refl quiet_trans | split_branch ].

Ltac walk_frame :=
  repeat first
    [ apply frame_store | apply frame_tick | apply frame_emit
    | apply respects_weaken; first [apply quiet_ui | apply quiet_show]
    | respect_step frame_kept_refl frame_kept_trans | split_branch ].

Lemma quiet_show_result v : respects quiet (show_result v).
Proof. unfold show_result. walk_quiet. Qed.

Lemma quiet_sync_result_items items : respects quiet (sync_result_items items).
Proof.
  induction items as [| item rest IH]; cbn [sync_result_items].
  - walk_quiet.
  - destruct (is_dict item && has_key "urls" item).
    + walk_quiet; apply quiet_show_result.
    + destruct item as [| | | | l |]; try exact IH.
      destruct (0 <? Z.of_nat (length l)); [| exact IH].
      walk_quiet; apply quiet_show_result.
Qed.

Lemma quiet_lifestyle_sync_result result :
  respects quiet (lifestyle_sync_result result).
Proof.
  unfold lifestyle_sync_result, sync_nested_result.
  destruct (is_dict result); [| walk_quiet].
  destruct (has_key "result_url" result);
    [walk_quiet; apply quiet_show_result |].
  destruct (has_key "result_urls" result);
    [walk_quiet; apply quiet_show_result |].
  destruct (has_key "result" result).
  - destruct (subscript "result" result) as [[| | | | items |] | |];
      try (destruct (has_key "urls" result); walk_quiet; apply quiet_show_result).
    apply quiet_sync_result_items.
  - destruct (has_key "urls" result); walk_quiet; apply quiet_show_result.
Qed.

Lemma index0_no_rerun v : index0 v <> Rerun.
Proof.
  destruct v as [| | | s | [| x l] |]; cbn; try discriminate.
  destruct (first_char s); discriminate.
Qed.

Lemma subscript_no_rerun k v : subscript k v <> Rerun.
Proof.
  destruct v as [| | | | | d]; cbn; try discriminate.
  destruct (dict_get k d); discriminate.
Qed.

Lemma no_rerun_bind {A B} (m : M A) (k : A -> M B) :
  no_rerun m -> (forall a, no_rerun (k a)) -> no_rerun (bind m k).
Proof.
  intros Hm Hk w. unfold bind. specialize (Hm w).
  destruct (m w) as [[a | e |] w1]; cbn [fst] in *;
    [apply Hk | discriminate | contradiction].
Qed.

Lemma no_rerun_show_first (o : outcome pyval) :
  o <> Rerun -> no_rerun (first <- lift o ;; show_result first).
Proof.
  intros Ho. apply no_rerun_bind.
  - intros w. exact Ho.
  - intros a w. discriminate.
Qed.

Lemma no_rerun_show_nested (o : outcome pyval) :
  o <> Rerun ->
  no_rerun (l <- lift o ;; first <- lift (index0 l) ;; show_result first).
Proof.
  intros Ho. apply no_rerun_bind.
  - intros w. exact Ho.
  - intros a. apply no_rerun_show_first, index0_no_rerun.
Qed.

Lemma no_rerun_sync_result_items items : no_rerun (sync_result_items items).
Proof.
  induction items as [| item rest IH]; cbn [sync_result_items].
  - intros w. discriminate.
  - destruct (is_dict item && has_key "urls" item).
    + apply no_rerun_show_nested, subscript_no_rerun.
    + destruct item as [| | | | l |]; try exact IH.
      destruct (0 <? Z.of_nat (length l)); [| exact IH].
      apply no_rerun_show_first, index0_no_rerun.
Qed.

Lemma no_rerun_lifestyle_sync_result result :
  no_rerun (lifestyle_sync_result result).
Proof.
  unfold lifestyle_sync_result, sync_nested_result.
  destruct (is_dict result); [| intros w; discriminate].
  destruct (has_key "result_url" result);
    [apply no_rerun_show_first, subscript_no_rerun |].
  destruct (has_key "result_urls" result);
    [apply no_rerun_show_nested, subscript_no_rerun |].
  assert (Hurls : no_rerun
            (if has_key "urls" result
             then l <- lift (subscript "urls" result) ;;
                  first <- lift (index0 l) ;; show_result first
             else ret tt)).
  { destruct (has_key "urls" result);
      [apply no_rerun_show_nested, subscript_no_rerun | intros w; discriminate]. }
  destruct (has_key "result" result); [| exact Hurls].
  destruct (subscript "result" result) as [[| | | | items |] | |];
    try exact Hurls.
  apply no_rerun_sync_result_items.
Qed.

Lemma only_display_changed s s' :
  display_only s s' -> generated_images s' = generated_images s ->
  s' = set_edited_image (edited_image s') s.
Proof.
  destruct s, s'. unfold display_only, set_edited_image. cbn.
  intros (? & ? & ? & ?) ?. congruence.
Qed.

(** X3.  In synchronous mode the lifestyle-shot handler never polls: whatever
    the response is, no request is sent and no call is logged, the pending
    list, the stored images, the API keys and the environment stay as they
    were, no rerun is asked for, and the only thing that can change in the
    session is the displayed image. *)
Theorem sync_mode_never_polls
    (head_reply : nat -> string -> http_result) (experimental_rerun : bool)
    (num_results : Z) (refresh_clicked : bool) (result : pyval) (w : world) :
  let run := lifestyle_on_result head_reply experimental_rerun true num_results
               refresh_clicked result w in
  fst run <> Rerun /\
  quiet w (snd run) /\
  session (snd run) = set_edited_image (edited_image (session (snd run))) (session w).
Proof.
  cbv zeta. unfold lifestyle_on_result.
  destruct (truthy result).
  - assert (Hquiet : respects quiet
              (st_ui UiWrite "Debug - Raw API Response:" ;;;
               lifestyle_sync_result result)).
    { walk_quiet. apply quiet_lifestyle_sync_result. }
    assert (Hrerun : no_rerun
              (st_ui UiWrite "Debug - Raw API Response:" ;;;
               lifestyle_sync_result result)).
    { apply no_rerun_bind; [intros w0; discriminate |].
      intros _. apply no_rerun_lifestyle_sync_result. }
    specialize (Hquiet w). specialize (Hrerun w).
    split_and!; try assumption.
    destruct Hquiet as ((Hdisplay & _) & Hstored & _).
    now apply only_display_changed.
  - cbn [ret fst snd]. split_and!; [discriminate | apply quiet_refl |].
    now destruct (session w).
Qed.

(** ** The actions at their boundary *)

Lemma settles_try {A} (m : M A) (h : exn -> M A) :
  (forall e, settles (h e)) -> settles (try_except m h).
Proof.
  intros Hh w. unfold try_except.
  destruct (m w) as [[a | e |] w1] eqn:Hm; cbn [fst raises]; try reflexivity.
  apply Hh.
Qed.

Lemma settles_ui kind msg : settles (st_ui kind msg).
Proof. intros w. reflexivity. Qed.

Lemma settles_except_clause op e : settles (except_clause op e).
Proof.
  intros w. destruct op; cbn [except_clause]; unfold moderation_check, bind;
    cbn [st_ui emit]; destruct (contains "422" (str e)); reflexivity.
Qed.

(** X4.  No action lets an exception out: the lifestyle-shot actions, the
    "Generate Images", packshot, shadow, erase and generative-fill actions
    and the "Check Status" button end normally or with a rerun request,
    whatever the services and the network answer, and [download_image]
    always returns. *)
Theorem actions_never_raise
    (head_reply : nat -> string -> http_result)
    (get_reply : nat -> string -> exn + (response * string))
    (fal_status : string -> string -> exn + pyval)
    (experimental_rerun : bool) (placement : placement_type)
    (sync_mode force_rmbg drawn has_mask refresh_clicked : bool)
    (num_results : Z) (prompt model request_id : string)
    (mask_error : option exn) (url : pyval)
    (bg_reply reply : exn + pyval) :
  settles (lifestyle_text_action head_reply experimental_rerun placement
             sync_mode num_results refresh_clicked reply) /\
  settles (lifestyle_image_action head_reply experimental_rerun placement
             sync_mode num_results refresh_clicked reply) /\
  settles (generate_images_action reply) /\
  settles (packshot_action get_reply force_rmbg bg_reply reply) /\
  settles (shadow_action reply) /\
  settles (erase_action drawn mask_error reply) /\
  settles (fill_action head_reply prompt has_mask mask_error sync_mode
             num_results refresh_clicked reply) /\
  settles (status_button fal_status model request_id) /\
  settles (download_image get_reply url).
Proof.
  split_and!.
  - apply settles_try, settles_except_clause.
  - apply settles_try, settles_except_clause.
  - intros w. unfold generate_images_action, bind at 1. cbn [get_session].
    destruct (negb (truthy_key (api_key (session w)))); [reflexivity |].
    apply settles_try, settles_except_clause.
  - apply settles_try, settles_except_clause.
  - apply settles_try, settles_except_clause.
  - unfold erase_action. destruct drawn; [| apply settles_ui].
    apply settles_try, settles_except_clause.
  - intros w. unfold fill_action, bind at 1. cbn [get_session].
    destruct (negb (truthy_key (api_key (session w)))); [reflexivity |].
    destruct (String.eqb prompt ""); [reflexivity |].
    destruct (negb has_mask); [reflexivity |].
    destruct mask_error; [reflexivity |].
    apply settles_try, settles_except_clause.
  - apply settles_try. intros e. apply settles_ui.
  - apply settles_try. intros e w. reflexivity.
Qed.

Lemma frame_call_service name reply : respects frame_kept (call_service name reply).
Proof. unfold call_service. walk_frame. Qed.

Lemma frame_except_clause op e : respects frame_kept (except_clause op e).
Proof.
  destruct op; cbn [except_clause]; unfold moderation_check, st_ui; walk_frame.
Qed.

Lemma frame_show_result v : respects frame_kept (show_result v).
Proof. apply respects_weaken, quiet_show_result. Qed.

Lemma frame_truthy_with_result_url result :
  respects frame_kept (truthy_with_result_url result).
Proof. unfold truthy_with_result_url. walk_frame. Qed.

Lemma frame_moderation_check e advice :
  respects frame_kept (moderation_check e advice).
Proof. unfold moderation_check, st_ui. walk_frame. Qed.

Lemma frame_requests_get get_reply url :
  respects frame_kept (requests_get get_reply url).
Proof. unfold requests_get. walk_frame. Qed.

Lemma frame_sync_result_items items :
  respects frame_kept (sync_result_items items).
Proof. apply respects_weaken, quiet_sync_result_items. Qed.

Ltac frame_leaf :=
  first
    [ apply frame_call_service | apply frame_except_clause
    | apply frame_show_result | apply frame_truthy_with_result_url
    | apply frame_moderation_check | apply frame_requests_get
    | apply frame_sync_result_items ].

Lemma frame_product_on_result success result :
  respects frame_kept (product_on_result success result).
Proof. unfold product_on_result, st_ui. walk_frame; frame_leaf. Qed.

Lemma frame_packshot_prepare get_reply force_rmbg bg_reply :
  respects frame_kept (packshot_prepare get_reply force_rmbg bg_reply).
Proof. unfold packshot_prepare, st_ui. walk_frame; frame_leaf. Qed.

Lemma frame_hd_image_result result : respects frame_kept (hd_image_result result).
Proof.
  unfold hd_image_result, sync_nested_result.
  destruct (is_dict result); [| unfold st_ui; walk_frame].
  destruct (has_key "result_url" result); [walk_frame; frame_leaf |].
  destruct (has_key "result_urls" result); [walk_frame; frame_leaf |].
  destruct (has_key "result" result); [| walk_frame].
  destruct (subscript "result" result) as [[| | | | items |] | |]; try walk_frame.
  apply frame_sync_result_items.
Qed.

Lemma frame_fill_sync_result result : respects frame_kept (fill_sync_result result).
Proof. unfold fill_sync_result, st_ui. walk_frame; frame_leaf. Qed.

Ltac frame_action :=
  walk_frame;
  first [ frame_leaf | apply frame_product_on_result
        | apply frame_packshot_prepare | apply frame_hd_image_result
        | apply frame_fill_sync_result ].

(** X5.  The actions that do not poll leave the pending list, the three API
    keys and the environment alone, whatever the services answer: "Generate
    Images", packshot (with or without background removal), shadow, erase,
    and generative fill in synchronous mode can change the displayed and the
    stored images only. *)
Theorem plain_actions_keep_pending_and_keys
    (head_reply : nat -> string -> http_result)
    (get_reply : nat -> string -> exn + (response * string))
    (force_rmbg drawn has_mask refresh_clicked : bool)
    (num_results : Z) (prompt : string) (mask_error : option exn)
    (bg_reply reply : exn + pyval) :
  respects frame_kept (generate_images_action reply) /\
  respects frame_kept (packshot_action get_reply force_rmbg bg_reply reply) /\
  respects frame_kept (shadow_action reply) /\
  respects frame_kept (erase_action drawn mask_error reply) /\
  respects frame_kept (fill_action head_reply prompt has_mask mask_error true
                         num_results refresh_clicked reply).
Proof.
  split_and!.
  - unfold generate_images_action, st_ui. frame_action.
  - unfold packshot_action. frame_action.
  - unfold shadow_action. frame_action.
  - unfold erase_action, st_ui. frame_action.
  - unfold fill_action, st_ui. frame_action.
Qed.

(** ** An asynchronous submission, end to end *)

Lemma edited_after_pass first rest pending s :
  edited_image (after_pass (first :: rest) pending s) = first.
Proof. destruct rest; reflexivity. Qed.

(** X6.  Once an asynchronous response has registered its URLs (and the
    refresh button is not pressed), the handler ends in one of two ways.
    Either some attempt among at most three found a ready image, every
    attempt before it having found none: the first ready URL of that attempt
    is displayed, the ready ones have left the pending list, and the handler
    asks for a rerun where [st.experimental_rerun] exists and raises an
    [AttributeError] where it does not.  Or three idle attempts were made:
    the handler ends normally with every registered URL still pending and
    the displayed image as it was. *)
Theorem async_registration_ends_in_rerun_or_all_pending
    (head_reply : nat -> string -> http_result) (experimental_rerun : bool)
    (urls : list pyval) (w : world) :
  urls <> [] ->
  exists r w' k,
    register_pending head_reply experimental_rerun urls false w = (r, w') /\
    (k <= 3)%nat /\
    clock w' = (clock w + k * length urls)%nat /\
    ((r = (if experimental_rerun then Rerun
           else Raise (Exn AttributeError
                  "module 'streamlit' has no attribute 'experimental_rerun'")) /\
      (1 <= k)%nat /\
      (forall j, (j < pred k)%nat ->
         ready_of head_reply (clock w + j * length urls) urls = []) /\
      exists first rest,
        ready_of head_reply (clock w + pred k * length urls) urls = first :: rest /\
        edited_image (session w') = first /\
        pending_urls (session w') =
          pending_of head_reply (clock w + pred k * length urls) urls) \/
     (r = Ok tt /\ k = 3%nat /\
      pending_urls (session w') = urls /\
      edited_image (session w') = edited_image (session w) /\
      forall j, (j < 3)%nat ->
        ready_of head_reply (clock w + j * length urls) urls = [])).
Proof.
  intros Hne.
  set (w0 := {| session := set_pending_urls urls (session w);
                environ := environ w; clock := clock w;
                log := log w ++ [EvUi UiInfo "Generation started! Waiting for images..."] |}).
  destruct (auto_check_while_spec head_reply 4 3 0 w0)
    as (k & found & w' & Hrun & Hshape); [reflexivity | lia |].
  unfold auto_run in Hshape. cbn [w0 session clock pending_urls set_pending_urls] in Hshape.
  destruct Hshape as (Hk & _ & Hclock & _ & Hidle & Hend).
  assert (Hreg : register_pending head_reply experimental_rerun urls false w =
                 (if found
                  then (if experimental_rerun then Rerun
                        else Raise (Exn AttributeError
                               "module 'streamlit' has no attribute 'experimental_rerun'"),
                        w')
                  else (Ok tt, w'))).
  { unfold register_pending. destruct urls as [| u0 rest]; [contradiction |].
    cbn [nonempty]. unfold bind at 1. cbn [modify_session].
    unfold poll_registered. unfold bind at 1. cbn [st_ui emit session environ clock log].
    unfold bind at 1. unfold run_auto_check. unfold bind at 1.
    fold w0. unfold auto_check_images. rewrite Hrun.
    destruct found; [| reflexivity].
    unfold bind, ret, st_experimental_rerun. now destruct experimental_rerun. }
  destruct found.
  - destruct Hend as (Hk1 & Hlast & Hsess).
    eexists _, w', k. split_and!; [exact Hreg | assumption | assumption |].
    left. split_and!; try reflexivity; try assumption.
    destruct (ready_of head_reply (clock w + pred k * length urls) urls)
      as [| first rest] eqn:Hready; [contradiction |].
    exists first, rest. split_and!; [reflexivity | |].
    + rewrite Hsess. apply edited_after_pass.
    + rewrite Hsess. apply pending_after_pass.
  - destruct Hend as (Hsess & [[Hnil _] | [_ ->]]); [contradiction |].
    exists (Ok tt), w', 3%nat. split_and!; try assumption; try lia.
    right. split_and!; try reflexivity; try (now rewrite Hsess).
    exact Hidle.
Qed.

Lemma async_registration_witness :
  exists r w' k,
    register_pending always_404 false [PStr "https://x/u1.png"] false
      (start_world empty_session ∅) = (r, w') /\
    (k <= 3)%nat /\ clock w' = (0 + k * 1)%nat /\
    ((r = Raise (Exn AttributeError
                   "module 'streamlit' has no attribute 'experimental_rerun'") /\
      (1 <= k)%nat /\
      (forall j, (j < pred k)%nat ->
         ready_of always_404 (0 + j * 1) [PStr "https://x/u1.png"] = []) /\
      exists first rest,
        ready_of always_404 (0 + pred k * 1) [PStr "https://x/u1.png"] = first :: rest /\
        edited_image (session w') = first /\
        pending_urls (session w') =
          pending_of always_404 (0 + pred k * 1) [PStr "https://x/u1.png"]) \/
     (r = Ok tt /\ k = 3%nat /\
      pending_urls (session w') = [PStr "https://x/u1.png"] /\
      edited_image (session w') = PNone /\
      forall j, (j < 3)%nat ->
        ready_of always_404 (0 + j * 1) [PStr "https://x/u1.png"] = [])).
Proof.
  apply (async_registration_ends_in_rerun_or_all_pending always_404 false
           [PStr "https://x/u1.png"] (start_world empty_session ∅)).
  discriminate.
Defined.

(** A ready image on a Streamlit without [st.experimental_rerun]: the
    action shows the image-ready note and then the error line. *)
Example ready_image_without_experimental_rerun :
  let '(r, w') := lifestyle_text_action always_200 false Original false 4 false
                    (inr five_urls) (start_world empty_session ∅) in
  r = Ok tt /\
  edited_image (session w') = PStr "u1" /\
  last (log w') =
    Some (EvUi UiError "Error: module 'streamlit' has no attribute 'experimental_rerun'").
Proof. vm_compute. repeat split. Qed.

(** ** The video service *)

Lemma dict_get_app k l1 l2 :
  dict_get k (l1 ++ l2) =
  match dict_get k l1 with
  | Some v => Some v
  | None => dict_get k l2
  end.
Proof.
  induction l1 as [| [k' v] l1 IH]; [reflexivity |].
  cbn [app dict_get]. now destruct (String.eqb k k').
Qed.

Lemma dict_get_optional k k' v :
  dict_get k (optional_entry k' v) = if String.eqb k k' then v else None.
Proof.
  destruct v as [x |]; cbn [optional_entry dict_get];
    now destruct (String.eqb k k').
Qed.

Lemma video_arguments_lookup image_url prompt duration fps aspect_ratio
    motion_strength seed :
  let args := video_arguments image_url prompt duration fps aspect_ratio
                motion_strength seed in
  dict_get "image_url" args = Some (PStr image_url) /\
  dict_get "prompt" args = Some (PStr prompt) /\
  dict_get "duration" args = duration /\
  dict_get "fps" args = fps /\
  dict_get "aspect_ratio" args = aspect_ratio /\
  dict_get "motion_strength" args = motion_strength /\
  dict_get "seed" args = seed /\
  (forall k, ~ In k ["image_url"; "prompt"; "duration"; "fps"; "aspect_ratio";
                     "motion_strength"; "seed"] ->
             dict_get k args = None).
Proof.
  cbv zeta. unfold video_arguments. split_and!.
  1-2: reflexivity.
  1-5: rewrite !dict_get_app, !dict_get_optional; cbn;
       repeat match goal with |- context [match ?o with _ => _ end] => destruct o end;
       reflexivity.
  intros k Hk. rewrite !dict_get_app, !dict_get_optional. cbn [dict_get].
  repeat match goal with
         | |- context [String.eqb k ?name] =>
             destruct (String.eqb_spec k name) as [-> |];
             [exfalso; apply Hk; cbn; tauto |]
         end.
  reflexivity.
Qed.

Lemma use_key_run key w : use_key key w = (Ok tt, with_fal_key key w).
Proof.
  destruct key as [k |]; cbn [use_key with_fal_key]; [| reflexivity].
  now destruct (negb (String.eqb k "")).
Qed.

Lemma generate_video_run fal_subscribe fal_submit image_url prompt model key
    duration fps aspect_ratio motion_strength seed webhook_url sync w :
  truthy_key key = true \/ truthy_key (environ w !! "FAL_KEY") = true ->
  let args := video_arguments image_url prompt duration fps aspect_ratio
                motion_strength seed in
  let w1 := with_fal_key key w in
  generate_video_from_image fal_subscribe fal_submit image_url prompt model key
    duration fps aspect_ratio motion_strength seed webhook_url sync w =
  ((if sync then
      match fal_subscribe model args with
      | inl e => Raise (video_failure e)
      | inr result => Ok result
      end
    else
      match fal_submit model args webhook_url with
      | inl e => Raise (video_failure e)
      | inr request_id =>
          Ok (PDict [("request_id", PStr request_id);
                     ("status", PStr "submitted");
                     ("message", PStr "Video generation started. Use request_id to check status.")])
      end),
   {| session := session w1; environ := environ w1; clock := clock w1;
      log := log w ++ [video_call sync model args] |}).
Proof.
  intros Hkey. cbv zeta. unfold generate_video_from_image.
  fold (video_arguments image_url prompt duration fps aspect_ratio motion_strength seed).
  set (args := video_arguments _ _ _ _ _ _ _).
  assert (Hfirst :
    (if truthy_key key
     then os_setenv "FAL_KEY" match key with Some k => k | None => "" end
     else env_key <- os_getenv "FAL_KEY" ;;
          if negb (truthy_key env_key)
          then raise (Exn ValueError
                 "FAL_KEY environment variable or api_key parameter must be set")
          else ret tt) w = (Ok tt, with_fal_key key w)).
  { destruct key as [k |]; cbn [truthy_key with_fal_key] in *.
    - destruct (negb (String.eqb k "")) eqn:Hk; [reflexivity |].
      destruct Hkey as [Hkey | Hkey]; [discriminate |].
      unfold bind, os_getenv. now rewrite Hkey.
    - destruct Hkey as [Hkey | Hkey]; [discriminate |].
      unfold bind, os_getenv. now rewrite Hkey. }
  erewrite bind_ok by exact Hfirst.
  unfold try_except, bind, emit, video_call, video_failure, raise, ret.
  destruct key as [k |]; cbn [with_fal_key];
    try destruct (negb (String.eqb k ""));
    cbn [session environ clock log];
    destruct sync;
    [ destruct (fal_subscribe model args) | destruct (fal_submit model args webhook_url)
    | destruct (fal_subscribe model args) | destruct (fal_submit model args webhook_url)
    | destruct (fal_subscribe model args) | destruct (fal_submit model args webhook_url) ];
    reflexivity.
Qed.

(** X7.  With a usable key (passed, or already in [FAL_KEY]) every call of
    [generate_video_from_image] sends exactly one request to the client,
    [subscribe] when synchronous and [submit] otherwise, for the given
    model; the payload holds the image URL and the prompt, each optional
    parameter exactly when it was given, and nothing else; a passed key is
    written to [FAL_KEY] and otherwise the environment is not touched. *)
Theorem video_request_carries_given_parameters
    (fal_subscribe : string -> list (string * pyval) -> exn + pyval)
    (fal_submit : string -> list (string * pyval) -> option string -> exn + string)
    (image_url prompt model : string) (key : option string)
    (duration fps aspect_ratio motion_strength seed : option pyval)
    (webhook_url : option string) (sync : bool) (w : world) :
  truthy_key key = true \/ truthy_key (environ w !! "FAL_KEY") = true ->
  exists r w' args,
    generate_video_from_image fal_subscribe fal_submit image_url prompt model key
      duration fps aspect_ratio motion_strength seed webhook_url sync w = (r, w') /\
    log w' = log w ++ [if sync then EvFalSubscribe model args
                       else EvFalSubmit model args] /\
    dict_get "image_url" args = Some (PStr image_url) /\
    dict_get "prompt" args = Some (PStr prompt) /\
    dict_get "duration" args = duration /\
    dict_get "fps" args = fps /\
    dict_get "aspect_ratio" args = aspect_ratio /\
    dict_get "motion_strength" args = motion_strength /\
    dict_get "seed" args = seed /\
    (forall k, ~ In k ["image_url"; "prompt"; "duration"; "fps"; "aspect_ratio";
                       "motion_strength"; "seed"] ->
               dict_get k args = None) /\
    (forall k, key = Some k -> k <> "" ->
       environ w' = <["FAL_KEY" := k]> (environ w)) /\
    (truthy_key key = false -> environ w' = environ w) /\
    session w' = session w.
Proof.
  intros Hkey.
  eexists _, _, (video_arguments image_url prompt duration fps aspect_ratio
                   motion_strength seed).
  split; [now apply generate_video_run |].
  destruct (video_arguments_lookup image_url prompt duration fps aspect_ratio
              motion_strength seed) as (H1 & H2 & H3 & H4 & H5 & H6 & H7 & H8).
  cbn [log environ session]. unfold video_call.
  split_and!; try assumption; try reflexivity.
  - intros k -> Hk. cbn [with_fal_key].
    apply String.eqb_neq in Hk. now rewrite Hk.
  - destruct key as [k |]; cbn [truthy_key with_fal_key]; [| reflexivity].
    now intros ->.
  - destruct key as [k |]; cbn [with_fal_key]; [| reflexivity].
    now destruct (negb (String.eqb k "")).
Qed.

Lemma video_request_witness :
  exists r w' args,
    generate_video_from_image no_subscribe no_submit "https://x/u1.png" "a walk"
      "fal-ai/luma-dream-machine" (Some "key") (Some (PInt 5)) None None None None
      None true (start_world empty_session ∅) = (r, w') /\
    log w' = [EvFalSubscribe "fal-ai/luma-dream-machine" args] /\
    dict_get "duration" args = Some (PInt 5) /\
    dict_get "fps" args = None.
Proof.
  destruct (video_request_carries_given_parameters no_subscribe no_submit
              "https://x/u1.png" "a walk" "fal-ai/luma-dream-machine" (Some "key")
              (Some (PInt 5)) None None None None None true
              (start_world empty_session ∅) (or_introl eq_refl))
    as (r & w' & args & Hrun & Hlog & _ & _ & Hd & Hf & _).
  exists r, w', args. split_and!; assumption.
Defined.

Lemma contains_after_prefix (n before s : string) :
  contains n s = true -> contains n (before +:+ s) = true.
Proof.
  intros Hs. induction before as [| c before IH]; [exact Hs |].
  rewrite append_cons. cbn [contains]. rewrite IH. apply orb_true_r.
Qed.

(** X8.  With a usable key, a failure of the one client call that
    [generate_video_from_image] makes (the blocking call in synchronous mode,
    the submission otherwise, with the payload it built) never leaves the
    function as it is: it is raised again as an exception whose text is
    "Video generation failed: " followed by the client's text, so that
    whatever the original text contains (a status code, say) is still found
    in the new one; the request had been sent all the same. *)
Theorem video_failure_is_wrapped_with_its_text
    (fal_subscribe : string -> list (string * pyval) -> exn + pyval)
    (fal_submit : string -> list (string * pyval) -> option string -> exn + string)
    (image_url prompt model : string) (key : option string)
    (duration fps aspect_ratio motion_strength seed : option pyval)
    (webhook_url : option string) (sync : bool) (e : exn) (w : world) :
  truthy_key key = true \/ truthy_key (environ w !! "FAL_KEY") = true ->
  (if sync
   then fal_subscribe model
          (video_arguments image_url prompt duration fps aspect_ratio
             motion_strength seed) = inl e
   else fal_submit model
          (video_arguments image_url prompt duration fps aspect_ratio
             motion_strength seed) webhook_url = inl e) ->
  exists w',
    generate_video_from_image fal_subscribe fal_submit image_url prompt model key
      duration fps aspect_ratio motion_strength seed webhook_url sync w
    = (Raise (Exn PlainException ("Video generation failed: " +:+ str e)), w') /\
    log w' = log w ++ [video_call sync model
                         (video_arguments image_url prompt duration fps aspect_ratio
                            motion_strength seed)] /\
    session w' = session w /\
    (forall t, contains t (str e) = true ->
       contains t ("Video generation failed: " +:+ str e) = true).
Proof.
  intros Hkey Hcall.
  eexists. split_and!.
  - rewrite generate_video_run by exact Hkey. cbv zeta.
    fold (video_arguments image_url prompt duration fps aspect_ratio
            motion_strength seed).
    destruct sync; rewrite Hcall; reflexivity.
  - reflexivity.
  - cbn [session]. unfold with_fal_key.
    destruct key as [k |]; [destruct (negb (String.eqb k "")) |]; reflexivity.
  - intros t. apply contains_after_prefix.
Qed.

Lemma video_failure_witness :
  exists w',
    generate_video_from_image
      (fun _ _ => inl (Exn RequestException "422 Unprocessable Entity"))
      (fun _ _ _ => inr "request-1")
      "https://x/u1.png" "a walk" "fal-ai/luma-dream-machine" (Some "key")
      None None None None None None true (start_world empty_session ∅)
    = (Raise (Exn PlainException "Video generation failed: 422 Unprocessable Entity"), w').
Proof.
  destruct (video_failure_is_wrapped_with_its_text
              (fun _ _ => inl (Exn RequestException "422 Unprocessable Entity"))
              (fun _ _ _ => inr "request-1")
              "https://x/u1.png" "a walk" "fal-ai/luma-dream-machine" (Some "key")
              None None None None None None true
              (Exn RequestException "422 Unprocessable Entity")
              (start_world empty_session ∅) (or_introl eq_refl) eq_refl)
    as (w' & Hrun & _).
  exists w'. exact Hrun.
Defined.

(** X9.  A key passed to one call stays in [FAL_KEY]: after any call of
    [generate_video_from_image] with a non-empty key, whatever its outcome,
    the environment holds that key, and a later call without a key passes
    the credential check and reaches the client. *)
Theorem video_key_persists_in_environment
    (fal_subscribe : string -> list (string * pyval) -> exn + pyval)
    (fal_submit : string -> list (string * pyval) -> option string -> exn + string)
    (image_url prompt model k : string)
    (duration fps aspect_ratio motion_strength seed : option pyval)
    (webhook_url : option string) (sync : bool)
    (image_url2 prompt2 model2 : string)
    (duration2 fps2 aspect_ratio2 motion_strength2 seed2 : option pyval)
    (webhook_url2 : option string) (sync2 : bool) (w : world) :
  k <> "" ->
  let w1 := snd (generate_video_from_image fal_subscribe fal_submit image_url
                   prompt model (Some k) duration fps aspect_ratio
                   motion_strength seed webhook_url sync w) in
  environ w1 !! "FAL_KEY" = Some k /\
  exists r w2 args,
    generate_video_from_image fal_subscribe fal_submit image_url2 prompt2 model2
      None duration2 fps2 aspect_ratio2 motion_strength2 seed2 webhook_url2
      sync2 w1 = (r, w2) /\
    log w2 = log w1 ++ [video_call sync2 model2 args] /\
    environ w2 !! "FAL_KEY" = Some k.
Proof.
  intros Hk. cbv zeta.
  assert (Husable : truthy_key (Some k) = true) by now apply truthy_key_some.
  rewrite generate_video_run by (now left). cbv zeta. cbn [snd with_fal_key].
  assert (Hne : negb (String.eqb k "") = true)
    by now apply negb_true_iff, String.eqb_neq.
  rewrite Hne. cbn [session environ clock].
  assert (Hstored : (<["FAL_KEY" := k]> (environ w) : gmap string string) !! "FAL_KEY" = Some k)
    by apply lookup_insert_eq.
  split; [exact Hstored |].
  eexists _, _, _. split.
  - apply generate_video_run. right. cbn [environ]. rewrite Hstored. exact Husable.
  - cbn [with_fal_key log environ]. split; [reflexivity | exact Hstored].
Qed.

Lemma video_key_persists_witness :
  environ (snd (generate_video_from_image no_subscribe no_submit "https://x/u1.png"
                  "a walk" "fal-ai/luma-dream-machine" (Some "key") None None
                  None None None None true (start_world empty_session ∅)))
    !! "FAL_KEY" = Some "key".
Proof.
  apply (video_key_persists_in_environment no_subscribe no_submit
           "https://x/u1.png" "a walk" "fal-ai/luma-dream-machine" "key"
           None None None None None None true
           "https://x/u1.png" "a walk" "fal-ai/luma-dream-machine"
           None None None None None None true (start_world empty_session ∅)).
  discriminate.
Defined.

Lemma wrapped_call_run name (reply : exn + pyval) prefix key w :
  (use_key key ;;;
   try_except (call_service name reply)
     (fun e => raise (Exn PlainException (prefix +:+ str e)))) w =
  (match reply with
   | inl e => Raise (Exn PlainException (prefix +:+ str e))
   | inr v => Ok v
   end,
   {| session := session w; environ := environ (with_fal_key key w);
      clock := clock w; log := log w ++ [EvService name] |}).
Proof.
  erewrite bind_ok by apply use_key_run.
  unfold try_except, call_service, bind, emit, raise, ret.
  destruct key as [k |]; cbn [with_fal_key];
    try destruct (negb (String.eqb k "")); destruct reply; reflexivity.
Qed.

(** X10.  [check_video_status], [get_video_result] and
    [upload_image_for_video] make no credential check: with or without a
    key they send their one request to the client; a non-empty key is
    written to [FAL_KEY] first and nothing else changes.  What the client
    returns is passed on unchanged, and a failure of the client is raised
    again with the function's own prefix before the client's text. *)
Theorem video_requests_call_client_without_key_check
    (fal_status fal_result : string -> string -> exn + pyval)
    (fal_upload_file : string -> exn + string)
    (model request_id image_path : string) (key : option string) (w : world) :
  let sent name :=
    {| session := session w; environ := environ (with_fal_key key w);
       clock := clock w; log := log w ++ [EvService name] |} in
  check_video_status fal_status model request_id key w =
    (match fal_status model request_id with
     | inl e => Raise (Exn PlainException ("Status check failed: " +:+ str e))
     | inr v => Ok v
     end, sent "fal_client.status") /\
  get_video_result fal_result model request_id key w =
    (match fal_result model request_id with
     | inl e => Raise (Exn PlainException ("Result retrieval failed: " +:+ str e))
     | inr v => Ok v
     end, sent "fal_client.result") /\
  upload_image_for_video fal_upload_file image_path key w =
    (match fal_upload_file image_path with
     | inl e => Raise (Exn PlainException ("Image upload failed: " +:+ str e))
     | inr url => Ok url
     end, sent "fal_client.upload_file") /\
  (truthy_key key = false -> environ (with_fal_key key w) = environ w) /\
  (forall k, key = Some k -> k <> "" ->
     environ (with_fal_key key w) !! "FAL_KEY" = Some k).
Proof.
  cbv zeta. split_and!.
  - apply wrapped_call_run.
  - apply wrapped_call_run.
  - unfold upload_image_for_video.
    erewrite bind_ok by apply use_key_run.
    unfold try_except, bind, emit, raise, ret.
    destruct key as [k |]; cbn [with_fal_key];
      try destruct (negb (String.eqb k ""));
      destruct (fal_upload_file image_path); reflexivity.
  - destruct key as [k |]; cbn [truthy_key with_fal_key]; [| reflexivity].
    now intros ->.
  - intros k -> Hk. cbn [with_fal_key].
    apply String.eqb_neq in Hk. rewrite Hk. cbn [negb environ].
    apply lookup_insert_eq.
Qed.

Lemma video_requests_witness :
  environ (with_fal_key (Some "key") (start_world empty_session ∅)) !! "FAL_KEY"
  = Some "key".
Proof.
  destruct (video_requests_call_client_without_key_check failing_status no_result
              no_upload "fal-ai/luma-dream-machine" "request-1" "image.png"
              (Some "key") (start_world empty_session ∅))
    as (_ & _ & _ & _ & Hkey).
  apply Hkey; [reflexivity | discriminate].
Defined.

(** ** The video tab *)

(** X11.  The video tab sends a model only the settings it supports: for
    any model, a non-empty key and the frame rate the user picked, the
    request goes to the model's identifier, its payload holds [fps] exactly
    when the model supports a frame rate and [motion_strength] exactly when
    it supports one, a seed of 0 and a duration of 0 are left out, and the
    key is in [FAL_KEY] afterwards.  For every model of the catalog the
    default duration lies between 1 and the model's maximum. *)
Theorem video_tab_sends_only_supported_settings
    (fal_subscribe : string -> list (string * pyval) -> exn + pyval)
    (fal_submit : string -> list (string * pyval) -> option string -> exn + string)
    (image_url video_prompt : string) (m : video_model) (key : string)
    (sync_mode : bool) (duration picked_fps : Z) (picked_motion : pyval)
    (aspect_ratio : string) (seed : Z) (w : world) :
  key <> "" -> picked_fps <> 0 ->
  (exists r w' args,
     video_submit fal_subscribe fal_submit image_url video_prompt m key sync_mode
       (Some duration) (fps_setting m picked_fps) (motion_setting m picked_motion)
       (Some aspect_ratio) seed w = (r, w') /\
     log w' = log w ++ [video_call sync_mode (model_id m) args] /\
     dict_get "fps" args =
       (if supports_fps m then Some (PInt picked_fps) else None) /\
     dict_get "motion_strength" args =
       (if supports_motion_strength m then Some picked_motion else None) /\
     dict_get "seed" args = (if seed =? 0 then None else Some (PInt seed)) /\
     dict_get "duration" args =
       (if duration =? 0 then None else Some (PInt duration)) /\
     dict_get "aspect_ratio" args =
       (if String.eqb aspect_ratio "" then None else Some (PStr aspect_ratio)) /\
     environ w' !! "FAL_KEY" = Some key) /\
  Forall (fun entry => 1 <= default_duration (snd entry) <= max_duration (snd entry))
         get_available_models.
Proof.
  intros Hkey Hfps. split.
  - assert (Husable : truthy_key (Some key) = true) by now apply truthy_key_some.
    unfold video_submit.
    eexists _, _, _. split; [apply generate_video_run; now left |].
    cbv zeta.
    match goal with
    | |- context [video_arguments ?a ?b ?c ?d ?e ?f ?g] =>
        destruct (video_arguments_lookup a b c d e f g)
          as (_ & _ & Hd & Hf & Ha & Hm & Hs & _)
    end.
    cbn [log environ with_fal_key].
    assert (Hne : negb (String.eqb key "") = true)
      by now apply negb_true_iff, String.eqb_neq.
    rewrite Hne. cbn [environ].
    split_and!.
    + reflexivity.
    + rewrite Hf. unfold fps_setting. destruct (supports_fps m); [| reflexivity].
      cbn [truthy_int]. apply Z.eqb_neq in Hfps. now rewrite Hfps.
    + rewrite Hm. unfold motion_setting. now destruct (supports_motion_strength m).
    + rewrite Hs. now destruct (seed =? 0).
    + rewrite Hd. cbn [truthy_int]. now destruct (duration =? 0).
    + rewrite Ha. cbn [truthy_key]. now destruct (String.eqb aspect_ratio "").
    + apply lookup_insert_eq.
  - unfold get_available_models, VIDEO_MODELS, default_duration.
    repeat constructor; cbn; lia.
Qed.

Lemma video_tab_witness :
  exists r w' args,
    video_submit no_subscribe no_submit "https://x/u1.png" "a walk" luma "key" true
      (Some 5) (fps_setting luma 24) (motion_setting luma (PInt 1))
      (Some "16:9") 0 (start_world empty_session ∅) = (r, w') /\
    log w' = [video_call true "fal-ai/luma-dream-machine" args] /\
    dict_get "fps" args = None /\
    dict_get "motion_strength" args = None /\
    dict_get "seed" args = None.
Proof.
  destruct (video_tab_sends_only_supported_settings no_subscribe no_submit
              "https://x/u1.png" "a walk" luma "key" true 5 24 (PInt 1) "16:9" 0
              (start_world empty_session ∅))
    as ((r & w' & args & Hrun & Hlog & Hf & Hm & Hs & _) & _);
    [discriminate | discriminate |].
  exists r, w', args. split_and!; assumption.
Defined.

(** ** Downloads *)





(** A value that is no string costs no request. *)
Example download_of_none_sends_nothing :
  let '(r, w') := download_image no_get PNone (start_world empty_session ∅) in
  r = Ok None /\ clock w' = 0%nat /\ exists msg, log w' = [EvUi UiError msg].
Proof. vm_compute. split_and!; try reflexivity. now eexists. Qed.

(** ** The sidebar *)

Lemma truthy_key_nonempty k : truthy_key (Some k) = negb (String.eqb k "").
Proof. reflexivity. Qed.

Ltac eqb_rewrite :=
  cbn [truthy_key negb];
  repeat (progress
            (repeat match goal with
                    | H : String.eqb ?a ?b = _ |- context [String.eqb ?a ?b] =>
                        rewrite H
                    end;
             cbn [truthy_key negb])).

Ltac key_facts :=
  repeat match goal with
         | H : String.eqb _ _ = true |- _ => apply String.eqb_eq in H
         | H : ?t <> ?t |- _ => now destruct H
         end.

Lemma fal_key_found w t fallback :
  t <> "" -> fal_api_key (session w) = Some t ->
  exists k, video_fal_key_or_ask fallback w = (Ok (Some k), w) /\ k <> "".
Proof.
  intros Ht Hkey.
  unfold video_fal_key_or_ask, video_fal_key, bind, os_getenv, get_session,
    ret, py_or.
  rewrite Hkey.
  assert (Ht' : String.eqb t "" = false) by now apply String.eqb_neq.
  destruct (environ w !! "Fal.ai_LTX_API_KEY") as [e |];
    [destruct (String.eqb e "") eqn:He |];
    cbn [truthy_key negb]; rewrite ?He, ?Ht'; cbn [negb truthy_key];
    rewrite ?He, ?Ht'; cbn [negb];
    eexists; (split; [reflexivity |]); now apply String.eqb_neq.
Qed.

Ltac key_case :=
  intros; simplify_eq;
  first
    [ solve [eapply fal_key_found; [| reflexivity]; assumption]
    | cbn [truthy_key session api_key fal_api_key set_api_key set_fal_api_key
           environ log negb] in *;
      repeat match goal with
             | H : ?x = _ |- context [?x] => rewrite H
             | H : ?x = _, H' : context [?x] |- _ => rewrite H in H'
             end;
      cbn [truthy_key negb] in *;
      eqb_rewrite;
      key_facts; simplify_eq;
      first [ reflexivity | assumption | discriminate | congruence ] ].

(** X13.  The sidebar never loses a key.  For the primary and for the
    fal.ai key: a non-empty text typed into the field becomes the session's
    key; an emptied field changes nothing, so a stored key cannot be
    removed; a session that had a usable key still has one afterwards; and
    with nothing typed and nothing stored, the fal.ai field copies a
    non-empty [Fal.ai_LTX_API_KEY] of the environment into the session.
    After a key was typed into the fal.ai field, the video operation finds a
    usable key and shows no error. *)
Theorem sidebar_never_loses_a_key (typed : option string) (w : world) :
  (exists w',
     sidebar_bria_key typed w = (Ok tt, w') /\
     environ w' = environ w /\ log w' = log w /\
     (forall t, typed = Some t -> t <> "" -> api_key (session w') = Some t) /\
     (typed = Some "" -> w' = w) /\
     (truthy_key (api_key (session w)) = true ->
      truthy_key (api_key (session w')) = true)) /\
  (exists w',
     sidebar_fal_key typed w = (Ok tt, w') /\
     environ w' = environ w /\ log w' = log w /\
     (forall t, typed = Some t -> t <> "" -> fal_api_key (session w') = Some t) /\
     (typed = Some "" -> w' = w) /\
     (truthy_key (fal_api_key (session w)) = true ->
      truthy_key (fal_api_key (session w')) = true) /\
     (forall e, typed = None -> truthy_key (fal_api_key (session w)) = false ->
        environ w !! "Fal.ai_LTX_API_KEY" = Some e -> e <> "" ->
        fal_api_key (session w') = Some e) /\
     (forall t fallback, typed = Some t -> t <> "" ->
        exists k, video_fal_key_or_ask fallback w' = (Ok (Some k), w') /\ k <> "")).
Proof.
  split.
  - unfold sidebar_bria_key, bind, get_session, modify_session, ret, text_input, py_or.
    destruct typed as [t |]; [destruct (String.eqb t "") eqn:Ht |];
      (destruct (api_key (session w)) as [k |] eqn:Hkey;
       [destruct (String.eqb k "") eqn:Hk |]);
      eqb_rewrite;
      eexists; (split; [reflexivity |]); split_and!; key_case.
  - unfold sidebar_fal_key, bind, get_session, os_getenv, modify_session, ret,
      text_input, py_or.
    destruct typed as [t |]; [destruct (String.eqb t "") eqn:Ht |];
      (destruct (fal_api_key (session w)) as [k |] eqn:Hkey;
       [destruct (String.eqb k "") eqn:Hk |]);
      (destruct (environ w !! "Fal.ai_LTX_API_KEY") as [e |] eqn:Henv;
       [destruct (String.eqb e "") eqn:He |]);
      eqb_rewrite;
      eexists; (split; [reflexivity |]); split_and!; key_case.
Qed.

Lemma sidebar_witness :
  exists w',
    sidebar_fal_key (Some "typed-key") (start_world empty_session ∅) = (Ok tt, w') /\
    fal_api_key (session w') = Some "typed-key".
Proof.
  destruct (sidebar_never_loses_a_key (Some "typed-key") (start_world empty_session ∅))
    as (_ & w' & Hrun & _ & _ & Htyped & _).
  exists w'. split; [exact Hrun |].
  apply Htyped; [reflexivity | discriminate].
Defined.

(** ** Generative fill *)

Lemma py_in_dict k d :
  py_in k (PDict d) = Ok (match dict_get k d with Some _ => true | None => false end).
Proof. reflexivity. Qed.

(** X14.  In synchronous mode the fill tab looks at [urls] first and, unlike
    the lifestyle-shot handlers, only takes it when it is not empty: a
    non-empty [urls] list shows its first URL whatever [result_url] holds,
    and stores the whole list when it has more than one URL; an absent or
    empty [urls] falls through to [result_url]; and a dict with neither
    changes nothing and shows no message. *)
Theorem fill_sync_takes_nonempty_urls_first
    (d : list (string * pyval)) (w : world) :
  (forall x, dict_get "urls" d = Some (PList [x]) ->
     fill_sync_result (PDict d) w =
     (Ok tt, logged [EvUi UiSuccess "Generation complete!"] (displaying x w))) /\
  (forall x y more, dict_get "urls" d = Some (PList (x :: y :: more)) ->
     fill_sync_result (PDict d) w =
     (Ok tt, logged [EvUi UiSuccess "Generation complete!"]
               (storing (x :: y :: more) (displaying x w)))) /\
  (dict_get "urls" d = None \/ dict_get "urls" d = Some (PList []) ->
   (forall v, dict_get "result_url" d = Some v ->
      fill_sync_result (PDict d) w =
      (Ok tt, logged [EvUi UiSuccess "Generation complete!"] (displaying v w))) /\
   (dict_get "result_url" d = None -> fill_sync_result (PDict d) w = (Ok tt, w))).
Proof.
  unfold fill_sync_result. split_and!.
  - intros x Hurls. unfold bind, lift. rewrite !py_in_dict. cbn [subscript].
    rewrite Hurls. reflexivity.
  - intros x y more Hurls. unfold bind, lift. rewrite !py_in_dict. cbn [subscript].
    rewrite Hurls. cbn [truthy index0 py_len length].
    assert (Hlen : (1 <? Z.of_nat (S (S (length more)))) = true)
      by (apply Z.ltb_lt; lia).
    rewrite Hlen. reflexivity.
  - intros Hurls. split.
    + intros v Hurl. unfold bind, lift. rewrite !py_in_dict. cbn [subscript].
      destruct Hurls as [-> | ->]; rewrite Hurl; reflexivity.
    + intros Hurl. unfold bind, lift. rewrite !py_in_dict. cbn [subscript].
      destruct Hurls as [-> | ->]; rewrite Hurl; reflexivity.
Qed.

Lemma fill_sync_witness :
  fill_sync_result
    (PDict [("result_url", PStr "https://x/r.png");
            ("urls", PList [PStr "https://x/u1.png"; PStr "https://x/u2.png"])])
    (start_world empty_session ∅)
  = (Ok tt, logged [EvUi UiSuccess "Generation complete!"]
              (storing [PStr "https://x/u1.png"; PStr "https://x/u2.png"]
                 (displaying (PStr "https://x/u1.png") (start_world empty_session ∅)))).
Proof.
  destruct (fill_sync_takes_nonempty_urls_first
              [("result_url", PStr "https://x/r.png");
               ("urls", PList [PStr "https://x/u1.png"; PStr "https://x/u2.png"])]
              (start_world empty_session ∅)) as (_ & Hmany & _).
  apply Hmany. reflexivity.
Defined.

Lemma auto_check_nothing_pending head_reply w :
  pending_urls (session w) = [] ->
  run_auto_check head_reply w = (Ok false, w).
Proof.
  intros Hnone.
  assert (Hauto : auto_check_images head_reply 4 w = (Ok (Some false), w)).
  { unfold auto_check_images. rewrite auto_check_while_step, Hnone.
    cbn [nonempty]. now rewrite andb_false_r. }
  unfold run_auto_check. now erewrite bind_ok by exact Hauto.
Qed.

(** X15.  In asynchronous mode the fill tab registers the first
    [num_results] URLs of a [urls] list as the pending list without looking
    whether there are any: the list replaces whatever was pending before, so
    an empty [urls] list clears the pending list, and then nothing is polled
    and no rerun is asked for; a dict without [urls] changes nothing. *)
Theorem fill_async_replaces_pending_list
    (head_reply : nat -> string -> http_result) (num_results : Z)
    (refresh_clicked : bool) (d : list (string * pyval)) (w : world) :
  0 <= num_results ->
  (forall urls, dict_get "urls" d = Some (PList urls) ->
     fill_async_result head_reply num_results refresh_clicked (PDict d) w =
     fill_poll head_reply refresh_clicked
       (registered (firstn (Z.to_nat num_results) urls) w) /\
     (firstn (Z.to_nat num_results) urls = [] ->
      fill_async_result head_reply num_results false (PDict d) w =
      (Ok tt, logged [EvUi UiInfo "Generation started! Waiting for images..."]
                (registered [] w)))) /\
  (dict_get "urls" d = None ->
   fill_async_result head_reply num_results refresh_clicked (PDict d) w = (Ok tt, w)).
Proof.
  intros Hn. split.
  - intros urls Hurls.
    assert (Hrun : forall rc,
      fill_async_result head_reply num_results rc (PDict d) w =
      fill_poll head_reply rc (registered (firstn (Z.to_nat num_results) urls) w)).
    { intros rc. unfold fill_async_result, bind at 1, lift. rewrite py_in_dict, Hurls.
      unfold bind at 1. cbn [subscript]. rewrite Hurls.
      unfold bind at 1. cbn [slice_to]. unfold bind at 1. cbn [iterate].
      unfold bind at 1. cbn [modify_session].
      now rewrite py_slice_firstn. }
    split; [apply Hrun |].
    intros Hempty. rewrite Hrun, Hempty.
    unfold fill_poll. unfold bind at 1. cbn [st_ui emit].
    erewrite bind_ok by (apply auto_check_nothing_pending; reflexivity).
    reflexivity.
  - intros Hurls. unfold fill_async_result, bind, lift.
    now rewrite py_in_dict, Hurls.
Qed.

Lemma fill_async_witness :
  fill_async_result always_404 4 false no_urls (pending_world ["https://x/old.png"])
  = (Ok tt, logged [EvUi UiInfo "Generation started! Waiting for images..."]
              (registered [] (pending_world ["https://x/old.png"]))).
Proof.
  destruct (fill_async_replaces_pending_list always_404 4 false
              [("urls", PList [])] (pending_world ["https://x/old.png"]))
    as (Hurls & _); [lia |].
  destruct (Hurls [] eq_refl) as (_ & Hempty).
  apply Hempty. reflexivity.
Defined.

(** ** The packshot action *)

(** X16.  The packshot action calls the packshot service only after a
    background removal that was asked for has worked: without forced
    removal the service is called at once and no download is made; with
    forced removal, a removal result without [result_url] ends the action
    with "Background removal failed", and a download that is not answered
    200 ends it with its own error, in both cases without calling the
    packshot service and without touching the session.  A packshot result
    with [result_url] becomes the displayed image; an empty one or one
    without the key only shows "No result URL". *)
Theorem packshot_needs_working_background_removal
    (get_reply : nat -> string -> exn + (response * string))
    (bg_reply reply : exn + pyval) (w : world) :
  (forall d v, reply = inr (PDict d) -> dict_get "result_url" d = Some v ->
     packshot_action get_reply false bg_reply reply w =
     (Ok tt, displaying v
               (served "create_packshot"
                  [EvUi UiSuccess "Packshot created successfully!"] w))) /\
  (forall result, reply = inr result ->
     truthy result = false \/
     (exists d, result = PDict d /\ dict_get "result_url" d = None) ->
     packshot_action get_reply false bg_reply reply w =
     (Ok tt, served "create_packshot"
               [EvUi UiError "No result URL in the API response. Please try again."] w)) /\
  (forall bg, bg_reply = inr bg ->
     truthy bg = false \/
     (exists d, bg = PDict d /\ dict_get "result_url" d = None) ->
     packshot_action get_reply true bg_reply reply w =
     (Ok tt, served "remove_background" [EvUi UiError "Background removal failed"] w)) /\
  (forall d s r body, bg_reply = inr (PDict d) ->
     dict_get "result_url" d = Some (PStr s) ->
     get_reply (clock w) s = inr (r, body) -> status_code r <> 200 ->
     packshot_action get_reply true bg_reply reply w =
     (Ok tt, advanced
               (served "remove_background"
                  [EvUi UiError "Failed to download background-removed image"] w))).
Proof.
  unfold packshot_action, packshot_prepare, product_on_result,
    truthy_with_result_url, call_service, try_except, bind, emit, st_ui, emit,
    lift, ret, raise, modify_session, requests_get, tick.
  split_and!.
  - intros d v -> Hurl. cbn [session environ clock log].
    assert (Htruthy : truthy (PDict d) = true)
      by (destruct d; [discriminate Hurl | reflexivity]).
    rewrite Htruthy, py_in_dict. cbn [subscript]. rewrite Hurl.
    unfold displaying, served, logged. cbn [session environ clock log].
    now rewrite <- app_assoc.
  - intros result -> [Hfalsy | (d & -> & Hurl)]; cbn [session environ clock log].
    + rewrite Hfalsy. unfold served, logged. cbn [log].
      now rewrite <- app_assoc.
    + destruct (truthy (PDict d)); rewrite ?py_in_dict, ?Hurl;
        unfold served, logged; cbn [log]; now rewrite <- app_assoc.
  - intros bg -> [Hfalsy | (d & -> & Hurl)]; cbn [session environ clock log].
    + rewrite Hfalsy. unfold served, logged. cbn [log].
      now rewrite <- app_assoc.
    + destruct (truthy (PDict d)); rewrite ?py_in_dict, ?Hurl;
        unfold served, logged; cbn [log]; now rewrite <- app_assoc.
  - intros d s r body -> Hurl Hget Hstatus. cbn [session environ clock log].
    assert (Htruthy : truthy (PDict d) = true)
      by (destruct d; [discriminate Hurl | reflexivity]).
    rewrite Htruthy, py_in_dict. cbn [subscript]. rewrite Hurl.
    unfold bind, raise, ret. cbn [session environ clock log]. rewrite Hget.
    cbn [fst]. apply Z.eqb_neq in Hstatus. rewrite Hstatus.
    unfold advanced, served, logged. cbn [session environ clock log].
    now rewrite <- app_assoc.
Qed.

Lemma packshot_witness :
  packshot_action no_get true (inr (PDict [])) (inr PNone) (start_world empty_session ∅)
  = (Ok tt, served "remove_background" [EvUi UiError "Background removal failed"]
              (start_world empty_session ∅)).
Proof.
  destruct (packshot_needs_working_background_removal no_get (inr (PDict []))
              (inr PNone) (start_world empty_session ∅)) as (_ & _ & Hbg & _).
  apply (Hbg (PDict []) eq_refl). left. reflexivity.
Defined.

(** ** Erase, status and failed submissions *)

(** X17.  The erase action reaches the service only with a drawn canvas and
    a mask that converted: without a drawing it warns and calls nothing,
    and a failed mask conversion goes to the error line without a call.  An
    empty response of the service is passed over in silence, a response
    with [result_url] becomes the displayed image, and a non-empty dict
    without it shows "No result URL". *)
Theorem erase_calls_service_only_with_a_mask
    (reply : exn + pyval) (w : world) :
  erase_action false None reply w =
    (Ok tt, logged [EvUi UiWarning
                      "Please draw on the image to select the area to erase."] w) /\
  (forall e, exists w',
     erase_action true (Some e) reply w = (Ok tt, w') /\
     session w' = session w /\
     List.filter is_call (log w') = List.filter is_call (log w)) /\
  (forall result, reply = inr result -> truthy result = false ->
     erase_action true None reply w = (Ok tt, served "erase_foreground" [] w)) /\
  (forall d v, reply = inr (PDict d) -> dict_get "result_url" d = Some v ->
     erase_action true None reply w =
     (Ok tt, logged [EvUi UiSuccess "Area erased successfully!"]
               (displaying v (served "erase_foreground" [] w)))) /\
  (forall d, reply = inr (PDict d) -> d <> [] -> dict_get "result_url" d = None ->
     erase_action true None reply w =
     (Ok tt, served "erase_foreground"
               [EvUi UiError "No result URL in the API response. Please try again."] w)).
Proof.
  split_and!.
  - reflexivity.
  - intros e. unfold erase_action, try_except, bind, raise.
    cbn [except_clause]. unfold moderation_check, bind, st_ui, emit, ret.
    destruct (contains "422" (str e)); eexists; split_and!; try reflexivity;
      cbn [log]; rewrite !List.filter_app; cbn; now rewrite !app_nil_r.
  - intros result -> Hfalsy.
    unfold erase_action, try_except, bind, call_service, bind, emit, ret.
    cbn [session environ clock log]. now rewrite Hfalsy.
  - intros d v -> Hurl.
    assert (Htruthy : truthy (PDict d) = true)
      by (destruct d; [discriminate Hurl | reflexivity]).
    unfold erase_action, try_except, bind, call_service, bind, emit, ret, lift.
    cbn [session environ clock log]. rewrite Htruthy, py_in_dict.
    cbn [subscript]. rewrite Hurl. reflexivity.
  - intros d -> Hne Hurl.
    assert (Htruthy : truthy (PDict d) = true)
      by (destruct d; [contradiction | reflexivity]).
    unfold erase_action, try_except, bind, call_service, bind, emit, ret, lift.
    cbn [session environ clock log]. rewrite Htruthy, py_in_dict, Hurl.
    unfold served, logged, st_ui, emit. cbn [session environ clock log].
    now rewrite <- app_assoc.
Qed.

Lemma erase_witness :
  erase_action true None (inr (PDict [])) (start_world empty_session ∅)
  = (Ok tt, served "erase_foreground" [] (start_world empty_session ∅)).
Proof.
  destruct (erase_calls_service_only_with_a_mask (inr (PDict []))
              (start_world empty_session ∅)) as (_ & _ & Hempty & _).
  apply (Hempty (PDict [])); reflexivity.
Defined.

(** X18.  The "Check Status" button asks the client only when a key is
    found: with no usable key in the environment or in the session it shows
    "API key required to check status", calls nothing and leaves the
    environment alone; with a non-empty [Fal.ai_LTX_API_KEY] in the
    environment it is that key, not the session's, that is written to
    [FAL_KEY] before the one status request. *)
Theorem status_button_needs_a_key
    (fal_status : string -> string -> exn + pyval)
    (model request_id : string) (w : world) :
  (truthy_key (environ w !! "Fal.ai_LTX_API_KEY") = false ->
   truthy_key (fal_api_key (session w)) = false ->
   status_button fal_status model request_id w =
   (Ok tt, logged [EvUi UiError "API key required to check status"] w)) /\
  (forall e, environ w !! "Fal.ai_LTX_API_KEY" = Some e -> e <> "" ->
     exists w',
       status_button fal_status model request_id w = (Ok tt, w') /\
       environ w' = <["FAL_KEY" := e]> (environ w) /\
       List.filter is_call (log w') =
         List.filter is_call (log w) ++ [EvService "fal_client.status"] /\
       session w' = session w).
Proof.
  split.
  - intros Henv Hsession.
    unfold status_button, try_except, video_fal_key, bind, os_getenv, get_session,
      ret, py_or.
    rewrite Henv, Hsession. reflexivity.
  - intros e Henv He.
    assert (Hne : String.eqb e "" = false) by now apply String.eqb_neq.
    assert (Hfound : video_fal_key w = (Ok (Some e), w)).
    { unfold video_fal_key, bind, os_getenv, get_session, ret, py_or.
      rewrite Henv. cbn [truthy_key]. now rewrite Hne. }
    unfold status_button, try_except.
    erewrite bind_ok by exact Hfound.
    cbn [truthy_key]. rewrite Hne. cbn [negb].
    assert (Hrun : check_video_status fal_status model request_id (Some e) w =
              (match fal_status model request_id with
               | inl err => Raise (Exn PlainException ("Status check failed: " +:+ str err))
               | inr v => Ok v
               end,
               {| session := session w; environ := environ (with_fal_key (Some e) w);
                  clock := clock w; log := log w ++ [EvService "fal_client.status"] |}))
      by apply wrapped_call_run.
    unfold bind at 1. rewrite Hrun. cbn [with_fal_key]. rewrite Hne. cbn [negb environ].
    destruct (fal_status model request_id) as [err | v];
      eexists; split_and!; try reflexivity;
      cbn [st_ui emit log]; rewrite !List.filter_app; cbn;
      now rewrite ?app_nil_r.
Qed.

Lemma status_button_witness :
  exists w',
    status_button failing_status "fal-ai/luma-dream-machine" "request-1" both_keys
      = (Ok tt, w') /\
    environ w' = <["FAL_KEY" := "env-key"]> (environ both_keys).
Proof.
  destruct (status_button_needs_a_key failing_status "fal-ai/luma-dream-machine"
              "request-1" both_keys) as (_ & Hkey).
  destruct (Hkey "env-key" eq_refl) as (w' & Hrun & Henv & _); [discriminate |].
  exists w'. split; assumption.
Defined.

(** X19.  A lifestyle-shot submission that fails or comes back empty never
    polls and never changes the session, in either mode.  With the placement
    "Original", "Automatic" or "Custom Coordinates" the service is called
    once: its failure shows the error line (and the moderation warning when
    the text contains "422") right after the call, and an empty response
    ends the action after the call without any message.  With "Manual
    Placement" or "Manual Padding" the shot size was never assigned, so the
    arguments of the call cannot be built: the action ends after one error
    line and the service is not called, whatever it would have answered. *)
Theorem failed_lifestyle_submission_changes_nothing
    (head_reply : nat -> string -> http_result) (experimental_rerun : bool)
    (placement : placement_type) (sync_mode : bool)
    (num_results : Z) (refresh_clicked : bool) (w : world) :
  (placement = Original \/ shot_size_assigned placement = true ->
   (forall e,
      lifestyle_text_action head_reply experimental_rerun placement sync_mode
        num_results refresh_clicked (inl e) w =
      (Ok tt,
       served "lifestyle_shot_by_text"
         (EvUi UiError ("Error: " +:+ str e)
          :: (if contains "422" (str e)
              then [EvUi UiWarning (moderation_advice LifestyleText)] else [])) w) /\
      lifestyle_image_action head_reply experimental_rerun placement sync_mode
        num_results refresh_clicked (inl e) w =
      (Ok tt,
       served "lifestyle_shot_by_image"
         (EvUi UiError ("Error: " +:+ str e)
          :: (if contains "422" (str e)
              then [EvUi UiWarning (moderation_advice LifestyleImage)] else [])) w)) /\
   (forall result, truthy result = false ->
      lifestyle_text_action head_reply experimental_rerun placement sync_mode
        num_results refresh_clicked (inr result) w =
        (Ok tt, served "lifestyle_shot_by_text" [] w) /\
      lifestyle_image_action head_reply experimental_rerun placement sync_mode
        num_results refresh_clicked (inr result) w =
        (Ok tt, served "lifestyle_shot_by_image" [] w))) /\
  (placement = ManualPlacement \/ placement = ManualPadding ->
   exists msg,
     forall reply,
       lifestyle_text_action head_reply experimental_rerun placement sync_mode
         num_results refresh_clicked reply w =
         (Ok tt, logged [EvUi UiError ("Error: " +:+ msg)] w) /\
       lifestyle_image_action head_reply experimental_rerun placement sync_mode
         num_results refresh_clicked reply w =
         (Ok tt, logged [EvUi UiError ("Error: " +:+ msg)] w)).
Proof.
  split.
  - intros Hsize.
    assert (Hargs : shot_size_argument placement = ret tt).
    { destruct Hsize as [-> | Hsize]; [reflexivity |].
      destruct placement; try discriminate; reflexivity. }
    split.
    + intros e.
      unfold lifestyle_text_action, lifestyle_image_action, try_except.
      rewrite Hargs.
      unfold bind, ret, call_service, bind, emit, raise.
      cbn [except_clause]. unfold moderation_check, bind, st_ui, emit, ret.
      cbn [moderation_advice session environ clock log].
      unfold served, logged. cbn [session environ clock log].
      destruct (contains "422" (str e)); cbn [session environ clock log];
        rewrite <- ?app_assoc; cbn [app]; split; reflexivity.
    + intros result Hfalsy.
      unfold lifestyle_text_action, lifestyle_image_action, try_except.
      rewrite Hargs.
      unfold bind, call_service, bind, emit, ret, lifestyle_on_result.
      rewrite Hfalsy. split; reflexivity.
  - intros Hmanual.
    exists "cannot access local variable 'shot_width' where it is not associated with a value".
    intros reply.
    destruct Hmanual as [-> | ->]; split; reflexivity.
Qed.

Lemma failed_lifestyle_witness :
  lifestyle_text_action always_404 true Original false 4 false (inr (PDict []))
    (start_world empty_session ∅)
  = (Ok tt, served "lifestyle_shot_by_text" [] (start_world empty_session ∅)).
Proof.
  destruct (failed_lifestyle_submission_changes_nothing always_404 true Original
              false 4 false (start_world empty_session ∅)) as (Hcalled & _).
  destruct (Hcalled (or_introl eq_refl)) as (_ & Hempty).
  apply (Hempty (PDict []) eq_refl).
Defined.

(** With "Manual Padding" a response full of URLs is never asked for. *)
Example manual_padding_never_reaches_service :
  let '(r, w') := lifestyle_text_action always_200 true ManualPadding false 4 false
                    (inr five_urls) (start_world empty_session ∅) in
  r = Ok tt /\ List.filter is_call (log w') = [] /\
  session w' = empty_session /\ clock w' = 0%nat.
Proof. vm_compute. repeat split. Qed.

Lemma quiet_except_clause op e : respects quiet (except_clause op e).
Proof.
  destruct op; cbn [except_clause]; unfold moderation_check; walk_quiet.
Qed.

Lemma quiet_hd_image_result result : respects quiet (hd_image_result result).
Proof.
  unfold hd_image_result, sync_nested_result.
  destruct (is_dict result); [| walk_quiet].
  destruct (has_key "result_url" result);
    [walk_quiet; apply quiet_show_result |].
  destruct (has_key "result_urls" result);
    [walk_quiet; apply quiet_show_result |].
  destruct (has_key "result" result); [| walk_quiet].
  destruct (subscript "result" result) as [[| | | | items |] | |]; try walk_quiet.
  apply quiet_sync_result_items.
Qed.

Lemma one_call_then_quiet name reply (k : pyval -> M unit) (h : exn -> M unit) w :
  (forall v, respects quiet (k v)) -> (forall e, respects quiet (h e)) ->
  quiet (served name [] w)
    (snd (try_except (result <- call_service name reply ;; k result) h w)).
Proof.
  intros Hk Hh.
  unfold try_except, bind at 1, call_service, bind at 1, emit, raise, ret.
  fold (logged [EvService name] w). fold (served name [] w).
  destruct reply as [e | v].
  - apply Hh.
  - specialize (Hk v (served name [] w)).
    destruct (k v (served name [] w)) as [[[] | e |] w2]; cbn [snd] in *;
      try exact Hk.
    eapply quiet_trans; [exact Hk | apply Hh].
Qed.

(** X20.  With a session key the "Generate Images" action sends exactly one
    call, to its service, whatever comes back, makes no HTTP request of its
    own, and changes nothing in the session but the displayed image: the
    keys, the pending list and the stored images stay as they were, and so
    does the environment.  A non-empty response that is not a dict is
    answered with "No valid result format found in the API response."; an
    empty response ends the action without any message; and a failure of
    the service shows the two error lines. *)
Theorem generate_images_calls_service_once
    (reply : exn + pyval) (w : world) :
  truthy_key (api_key (session w)) = true ->
  (let w' := snd (generate_images_action reply w) in
   List.filter is_call (log w') =
     List.filter is_call (log w) ++ [EvService "generate_hd_image"] /\
   clock w' = clock w /\ environ w' = environ w /\
   generated_images (session w') = generated_images (session w) /\
   pending_urls (session w') = pending_urls (session w) /\
   session w' = set_edited_image (edited_image (session w')) (session w)) /\
  (forall result, reply = inr result -> truthy result = true ->
     is_dict result = false ->
     generate_images_action reply w =
     (Ok tt, served "generate_hd_image"
               [EvUi UiWrite "Debug - Raw API Response:";
                EvUi UiError "No valid result format found in the API response."] w)) /\
  (forall result, reply = inr result -> truthy result = false ->
     generate_images_action reply w = (Ok tt, served "generate_hd_image" [] w)) /\
  (forall e, reply = inl e ->
     generate_images_action reply w =
     (Ok tt, served "generate_hd_image"
               [EvUi UiError ("Error generating images: " +:+ str e);
                EvUi UiWrite ("Full error: " +:+ str e)] w)).
Proof.
  intros Hkey.
  assert (Hstart : forall body : M unit,
    (s <- get_session ;;
     if negb (truthy_key (api_key s))
     then st_ui UiError "Please enter your API key in the sidebar."
     else body) w = body w).
  { intros body. unfold bind, get_session. now rewrite Hkey. }
  unfold generate_images_action. rewrite Hstart.
  split.
  { cbv zeta.
    match goal with
    | |- context [snd (try_except ?m ?h w)] =>
        assert (Hsent : quiet (served "generate_hd_image" [] w) (snd (try_except m h w)))
    end.
    { apply one_call_then_quiet.
      - intros v. destruct (truthy v); walk_quiet. apply quiet_hd_image_result.
      - apply quiet_except_clause. }
    destruct Hsent as ((Hdisplay & Henv) & Hstored & Hclock & Hcalls).
    cbn [served logged session environ clock log] in Hdisplay, Henv, Hstored, Hclock.
    split_and!.
    - rewrite Hcalls. unfold served, logged. cbn [log].
      now rewrite List.filter_app.
    - exact Hclock.
    - exact Henv.
    - exact Hstored.
    - now destruct Hdisplay as (_ & _ & _ & Hpending).
    - now apply only_display_changed. }
  split_and!.
  - intros result -> Htruthy Hdict.
    unfold try_except, bind, call_service, bind, emit, ret, hd_image_result, st_ui, emit.
    cbn [session environ clock log]. rewrite Htruthy, Hdict.
    unfold served, logged. cbn [session environ clock log].
    now rewrite <- !app_assoc.
  - intros result -> Hfalsy.
    unfold try_except, bind, call_service, bind, emit, ret.
    cbn [session environ clock log]. now rewrite Hfalsy.
  - intros e ->.
    unfold try_except, bind, call_service, bind, emit, raise.
    cbn [except_clause]. unfold bind, st_ui, emit.
    unfold served, logged. cbn [session environ clock log].
    now rewrite <- !app_assoc.
Qed.

Lemma generate_images_witness :
  generate_images_action (inr (PList [PStr "https://x/u1.png"]))
    (start_world (set_api_key (Some "key") empty_session) ∅)
  = (Ok tt, served "generate_hd_image"
              [EvUi UiWrite "Debug - Raw API Response:";
               EvUi UiError "No valid result format found in the API response."]
              (start_world (set_api_key (Some "key") empty_session) ∅)).
Proof.
  destruct (generate_images_calls_service_once (inr (PList [PStr "https://x/u1.png"]))
              (start_world (set_api_key (Some "key") empty_session) ∅) eq_refl)
    as (_ & Hformat & _).
  apply (Hformat (PList [PStr "https://x/u1.png"])); reflexivity.
Defined.

(** ** Missing credentials *)

Lemma quiet_product_on_result success result :
  respects quiet (product_on_result success result).
Proof. unfold product_on_result, truthy_with_result_url. walk_quiet. Qed.

Lemma one_call_logged name reply (k : pyval -> M unit) (h : exn -> M unit) w :
  (forall v, respects quiet (k v)) -> (forall e, respects quiet (h e)) ->
  List.filter is_call
    (log (snd (try_except (result <- call_service name reply ;; k result) h w))) =
  List.filter is_call (log w) ++ [EvService name].
Proof.
  intros Hk Hh.
  destruct (one_call_then_quiet name reply k h w Hk Hh) as (_ & _ & _ & Hcalls).
  rewrite Hcalls. unfold served, logged. cbn [log].
  now rewrite List.filter_app.
Qed.

(** C8 (as amended).  Called with no usable [api_key] and with no [FAL_KEY]
    in the environment, [generate_video_from_image] raises its [ValueError]
    and leaves the world as it was: nothing is sent and the environment is
    not touched.  The "Generate Images" and "Generate" (generative fill)
    actions without a session key do not raise: they show "Please enter your
    API key in the sidebar." and end normally without calling their service.
    The shadow, erase and packshot actions test no key at all: whatever the
    session and the environment hold, they call their service function. *)
Theorem C8_missing_key_raises_before_any_call
    (fal_subscribe : string -> list (string * pyval) -> exn + pyval)
    (fal_submit : string -> list (string * pyval) -> option string -> exn + string)
    (head_reply : nat -> string -> http_result)
    (get_reply : nat -> string -> exn + (response * string))
    (image_url prompt model : string) (key : option string)
    (duration fps aspect_ratio motion_strength seed : option pyval)
    (webhook_url : option string) (sync : bool)
    (fill_prompt : string) (has_mask : bool) (mask_error : option exn)
    (sync_mode : bool) (num_results : Z) (refresh_clicked : bool)
    (bg_reply reply : exn + pyval) (w : world) :
  truthy_key key = false ->
  truthy_key (environ w !! "FAL_KEY") = false ->
  generate_video_from_image fal_subscribe fal_submit image_url prompt model key
    duration fps aspect_ratio motion_strength seed webhook_url sync w
  = (Raise (Exn ValueError
       "FAL_KEY environment variable or api_key parameter must be set"), w) /\
  (truthy_key (api_key (session w)) = false ->
   generate_images_action reply w =
     (Ok tt, logged [EvUi UiError "Please enter your API key in the sidebar."] w) /\
   fill_action head_reply fill_prompt has_mask mask_error sync_mode num_results
     refresh_clicked reply w =
     (Ok tt, logged [EvUi UiError "Please enter your API key in the sidebar."] w) /\
   List.filter is_call
     (log (logged [EvUi UiError "Please enter your API key in the sidebar."] w)) =
   List.filter is_call (log w)) /\
  List.filter is_call (log (snd (shadow_action reply w))) =
    List.filter is_call (log w) ++ [EvService "add_shadow"] /\
  List.filter is_call (log (snd (erase_action true None reply w))) =
    List.filter is_call (log w) ++ [EvService "erase_foreground"] /\
  List.filter is_call (log (snd (packshot_action get_reply false bg_reply reply w))) =
    List.filter is_call (log w) ++ [EvService "create_packshot"].
Proof.
  intros Hkey Henv. split_and!.
  - unfold generate_video_from_image. rewrite Hkey.
    unfold bind at 1. unfold bind at 1. cbn [os_getenv]. now rewrite Henv.
  - intros Hsession. split_and!.
    + unfold generate_images_action, bind, get_session.
      now rewrite Hsession.
    + unfold fill_action, bind, get_session.
      now rewrite Hsession.
    + unfold logged. cbn [log]. rewrite List.filter_app. cbn. now rewrite app_nil_r.
  - unfold shadow_action. apply one_call_logged.
    + intros v. apply quiet_product_on_result.
    + apply quiet_except_clause.
  - apply (one_call_logged "erase_foreground" reply
             (fun result =>
                if truthy result then
                  found <- lift (py_in "result_url" result) ;;
                  if found then
                    v <- lift (subscript "result_url" result) ;;
                    modify_session (set_edited_image v) ;;;
                    st_ui UiSuccess "Area erased successfully!"
                  else st_ui UiError "No result URL in the API response. Please try again."
                else ret tt)
             (except_clause Erase) w).
    + intros v. walk_quiet.
    + apply quiet_except_clause.
  - apply (one_call_logged "create_packshot" reply
             (product_on_result "Packshot created successfully!")
             (except_clause Packshot) w).
    + intros v. apply quiet_product_on_result.
    + apply quiet_except_clause.
Qed.

Lemma C8_missing_key_witness :
  truthy_key (Some "") = false /\
  generate_video_from_image no_subscribe no_submit "https://x/u1.png" "a walk"
    "fal-ai/minimax-video/image-to-video" (Some "") None None None None None
    None true (start_world empty_session ∅)
  = (Raise (Exn ValueError
       "FAL_KEY environment variable or api_key parameter must be set"),
     start_world empty_session ∅).
Proof.
  split; [reflexivity |].
  apply (C8_missing_key_raises_before_any_call no_subscribe no_submit always_404
           no_get "https://x/u1.png" "a walk" "fal-ai/minimax-video/image-to-video"
           (Some "") None None None None None None true
           "a vase" true None true 4 false (inr PNone) (inr PNone)
           (start_world empty_session ∅)); reflexivity.
Defined.

(** With no key anywhere the "Generate Images" action ends normally instead
    of raising, and the "Add Shadow" action calls its service. *)
Lemma C8_no_key_neither_raises_nor_holds_back :
  api_key (session (start_world empty_session ∅)) = None /\
  environ (start_world empty_session ∅) = ∅ /\
  fst (generate_images_action (inr PNone) (start_world empty_session ∅)) = Ok tt /\
  shadow_action (inr PNone) (start_world empty_session ∅) =
    (Ok tt,
     served "add_shadow"
       [EvUi UiError "No result URL in the API response. Please try again."]
       (start_world empty_session ∅)).
Proof. split_and!; reflexivity. Qed.
